(** * OnePlus force-dump key combination, netlink notifier and vbswap helper

    A shallow embedding of

    - [drivers/oneplus/misc/oem_force_dump.c]: the key-combination
      recognizer [oem_check_force_dump_key], the netlink channel
      ([send_msg], [recv_nlmsg]), the deferred notifier
      ([send_msg_worker]) and the task scans that deliver the
      trace / tombstone signals;
    - [drivers/block/vbswap/vbswap_helper.c]: the bounded retry loop of
      [vbswap_helper].

    C [int] and [unsigned int] values are integers of [Z]; the places
    where the code converts between the two widths are written out with
    [to_u32] and [to_s32].  File-scope variables of the C code are the
    fields of one record that every function threads explicitly.  A
    call that never returns ([panic]) is a separate outcome. *)

From Stdlib Require Import ZArith List String Ascii Bool Lia.
Import ListNotations.
Open Scope Z_scope.

(** ** Machine integers *)

Definition to_u32 (x : Z) : Z := x mod 2 ^ 32.

Definition to_s32 (x : Z) : Z :=
  let r := x mod 2 ^ 32 in
  if r <? 2 ^ 31 then r else r - 2 ^ 32.

(** C truth value of an integer used as a condition. *)
Definition truthy (v : Z) : bool := negb (v =? 0).

Module Oem.

(** ** Constants taken from kernel headers *)

(** Modelled from the spec: the key-code macros live in
    [include/uapi/linux/input-event-codes.h], which is not part of the
    sources at hand.  The spec only says that POWER, VOLUME_UP and
    VOLUME_DOWN are distinct codes of one enumeration; the values below
    are those of the Linux header. *)
Definition KEY_VOLUMEDOWN : Z := 114.
Definition KEY_VOLUMEUP : Z := 115.
Definition KEY_POWER : Z := 116.

Definition MAX_MSGSIZE : Z := 1024.

(** ** Observable effects *)

Inductive effect : Type :=
| Printk (line : string)
| Pr_err_received (data : string) (fd : Z)
| Netlink_unicast (portid : Z) (payload : string)
| Msm_serial_oem_init.

(** ** File-scope state *)

(** The function-static [state] of [oem_check_force_dump_key]. *)
Inductive key_state : Type :=
| NONE | STEP1 | STEP2 | STEP3 | STEP4 | STEP5 | STEP6
| STEP7 | STEP8 | STEP9 | STEP10 | STEP11 | STEP_DEBUG1.

Record kernel : Type := mkKernel {
  state : key_state;          (* static enum ... state = NONE *)
  message_state : Z;          (* static int message_state = -1 *)
  selinux_switch : Z;         (* static int selinux_switch *)
  fd : Z;                     (* static int fd = -1 *)
  nl_sk : bool;               (* struct sock *nl_sk, true when non-NULL *)
  smg_workwq : bool;          (* smg_workwq is non-NULL and INIT_WORK has
                                 been done on smg_work *)
  work_pending : bool;        (* smg_work is queued on smg_workwq *)
  trace : list effect         (* what the code has done so far, oldest first *)
}.

Definition init_kernel : kernel :=
  {| state := NONE; message_state := -1; selinux_switch := 0; fd := -1;
     nl_sk := false; smg_workwq := false; work_pending := false;
     trace := [] |}.

Definition set_state (s : key_state) (k : kernel) : kernel :=
  {| state := s; message_state := message_state k;
     selinux_switch := selinux_switch k; fd := fd k; nl_sk := nl_sk k;
     smg_workwq := smg_workwq k; work_pending := work_pending k; trace := trace k |}.

Definition set_message_state (m : Z) (k : kernel) : kernel :=
  {| state := state k; message_state := m;
     selinux_switch := selinux_switch k; fd := fd k; nl_sk := nl_sk k;
     smg_workwq := smg_workwq k; work_pending := work_pending k; trace := trace k |}.

Definition set_fd (a : Z) (k : kernel) : kernel :=
  {| state := state k; message_state := message_state k;
     selinux_switch := selinux_switch k; fd := a; nl_sk := nl_sk k;
     smg_workwq := smg_workwq k; work_pending := work_pending k; trace := trace k |}.

Definition set_nl_sk (b : bool) (k : kernel) : kernel :=
  {| state := state k; message_state := message_state k;
     selinux_switch := selinux_switch k; fd := fd k; nl_sk := b;
     smg_workwq := smg_workwq k; work_pending := work_pending k; trace := trace k |}.

Definition set_work_pending (b : bool) (k : kernel) : kernel :=
  {| state := state k; message_state := message_state k;
     selinux_switch := selinux_switch k; fd := fd k; nl_sk := nl_sk k;
     smg_workwq := smg_workwq k; work_pending := b; trace := trace k |}.

Definition set_smg_workwq (b : bool) (k : kernel) : kernel :=
  {| state := state k; message_state := message_state k;
     selinux_switch := selinux_switch k; fd := fd k; nl_sk := nl_sk k;
     smg_workwq := b; work_pending := work_pending k; trace := trace k |}.

Definition emit (e : effect) (k : kernel) : kernel :=
  {| state := state k; message_state := message_state k;
     selinux_switch := selinux_switch k; fd := fd k; nl_sk := nl_sk k;
     smg_workwq := smg_workwq k; work_pending := work_pending k; trace := trace k ++ [e] |}.

(** [set_oem_selinux_state]: stores its argument, returns 0. *)
Definition set_oem_selinux_state (st : Z) (k : kernel) : kernel * Z :=
  ({| state := state k; message_state := message_state k;
      selinux_switch := st; fd := fd k; nl_sk := nl_sk k;
      smg_workwq := smg_workwq k; work_pending := work_pending k; trace := trace k |}, 0).

Definition get_oem_selinux_state (k : kernel) : Z := selinux_switch k.

(** ** Outcomes: a call returns, the kernel panics, or it faults

    [Panic] is a call of [panic]; [Oops] is a fault of the kernel
    itself, here the dereference of a NULL pointer. *)

Inductive outcome (A : Type) : Type :=
| Ret (a : A)
| Panic (msg : string)
| Oops (what : string).
Arguments Ret {A} a.
Arguments Panic {A} msg.
Arguments Oops {A} what.

Definition bind {A B : Type} (o : outcome A) (f : A -> outcome B) : outcome B :=
  match o with
  | Ret a => f a
  | Panic m => Panic m
  | Oops w => Oops w
  end.

Notation "x <- c ;; k" := (bind c (fun x => k))
  (at level 61, c at next level, right associativity).

(** [queue_work(smg_workwq, &smg_work)].  The work queue is
    dereferenced: with [smg_workwq] still NULL, as it is until
    [op_netlink_init] has created it, the call faults.  Otherwise the
    work item has one pending bit, and queueing an item that is already
    pending changes nothing. *)
Definition queue_work (k : kernel) : outcome kernel :=
  if smg_workwq k
  then Ret (set_work_pending true k)
  else Oops "queue_work: smg_workwq is NULL".

(** ** The recognizer *)

(** [oem_check_force_dump_key(code, value)].  [download_mode] is what
    [oem_get_download_mode()] answers if this call asks. *)
Definition oem_check_force_dump_key
    (download_mode : bool) (k : kernel) (code value : Z) : outcome kernel :=
  match state k with
  | NONE =>
      if (code =? KEY_VOLUMEUP) && truthy value
      then Ret (set_state STEP1 k) else Ret (set_state NONE k)
  | STEP1 =>
      if (code =? KEY_VOLUMEUP) && negb (truthy value)
      then Ret (set_state STEP2 k) else Ret (set_state NONE k)
  | STEP2 =>
      if (code =? KEY_VOLUMEDOWN) && truthy value
      then Ret (set_state STEP3 k) else Ret (set_state NONE k)
  | STEP3 =>
      if (code =? KEY_VOLUMEDOWN) && negb (truthy value)
      then Ret (set_state STEP4 k) else Ret (set_state NONE k)
  | STEP4 =>
      if (code =? KEY_VOLUMEUP) && truthy value
      then Ret (set_state STEP5 k) else Ret (set_state NONE k)
  | STEP5 =>
      if (code =? KEY_POWER) && truthy value
      then Ret (set_state STEP6 k) else Ret (set_state NONE k)
  | STEP6 =>
      if (code =? KEY_POWER) && negb (truthy value)
      then Ret (set_state STEP7 k) else Ret (set_state NONE k)
  | STEP7 =>
      if (code =? KEY_POWER) && truthy value
      then Ret (set_state STEP8 k) else Ret (set_state NONE k)
  | STEP8 =>
      if (code =? KEY_POWER) && negb (truthy value)
      then Ret (set_state STEP9 k) else Ret (set_state NONE k)
  | STEP9 =>
      if (code =? KEY_VOLUMEUP) && negb (truthy value)
      then Ret (set_state STEP10 k) else Ret (set_state NONE k)
  | STEP10 =>
      if (code =? KEY_VOLUMEUP) && truthy value
      then Ret (set_state STEP11 k)
      else if (code =? KEY_VOLUMEDOWN) && truthy value
      then Ret (set_state STEP_DEBUG1 k)
      else Ret (set_state NONE k)
  | STEP11 =>
      if (code =? KEY_POWER) && truthy value
      then (if download_mode then Panic "Force Dump" else Ret k)
      else Ret (set_state NONE k)
  | STEP_DEBUG1 =>
      if (code =? KEY_POWER) && truthy value
      then
        let k1 := fst (set_oem_selinux_state 1 k) in
        let k2 := set_message_state 1 k1 in
        k3 <- queue_work k2 ;;
        Ret (set_state NONE k3)
      else if (code =? KEY_VOLUMEDOWN) && negb (truthy value)
      then
        let k1 := set_message_state 2 k in
        k2 <- queue_work k1 ;;
        Ret (set_state NONE k2)
      else Ret (set_state NONE k)
  end.

(** An input event as the input layer hands it over: (code, value). *)
Definition event : Type := (Z * Z)%type.

(** The events delivered one after the other; a panic ends the run. *)
Fixpoint feed (download_mode : bool) (k : kernel) (evs : list event)
    : outcome kernel :=
  match evs with
  | [] => Ret k
  | (code, value) :: rest =>
      k' <- oem_check_force_dump_key download_mode k code value ;;
      feed download_mode k' rest
  end.

(** The outcome of every single call of a run, in order. *)
Fixpoint feed_trace (download_mode : bool) (k : kernel) (evs : list event)
    : list (outcome kernel) :=
  match evs with
  | [] => []
  | (code, value) :: rest =>
      match oem_check_force_dump_key download_mode k code value with
      | Ret k' => Ret k' :: feed_trace download_mode k' rest
      | Panic m => [Panic m]
      | Oops w => [Oops w]
      end
  end.

(** The key sequences of the comment above the function. *)
Definition common_prefix : list event :=
  [ (KEY_VOLUMEUP, 1); (KEY_VOLUMEUP, 0);
    (KEY_VOLUMEDOWN, 1); (KEY_VOLUMEDOWN, 0);
    (KEY_VOLUMEUP, 1);
    (KEY_POWER, 1); (KEY_POWER, 0); (KEY_POWER, 1); (KEY_POWER, 0);
    (KEY_VOLUMEUP, 0) ].

Definition primary_sequence : list event :=
  common_prefix ++ [ (KEY_VOLUMEUP, 1) ].

Definition force_dump_sequence : list event :=
  primary_sequence ++ [ (KEY_POWER, 1) ].

Definition debug_enable_sequence : list event :=
  common_prefix ++ [ (KEY_VOLUMEDOWN, 1); (KEY_POWER, 1) ].

Definition force_serial_sequence : list event :=
  common_prefix ++ [ (KEY_VOLUMEDOWN, 1); (KEY_VOLUMEDOWN, 0) ].

(** A call "takes no action" when it returns and changed nothing but
    the recognizer's own state. *)
Definition no_action (k : kernel) (o : outcome kernel) : Prop :=
  exists s, o = Ret (set_state s k).

Definition is_force_dump (o : outcome kernel) : bool :=
  match o with
  | Panic m => String.eqb m "Force Dump"
  | _ => false
  end.


(** ** What the recognizer is waiting for

    The transition table read as a graph: from every state, the events
    (code, pressed) that the [if] conditions of that [case] accept. *)

Definition pressed_event : Type := (Z * bool)%type.

Definition abstract (e : event) : pressed_event := (fst e, truthy (snd e)).

Definition pressed_event_eqb (a b : pressed_event) : bool :=
  (fst a =? fst b) && Bool.eqb (snd a) (snd b).

Definition expected_next (s : key_state) : list pressed_event :=
  match s with
  | NONE => [(KEY_VOLUMEUP, true)]
  | STEP1 => [(KEY_VOLUMEUP, false)]
  | STEP2 => [(KEY_VOLUMEDOWN, true)]
  | STEP3 => [(KEY_VOLUMEDOWN, false)]
  | STEP4 => [(KEY_VOLUMEUP, true)]
  | STEP5 => [(KEY_POWER, true)]
  | STEP6 => [(KEY_POWER, false)]
  | STEP7 => [(KEY_POWER, true)]
  | STEP8 => [(KEY_POWER, false)]
  | STEP9 => [(KEY_VOLUMEUP, false)]
  | STEP10 => [(KEY_VOLUMEUP, true); (KEY_VOLUMEDOWN, true)]
  | STEP11 => [(KEY_POWER, true)]
  | STEP_DEBUG1 => [(KEY_POWER, true); (KEY_VOLUMEDOWN, false)]
  end.

Definition is_expected (s : key_state) (e : event) : bool :=
  existsb (pressed_event_eqb (abstract e)) (expected_next s).

(** The edges of the graph that lead to another in-progress state (the
    last event of a path, taken from [STEP11] or [STEP_DEBUG1], is not
    one of them). *)
Definition advance (s : key_state) (e : pressed_event) : option key_state :=
  let '(code, pressed) := e in
  match s with
  | NONE => if (code =? KEY_VOLUMEUP) && pressed then Some STEP1 else None
  | STEP1 => if (code =? KEY_VOLUMEUP) && negb pressed then Some STEP2 else None
  | STEP2 => if (code =? KEY_VOLUMEDOWN) && pressed then Some STEP3 else None
  | STEP3 => if (code =? KEY_VOLUMEDOWN) && negb pressed then Some STEP4 else None
  | STEP4 => if (code =? KEY_VOLUMEUP) && pressed then Some STEP5 else None
  | STEP5 => if (code =? KEY_POWER) && pressed then Some STEP6 else None
  | STEP6 => if (code =? KEY_POWER) && negb pressed then Some STEP7 else None
  | STEP7 => if (code =? KEY_POWER) && pressed then Some STEP8 else None
  | STEP8 => if (code =? KEY_POWER) && negb pressed then Some STEP9 else None
  | STEP9 => if (code =? KEY_VOLUMEUP) && negb pressed then Some STEP10 else None
  | STEP10 =>
      if (code =? KEY_VOLUMEUP) && pressed then Some STEP11
      else if (code =? KEY_VOLUMEDOWN) && pressed then Some STEP_DEBUG1
      else None
  | STEP11 => None
  | STEP_DEBUG1 => None
  end.

(** [follows s evs] is the state reached when [evs] walks along the
    graph from [s] without leaving it and without finishing a path. *)
Fixpoint follows (s : key_state) (evs : list event) : option key_state :=
  match evs with
  | [] => Some s
  | e :: rest =>
      match advance s (abstract e) with
      | Some s' => follows s' rest
      | None => None
      end
  end.

(** The three complete paths, as lists of (code, pressed). *)
Definition defined_paths : list (list pressed_event) :=
  [ map abstract force_dump_sequence;
    map abstract debug_enable_sequence;
    map abstract force_serial_sequence ].

Fixpoint is_prefix (l p : list pressed_event) : bool :=
  match l, p with
  | [], _ => true
  | a :: l', b :: p' => pressed_event_eqb a b && is_prefix l' p'
  | _ :: _, [] => false
  end.

(** [occurs p h]: the events [p] stand somewhere in [h], one after the
    other. *)
Fixpoint occurs (p h : list pressed_event) : bool :=
  is_prefix p h
  || match h with
     | [] => false
     | _ :: rest => occurs p rest
     end.

(** No path that leads to an action occurs in [h]: neither of the two
    debug paths, and not the force-dump path either while download mode
    is enabled (with download mode disabled its last event does
    nothing). *)
Definition path_free (download_mode : bool) (h : list pressed_event) : bool :=
  negb (occurs (map abstract debug_enable_sequence) h)
  && negb (occurs (map abstract force_serial_sequence) h)
  && (negb download_mode || negb (occurs (map abstract force_dump_sequence) h)).

(** The same as a proposition. *)
Definition stands_in (p h : list pressed_event) : Prop :=
  exists pre post, h = pre ++ p ++ post.

(** A sequence is on a defined path when it is one of the paths or an
    initial part of one. *)
Definition on_defined_path (evs : list event) : bool :=
  existsb (is_prefix (map abstract evs)) defined_paths.

(** ** The netlink channel *)

(** Modelled from the spec: [NLMSG_HDRLEN] comes from
    [include/uapi/linux/netlink.h], absent here; it is the "small fixed
    header" of the message framing, 16 bytes in the Linux header. *)
Definition NLMSG_HDRLEN : Z := 16.

(** What [recv_nlmsg] reads of an inbound buffer: [skb->len] and the
    fields of the netlink header at its start ([nlmsg_len] and
    [nlmsg_pid] are [__u32]), and the text after the header. *)
Record sk_buff : Type := mkSkb {
  skb_len : Z;
  nlmsg_len : Z;
  nlmsg_pid : Z;
  nlmsg_data : string
}.

(** [strlcpy(dst, src, size)]: at most [size - 1] bytes are copied. *)
Definition strlcpy (src : string) (size : Z) : string :=
  substring 0 (Z.to_nat (size - 1)) src.

Definition show_message (message : option string) : string :=
  match message with
  | Some m => m
  | None => "(null)"
  end.

(** [send_msg(message)].  [alloc_ok] says whether [alloc_skb] succeeds.
    [netlink_unicast] takes the destination as a [u32] port id. *)
Definition send_msg (alloc_ok : bool) (message : option string) (k : kernel)
    : kernel :=
  let k1 := emit (Printk ("send_msg," ++ show_message message)) k in
  match message with
  | None => k1
  | Some m =>
      if negb (nl_sk k1) then k1
      else if negb alloc_ok then k1
      else emit (Netlink_unicast (to_u32 (fd k1)) (strlcpy m MAX_MSGSIZE)) k1
  end.

Definition send_msg_sync_mdm_dump (alloc_ok : bool) (k : kernel) : kernel :=
  send_msg alloc_ok (Some "FORCE_MDM_DUMP_SYNC"%string) k.

(** [recv_nlmsg(skb)]: [fd = nlh->nlmsg_pid] stores a [__u32] in an
    [int]. *)
Definition recv_nlmsg (skb : sk_buff) (k : kernel) : kernel :=
  if (nlmsg_len skb <? NLMSG_HDRLEN) || (skb_len skb <? nlmsg_len skb)
  then k
  else
    let k1 := set_fd (to_s32 (nlmsg_pid skb)) k in
    emit (Pr_err_received (nlmsg_data skb) (fd k1)) k1.

(** The test of [recv_nlmsg], the other way round. *)
Definition well_formed (skb : sk_buff) : bool :=
  (NLMSG_HDRLEN <=? nlmsg_len skb) && (nlmsg_len skb <=? skb_len skb).

(** [op_netlink_init]: [sock_ok] and [wq_ok] say whether the socket and
    the work queue could be created.  The work queue is only created
    once the socket exists, and [INIT_WORK], which leaves the work item
    not pending, is only reached once the work queue exists. *)
Definition op_netlink_init (sock_ok wq_ok : bool) (k : kernel) : kernel * Z :=
  let k1 := set_nl_sk sock_ok k in
  if negb sock_ok
  then (emit (Printk "op_netlink_init: Create netlink socket error.") k1, 1)
  else
    let k2 := set_smg_workwq wq_ok k1 in
    if negb wq_ok
    then (emit (Printk "op_netlink_init: Create oem_key_dump error.") k2, 1)
    else (emit (Printk "op_netlink_init") (set_work_pending false k2), 0).

(** ** The deferred notifier *)

Definition send_msg_worker (alloc_ok : bool) (k : kernel) : kernel :=
  let k1 :=
    if message_state k =? 1
    then send_msg alloc_ok (Some "Enable DEBUG!"%string) k
    else if message_state k =? 2
    then
      let ka := emit (Printk "force oem serial") k in
      let kb := emit Msm_serial_oem_init ka in
      send_msg alloc_ok (Some "ENABLE_OEM_FORCE_SERIAL"%string) kb
    else k in
  set_message_state 0 k1.

(** The work queue thread: a pending item is taken off the queue (its
    pending bit cleared) and its function runs; nothing happens when
    nothing is pending. *)
Definition run_worker (alloc_ok : bool) (k : kernel) : option kernel :=
  if work_pending k
  then Some (send_msg_worker alloc_ok (set_work_pending false k))
  else None.

(** What the two last events of the debug branch leave behind. *)
Definition after_debug_enable (k : kernel) : kernel :=
  set_state NONE
    (set_work_pending true
       (set_message_state 1 (fst (set_oem_selinux_state 1 k)))).

Definition after_force_serial (k : kernel) : kernel :=
  set_state NONE (set_work_pending true (set_message_state 2 k)).

(** ** Everything that can happen to the module, one operation at a time *)

Inductive op : Type :=
| Op_netlink_init (sock_ok wq_ok : bool)
| Op_key (download_mode : bool) (code value : Z)
| Op_worker (alloc_ok : bool)
| Op_send_msg (alloc_ok : bool) (message : option string)
| Op_send_msg_sync_mdm_dump (alloc_ok : bool)
| Op_recv_nlmsg (skb : sk_buff)
| Op_set_oem_selinux_state (st : Z).

Definition exec_op (k : kernel) (o : op) : outcome kernel :=
  match o with
  | Op_netlink_init sock_ok wq_ok => Ret (fst (op_netlink_init sock_ok wq_ok k))
  | Op_key dm code value => oem_check_force_dump_key dm k code value
  | Op_worker alloc_ok =>
      match run_worker alloc_ok k with
      | Some k' => Ret k'
      | None => Ret k
      end
  | Op_send_msg alloc_ok message => Ret (send_msg alloc_ok message k)
  | Op_send_msg_sync_mdm_dump alloc_ok => Ret (send_msg_sync_mdm_dump alloc_ok k)
  | Op_recv_nlmsg skb => Ret (recv_nlmsg skb k)
  | Op_set_oem_selinux_state st => Ret (fst (set_oem_selinux_state st k))
  end.

Fixpoint exec_ops (k : kernel) (os : list op) : outcome kernel :=
  match os with
  | [] => Ret k
  | o :: rest => k' <- exec_op k o ;; exec_ops k' rest
  end.

Definition is_inbound (o : op) : bool :=
  match o with
  | Op_recv_nlmsg _ => true
  | _ => false
  end.

(** What the transport was asked to deliver to the socket bound to
    port id [p], oldest first. *)
Fixpoint unicasts_to (p : Z) (tr : list effect) : list string :=
  match tr with
  | [] => []
  | Netlink_unicast q payload :: rest =>
      if q =? p then payload :: unicasts_to p rest else unicasts_to p rest
  | _ :: rest => unicasts_to p rest
  end.

Definition is_unicast (e : effect) : bool :=
  match e with
  | Netlink_unicast _ _ => true
  | _ => false
  end.


(** ** C strings

    A [string] stands for the bytes of a C string; the end of the
    [string] is the terminating NUL, and a zero byte inside it ends the
    C string early, as it would in memory. *)

Definition byte_of (s : string) : Z :=
  match s with
  | EmptyString => 0
  | String c _ => Z.of_N (N_of_ascii c)
  end.

Definition rest_of (s : string) : string :=
  match s with
  | EmptyString => EmptyString
  | String _ r => r
  end.

(** [strncmp(cs, ct, count)]: -1, 0 or 1. *)
Fixpoint strncmp (cs ct : string) (count : nat) : Z :=
  match count with
  | O => 0
  | S n =>
      let c1 := byte_of cs in
      let c2 := byte_of ct in
      if negb (c1 =? c2) then (if c1 <? c2 then -1 else 1)
      else if c1 =? 0 then 0
      else strncmp (rest_of cs) (rest_of ct) n
  end.

(** [strcmp(cs, ct)]. *)
Fixpoint strcmp (cs ct : string) : Z :=
  match cs with
  | EmptyString => if byte_of ct =? 0 then 0 else -1
  | String c r =>
      let c1 := Z.of_N (N_of_ascii c) in
      let c2 := byte_of ct in
      if negb (c1 =? c2) then (if c1 <? c2 then -1 else 1)
      else if c1 =? 0 then 0
      else strcmp r (rest_of ct)
  end.

(** The C string held in [s], cut after [n] bytes. *)
Fixpoint truncated (n : nat) (s : string) : string :=
  match n with
  | O => EmptyString
  | S n' =>
      match s with
      | EmptyString => EmptyString
      | String c r =>
          if Z.of_N (N_of_ascii c) =? 0 then EmptyString
          else String c (truncated n' r)
      end
  end.

(** The whole C string held in [s]. *)
Fixpoint c_string (s : string) : string :=
  match s with
  | EmptyString => EmptyString
  | String c r =>
      if Z.of_N (N_of_ascii c) =? 0 then EmptyString
      else String c (c_string r)
  end.

(** A string without zero byte is its own C string. *)
Fixpoint nul_free (s : string) : bool :=
  match s with
  | EmptyString => true
  | String c r => negb (Z.of_N (N_of_ascii c) =? 0) && nul_free r
  end.

(** ** The task scans *)

Definition TASK_COMM_LEN : nat := 16.
Definition SIGQUIT : Z := 3.
Definition SIGRTMIN : Z := 32.
Definition SIGNAL_DEBUGGER : Z := SIGRTMIN + 3.

(** What the scans read of a [task_struct]: [comm], [pid],
    [group_leader->pid], [__task_cred(t)->uid.val] and, when [parent]
    is not NULL, [parent->comm]. *)
Record task_struct : Type := mkTask {
  comm : string;
  pid : Z;
  group_leader_pid : Z;
  uid_val : Z;
  parent_comm : option string
}.

(** A process: its thread-group leader and its other threads. *)
Record process : Type := mkProcess {
  leader : task_struct;
  other_threads : list task_struct
}.

(** [for_each_process]: the thread-group leaders, in list order. *)
Definition for_each_process (tbl : list process) : list task_struct :=
  map leader tbl.

(** [for_each_thread(g, t)]: the leader first, then the other threads. *)
Definition for_each_thread (g : process) : list task_struct :=
  leader g :: other_threads g.

(** [for_each_process_thread]: every thread of every process. *)
Definition for_each_process_thread (tbl : list process) : list task_struct :=
  flat_map for_each_thread tbl.

Definition exact_match (t : task_struct) (name : string) : bool :=
  strncmp (comm t) name TASK_COMM_LEN =? 0.

Definition binder_heuristic (t : task_struct) : bool :=
  (strncmp (comm t) "Binder:" 7 =? 0)
  && (group_leader_pid t =? pid t)
  && (uid_val t =? 1000)
  && match parent_comm t with
     | Some pc => strcmp pc "main" =? 0
     | None => false
     end.

Definition find_task_by_name (t : task_struct) (name : string) : bool :=
  if exact_match t name then true
  else if binder_heuristic t then true
  else false.

Inductive sig_effect : Type :=
| Do_send_sig_info (sig : Z) (t : task_struct)
| Msleep (ms : Z).

(** The loop of [send_sig_to_get_trace] over the tasks still to visit. *)
Fixpoint trace_scan (ts : list task_struct) (name : string) : list sig_effect :=
  match ts with
  | [] => []
  | t :: rest =>
      if find_task_by_name t name
      then [Do_send_sig_info SIGQUIT t; Msleep 500]
      else trace_scan rest name
  end.

Definition send_sig_to_get_trace (tbl : list process) (name : string)
    : list sig_effect :=
  trace_scan (for_each_process_thread tbl) name.

(** The loop of [send_sig_to_get_tombstone]. *)
Fixpoint tombstone_scan (ps : list task_struct) (name : string)
    : list sig_effect :=
  match ps with
  | [] => []
  | p :: rest =>
      if strncmp (comm p) name TASK_COMM_LEN =? 0
      then [Do_send_sig_info SIGNAL_DEBUGGER p; Msleep 500]
      else tombstone_scan rest name
  end.

Definition send_sig_to_get_tombstone (tbl : list process) (name : string)
    : list sig_effect :=
  tombstone_scan (for_each_process tbl) name.

(** The task a scan has signalled, if any. *)
Definition signalled (es : list sig_effect) : option task_struct :=
  match es with
  | Do_send_sig_info _ t :: _ => Some t
  | _ => None
  end.

(** A task that [find_task_by_name] accepts through its second test
    only. *)
Definition heuristic_only (t : task_struct) (name : string) : bool :=
  negb (exact_match t name) && binder_heuristic t.

(** Three tasks for the examples: one named as searched, one that only
    the second test of [find_task_by_name] accepts, one that neither
    test accepts. *)
Definition target_task : task_struct :=
  mkTask "target" 200 200 0 (Some "init"%string).

Definition binder_task : task_struct :=
  mkTask "Binder:1234_2" 1234 1234 1000 (Some "main"%string).

Definition other_task : task_struct :=
  mkTask "sh" 300 300 2000 (Some "init"%string).

(** ** More of the recognizer's graph *)

(** The events, as (code, pressed), that lead from [NONE] to a state. *)
Definition path_to (s : key_state) : list pressed_event :=
  match s with
  | NONE => []
  | STEP1 => firstn 1 (map abstract primary_sequence)
  | STEP2 => firstn 2 (map abstract primary_sequence)
  | STEP3 => firstn 3 (map abstract primary_sequence)
  | STEP4 => firstn 4 (map abstract primary_sequence)
  | STEP5 => firstn 5 (map abstract primary_sequence)
  | STEP6 => firstn 6 (map abstract primary_sequence)
  | STEP7 => firstn 7 (map abstract primary_sequence)
  | STEP8 => firstn 8 (map abstract primary_sequence)
  | STEP9 => firstn 9 (map abstract primary_sequence)
  | STEP10 => map abstract common_prefix
  | STEP11 => map abstract primary_sequence
  | STEP_DEBUG1 => map abstract common_prefix ++ [(KEY_VOLUMEDOWN, true)]
  end.

(** [tracks download_mode s h]: the events seen so far, [h], end with
    the events that lead from [NONE] to [s].  With download mode
    disabled [STEP11] stays where it is on POWER pressed, so there the
    path may be followed by further POWER presses. *)
Definition tracks (download_mode : bool) (s : key_state)
    (h : list pressed_event) : Prop :=
  exists pre n,
    h = pre ++ path_to s ++ repeat (KEY_POWER, true) n
    /\ (n <> O -> s = STEP11 /\ download_mode = false).

(** ** More of the channel *)

(** Inbound messages handled one after the other. *)
Definition recv_all (skbs : list sk_buff) (k : kernel) : kernel :=
  fold_left (fun k' skb => recv_nlmsg skb k') skbs k.

(** The texts this file itself hands to [send_msg]. *)
Definition own_messages : list string :=
  [ "Enable DEBUG!"; "ENABLE_OEM_FORCE_SERIAL"; "FORCE_MDM_DUMP_SYNC" ]%string.

(** An effect that is no message, or a message with one of the texts of
    this file. *)
Definition own_effect (e : effect) : Prop :=
  match e with
  | Netlink_unicast _ payload => In payload own_messages
  | _ => True
  end.

(** Operations that do not come from a caller of [send_msg] outside
    this file. *)
Definition is_own_op (o : op) : bool :=
  match o with
  | Op_send_msg _ _ => false
  | _ => true
  end.

(** Operations other than a call of [set_oem_selinux_state] with a
    value that is not 1, which only a caller outside this file makes. *)
Definition keeps_debug_switch (o : op) : bool :=
  match o with
  | Op_set_oem_selinux_state st => st =? 1
  | _ => true
  end.

Definition is_key_op (o : op) : bool :=
  match o with
  | Op_key _ _ _ => true
  | _ => false
  end.

(** Operations other than a successful creation of the socket. *)
Definition keeps_socket_absent (o : op) : bool :=
  match o with
  | Op_netlink_init sock_ok _ => negb sock_ok
  | _ => true
  end.

(** ** The remaining scans *)

(** The [for_each_process] loop of [get_init_sched_info]: it stops at
    the first process whose pid is 1; when there is none the cursor is
    back at [init_task], where the list of processes starts and ends. *)
Fixpoint find_pid_1 (init_task : process) (ps : list process) : process :=
  match ps with
  | [] => init_task
  | p :: rest => if pid (leader p) =? 1 then p else find_pid_1 init_task rest
  end.

(** [get_init_sched_info]: the tasks handed to [sched_show_task], in
    order. *)
Definition get_init_sched_info (init_task : process) (tbl : list process)
    : list task_struct :=
  for_each_thread (find_pid_1 init_task tbl).

(** Modelled from the spec: [enum key_stat_item] is declared in
    [include/linux/oem/oem_force_dump.h], absent here.  The spec speaks
    of the instantaneous pressed state of POWER and VOLUME_UP; the code
    only compares with [KEY_PRESSED]. *)
Inductive key_stat_item : Type :=
| KEY_RELEASED
| KEY_PRESSED.

Definition is_pressed (s : key_stat_item) : bool :=
  match s with
  | KEY_PRESSED => true
  | KEY_RELEASED => false
  end.

Definition compound_key_to_get_trace
    (pwr_status vol_up_status : key_stat_item)
    (tbl : list process) (name : string) : list sig_effect :=
  if is_pressed pwr_status && is_pressed vol_up_status
  then send_sig_to_get_trace tbl name
  else [].

Definition compound_key_to_get_tombstone
    (pwr_status vol_up_status : key_stat_item)
    (tbl : list process) (name : string) : list sig_effect :=
  if is_pressed pwr_status && is_pressed vol_up_status
  then send_sig_to_get_tombstone tbl name
  else [].

Definition is_signal (e : sig_effect) : bool :=
  match e with
  | Do_send_sig_info _ _ => true
  | Msleep _ => false
  end.

End Oem.

Module Vbswap.

Definition DELAY : Z := 125.

Inductive effect : Type :=
| Call_usermodehelper (argv : list string)
| Pr_info (line : string)
| Msleep (ms : Z).

(** The helper's view of the world: how many user-mode helpers it has
    run, and what it has done, oldest first. *)
Record world : Type := mkWorld {
  calls : nat;
  trace : list effect
}.

Definition init_world : world := {| calls := 0; trace := [] |}.

Definition emit (e : effect) (w : world) : world :=
  {| calls := calls w; trace := trace w ++ [e] |}.

Definition disksize_command : string :=
  "/system/bin/printf 4294967296 > /sys/devices/virtual/block/vbswap0/disksize".
Definition mkswap_command : string := "/system/bin/mkswap /dev/block/vbswap0".
Definition swapon_command : string := "/system/bin/swapon /dev/block/vbswap0".

(** The [argv] that [linux_sh] writes for a command line. *)
Definition sh_argv (command : string) : list string :=
  ["/system/bin/sh"; "-c"; command]%string.

Section Helper.

(** [umh n argv] is what [call_usermodehelper] returns for the [n]-th
    helper run (counted from 0) when it is given [argv]. *)
Variable umh : nat -> list string -> Z.

Definition call_userland (argv : list string) (w : world) : Z * world :=
  let ret := umh (calls w) argv in
  (ret, {| calls := S (calls w);
           trace := trace w ++ [Call_usermodehelper argv] |}).

Definition linux_sh (command : string) (w : world) : Z * world :=
  let argv := sh_argv command in
  let '(ret, w1) := call_userland argv w in
  if ret =? 0
  then (ret, emit (Pr_info ("Calling " ++ command)) w1)
  else (ret, w1).

(** The [do ... while (ret && (retries++ < 25))] loop; [fuel] bounds
    the number of iterations the model is willing to run. *)
Fixpoint disksize_loop (fuel : nat) (retries : Z) (w : world)
    : option (Z * world) :=
  match fuel with
  | O => None
  | S fuel' =>
      let '(ret, w1) := linux_sh disksize_command w in
      let w2 := if truthy ret then emit (Msleep DELAY) w1 else w1 in
      if truthy ret
      then (if retries <? 25
            then disksize_loop fuel' (retries + 1) w2
            else Some (retries + 1, w2))
      else Some (retries, w2)
  end.

Definition vbswap_helper (fuel : nat) (w : world) : option world :=
  match disksize_loop fuel 0 w with
  | None => None
  | Some (_, w1) =>
      let w2 := snd (linux_sh mkswap_command w1) in
      let w3 := snd (linux_sh swapon_command w2) in
      Some w3
  end.

End Helper.

(** How often a command line was handed to the user-mode helper. *)
Fixpoint attempts (command : string) (tr : list effect) : nat :=
  match tr with
  | [] => O
  | Call_usermodehelper argv :: rest =>
      if list_eq_dec string_dec argv (sh_argv command)
      then S (attempts command rest) else attempts command rest
  | _ :: rest => attempts command rest
  end.

(** How often the helper has slept for [DELAY] milliseconds. *)
Fixpoint delays (tr : list effect) : nat :=
  match tr with
  | [] => O
  | Msleep ms :: rest => if ms =? DELAY then S (delays rest) else delays rest
  | _ :: rest => delays rest
  end.

(** ** Memory of the helper *)

Definition STANDARD_SIZE : nat := 4.

(** The allocator as the helper sees it: how many [kmalloc] calls have
    been made, and the blocks that are allocated and not yet freed.  A
    block is named by the number of the call that returned it. *)
Record heap : Type := mkHeap {
  kmallocs : nat;
  live : list nat
}.

(** A pointer: NULL or a block. *)
Definition pointer : Type := option nat.

(** [kfree]: frees the block; does nothing for NULL. *)
Definition kfree (p : pointer) (h : heap) : heap :=
  match p with
  | None => h
  | Some b => {| kmallocs := kmallocs h; live := remove Nat.eq_dec b (live h) |}
  end.

(** [argv[i] = p] on the array of pointers. *)
Fixpoint store (i : nat) (p : pointer) (cells : list pointer) : list pointer :=
  match cells, i with
  | [], _ => []
  | _ :: rest, O => p :: rest
  | c :: rest, S i' => c :: store i' p rest
  end.

(** What [vbswap_init] does besides what the helper does. *)
Inductive init_event : Type :=
| Helper (e : effect)
| Init_pr_info (line : string)
| Set_selinux (value : Z).

Section Init.

(** [kmalloc_ok n] says whether the [n]-th [kmalloc] call succeeds. *)
Variable kmalloc_ok : nat -> bool.
Variable umh : nat -> list string -> Z.

Definition kmalloc (h : heap) : pointer * heap :=
  let n := kmallocs h in
  if kmalloc_ok n
  then (Some n, {| kmallocs := S n; live := live h ++ [n] |})
  else (None, {| kmallocs := S n; live := live h |}).

(** The [for] loop of [alloc_memory] with [n] buffers left to
    allocate: the buffers, or NULL at the first failure. *)
Fixpoint alloc_buffers (n : nat) (h : heap) : option (list pointer) * heap :=
  match n with
  | O => (Some [], h)
  | S n' =>
      match kmalloc h with
      | (Some b, h1) =>
          match alloc_buffers n' h1 with
          | (Some cells, h2) => (Some (Some b :: cells), h2)
          | (None, h2) => (None, h2)
          end
      | (None, h1) => (None, h1)
      end
  end.

(** [alloc_memory(size)]: the array and its cells, or NULL.  When a
    buffer cannot be allocated the array alone is freed. *)
Definition alloc_memory (size : nat) (h : heap)
    : option (nat * list pointer) * heap :=
  match kmalloc h with
  | (None, h1) => (None, h1)
  | (Some a, h1) =>
      match alloc_buffers size h1 with
      | (Some cells, h2) => (Some (a, cells), h2)
      | (None, h2) => (None, kfree (Some a) h2)
      end
  end.

(** [free_memory(argv, size)]: the first [size] cells, then the
    array. *)
Definition free_memory (argv : nat * list pointer) (size : nat) (h : heap)
    : heap :=
  kfree (Some (fst argv))
        (fold_left (fun h' p => kfree p h') (firstn size (snd argv)) h).

(** [vbswap_init].  [is_enforcing] is what [get_enforce_value()]
    answers; [helper_calls] is the number of user-mode helpers run
    before.  Every [linux_sh] stores NULL in [argv[3]], and the helper
    calls [linux_sh] at least three times, so that cell is NULL when
    the memory is freed.  The result is the heap, the events and the
    number of helpers run; [None] only when [fuel] is too small for the
    helper's loop. *)
Definition vbswap_init (fuel : nat) (is_enforcing : bool)
    (helper_calls : nat) (h : heap)
    : option (heap * list init_event * nat) :=
  match alloc_memory STANDARD_SIZE h with
  | (None, h1) => Some (h1, [], helper_calls)
  | (Some argv, h1) =>
      let before :=
        if is_enforcing
        then [Init_pr_info "Setting selinux state: permissive"; Set_selinux 0]
        else [] in
      match vbswap_helper umh fuel {| calls := helper_calls; trace := [] |} with
      | None => None
      | Some w =>
          let argv' := (fst argv, store 3 None (snd argv)) in
          let after :=
            if is_enforcing
            then [Init_pr_info "Setting selinux state: enforcing"; Set_selinux 1]
            else [] in
          Some (free_memory argv' STANDARD_SIZE h1,
                before ++ map Helper (trace w) ++ after,
                calls w)
      end
  end.

End Init.

(** Every block that is allocated was handed out by an earlier
    [kmalloc]. *)
Definition heap_ok (h : heap) : Prop :=
  forall b, In b (live h) -> (b < kmallocs h)%nat.

Definition is_set_selinux (e : init_event) : bool :=
  match e with
  | Set_selinux _ => true
  | _ => false
  end.

End Vbswap.

(** * Properties *)

Import Oem.

(** ** Machine integers *)

Lemma to_u32_range (x : Z) : 0 <= to_u32 x < 2 ^ 32.
Proof. unfold to_u32. apply Z.mod_pos_bound. lia. Qed.

Lemma to_u32_to_s32 (x : Z) : to_u32 (to_s32 x) = to_u32 x.
Proof.
  unfold to_u32, to_s32.
  destruct (x mod 2 ^ 32 <? 2 ^ 31).
  - apply Z.mod_mod. lia.
  - replace (x mod 2 ^ 32 - 2 ^ 32) with (x mod 2 ^ 32 + (-1) * 2 ^ 32) by lia.
    rewrite Z.mod_add by lia. apply Z.mod_mod. lia.
Qed.

Lemma to_u32_small (x : Z) : 0 <= x < 2 ^ 32 -> to_u32 x = x.
Proof. intros H. unfold to_u32. apply Z.mod_small. exact H. Qed.

(** ** The recognizer *)

Section Recognizer.

Variable download_mode : bool.

Lemma set_state_set_state (s s' : key_state) (k : kernel) :
  set_state s (set_state s' k) = set_state s k.
Proof. reflexivity. Qed.

Lemma set_state_same (k : kernel) : set_state (state k) k = k.
Proof. destruct k; reflexivity. Qed.

(** An event the current state does not wait for sends the recognizer
    back to [NONE] and does nothing else. *)
Lemma unexpected_resets (k : kernel) (code value : Z) :
  is_expected (state k) (code, value) = false ->
  oem_check_force_dump_key download_mode k code value = Ret (set_state NONE k).
Proof.
  unfold oem_check_force_dump_key, is_expected, abstract, pressed_event_eqb.
  destruct (state k); cbn [expected_next existsb fst snd];
    destruct (truthy value); cbn [Bool.eqb negb andb orb];
    rewrite ?andb_true_r, ?andb_false_r, ?orb_false_r;
    intros H;
    repeat match goal with
           | H : (_ || _) = false |- _ =>
               apply orb_false_iff in H; destruct H
           end;
    repeat match goal with
           | H : ?b = false |- context [?b] => rewrite H
           end;
    try reflexivity; try discriminate.
Qed.

(** An event the current state waits for never resets an in-progress
    state of the primary path: the table of [expected_next] lists
    nothing the code rejects. *)
Lemma expected_accepted (k : kernel) (code value : Z) :
  is_expected (state k) (code, value) = true ->
  state k <> STEP_DEBUG1 ->
  oem_check_force_dump_key download_mode k code value = Panic "Force Dump"
  \/ exists s, s <> NONE /\
       oem_check_force_dump_key download_mode k code value = Ret (set_state s k).
Proof.
  unfold oem_check_force_dump_key, is_expected, abstract, pressed_event_eqb.
  intros H Hd. revert H.
  destruct (state k) eqn:Hs; cbn [expected_next existsb fst snd];
    try congruence;
    destruct (truthy value); cbn [Bool.eqb negb andb orb];
    rewrite ?andb_true_r, ?andb_false_r, ?orb_false_r;
    intros H; try discriminate;
    try (rewrite H; right; eexists; split; [ | reflexivity ]; discriminate).
  - (* STEP10 *)
    apply orb_true_iff in H. destruct H as [H | H]; rewrite H.
    + right. exists STEP11. split; [ discriminate | reflexivity ].
    + destruct (code =? KEY_VOLUMEUP);
        right; eexists; (split; [ | reflexivity ]); discriminate.
  - (* STEP11 *)
    rewrite H. destruct download_mode.
    + left. reflexivity.
    + right. exists STEP11. split; [ discriminate | ].
      rewrite <- Hs. rewrite set_state_same. reflexivity.
Qed.

(** Walking along the graph changes the recognizer state and nothing
    else. *)
Lemma advance_step (s s' : key_state) (k : kernel) (e : event) :
  advance s (abstract e) = Some s' ->
  oem_check_force_dump_key download_mode (set_state s k) (fst e) (snd e)
  = Ret (set_state s' k).
Proof.
  destruct e as [code value].
  unfold oem_check_force_dump_key, abstract, advance.
  cbn [fst snd state set_state].
  destruct s;
    repeat match goal with
           | |- context [if ?b then _ else _] => destruct b
           end;
    intros H; inversion H; subst; reflexivity.
Qed.

Lemma follows_feed (evs : list event) :
  forall (s s' : key_state) (k : kernel),
    follows s evs = Some s' ->
    feed download_mode (set_state s k) evs = Ret (set_state s' k).
Proof.
  induction evs as [ | e rest IH ]; intros s s' k H.
  - cbn in H. inversion H. reflexivity.
  - cbn [follows] in H.
    destruct (advance s (abstract e)) as [ s1 | ] eqn:Ha; [ | discriminate ].
    destruct e as [code value]. cbn [feed].
    change code with (fst (code, value)) at 1.
    change value with (snd (code, value)) at 2.
    rewrite (advance_step _ _ _ _ Ha). cbn [bind].
    apply IH. exact H.
Qed.

Lemma feed_app (evs1 evs2 : list event) :
  forall k : kernel,
    feed download_mode k (evs1 ++ evs2)
    = (k' <- feed download_mode k evs1 ;; feed download_mode k' evs2).
Proof.
  induction evs1 as [ | [code value] rest IH ]; intros k.
  - reflexivity.
  - cbn [feed app].
    destruct (oem_check_force_dump_key download_mode k code value); cbn [bind];
      [ apply IH | reflexivity | reflexivity ].
Qed.

End Recognizer.

(** C1.  From [NONE], the eleven events of the primary sequence move
    the recognizer through [STEP1] ... [STEP11] and change nothing else
    (no action at any of them); the following POWER press, with download
    mode enabled, is the one call that panics with "Force Dump". *)
Theorem force_dump_sequence_panics_once (k : kernel) :
  let outs := feed_trace true (set_state NONE k) force_dump_sequence in
  outs = map (fun s => Ret (set_state s k))
             [STEP1; STEP2; STEP3; STEP4; STEP5; STEP6;
              STEP7; STEP8; STEP9; STEP10; STEP11]
         ++ [Panic "Force Dump"]
  /\ Forall (no_action k) (firstn 11 outs)
  /\ nth_error outs 11 = Some (Panic "Force Dump")
  /\ List.length (filter is_force_dump outs) = 1%nat
  /\ feed true (set_state NONE k) primary_sequence = Ret (set_state STEP11 k)
  /\ feed true (set_state NONE k) force_dump_sequence = Panic "Force Dump".
Proof.
  cbv zeta.
  assert (E : feed_trace true (set_state NONE k) force_dump_sequence
              = map (fun s => Ret (set_state s k))
                    [STEP1; STEP2; STEP3; STEP4; STEP5; STEP6;
                     STEP7; STEP8; STEP9; STEP10; STEP11]
                ++ [Panic "Force Dump"]) by reflexivity.
  rewrite E. split; [ reflexivity | ].
  split.
  { cbn [map app firstn].
    repeat (constructor; [ eexists; reflexivity | ]). constructor. }
  repeat split; reflexivity.
Qed.

(** C2.  With download mode disabled the last POWER press takes no
    action, but the [STEP11] case leaves [state] as it is: the
    recognizer stays in [STEP11] instead of going back to [NONE], and a
    second pass of the same sequence visits other states than the
    first and does not even reach [STEP11], so that it would not
    trigger the dump if download mode had been enabled in between. *)
Theorem force_dump_sequence_without_download_mode (k : kernel) :
  feed false (set_state NONE k) force_dump_sequence = Ret (set_state STEP11 k)
  /\ set_state STEP11 k <> set_state NONE k
  /\ feed_trace false (set_state NONE k) force_dump_sequence
     = map (fun s => Ret (set_state s k))
           [STEP1; STEP2; STEP3; STEP4; STEP5; STEP6;
            STEP7; STEP8; STEP9; STEP10; STEP11; STEP11]
  /\ feed_trace false (set_state STEP11 k) force_dump_sequence
     = map (fun s => Ret (set_state s k))
           [NONE; NONE; NONE; NONE; STEP1; NONE;
            NONE; NONE; NONE; NONE; STEP1; NONE]
  /\ feed true (set_state STEP11 k) force_dump_sequence = Ret (set_state NONE k).
Proof.
  repeat split; try reflexivity.
  intros H. apply (f_equal state) in H. discriminate H.
Qed.

(** ** The recognizer and the events it has seen *)

Lemma pressed_event_eqb_refl (a : pressed_event) : pressed_event_eqb a a = true.
Proof.
  unfold pressed_event_eqb. rewrite Z.eqb_refl, Bool.eqb_reflx. reflexivity.
Qed.

Lemma is_prefix_app (p post : list pressed_event) : is_prefix p (p ++ post) = true.
Proof.
  induction p as [ | a rest IH ]; [ reflexivity | ].
  cbn [app is_prefix]. rewrite pressed_event_eqb_refl. exact IH.
Qed.

Lemma occurs_complete (p h : list pressed_event) :
  stands_in p h -> occurs p h = true.
Proof.
  intros (pre & post & ->). induction pre as [ | a rest IH ].
  - cbn [app]. destruct (p ++ post) eqn:E; cbn [occurs];
      rewrite <- E, is_prefix_app; reflexivity.
  - cbn [app occurs]. rewrite IH. apply orb_true_r.
Qed.

Lemma stands_in_longer (p h more : list pressed_event) :
  stands_in p h -> stands_in p (h ++ more).
Proof.
  intros (pre & post & ->). exists pre, (post ++ more).
  rewrite <- !app_assoc. reflexivity.
Qed.

Lemma tracks_start (download_mode : bool) (h : list pressed_event) :
  tracks download_mode NONE h.
Proof.
  exists h, O. split; [ cbn; rewrite app_nil_r; reflexivity | congruence ].
Qed.

Lemma tracks_exact (download_mode : bool) (s : key_state) (h : list pressed_event) :
  tracks download_mode s h ->
  s <> STEP11 \/ download_mode = true ->
  exists pre, h = pre ++ path_to s.
Proof.
  intros (pre & n & Hh & Hn) Hs. exists pre.
  destruct n as [ | n ].
  - cbn [repeat] in Hh. rewrite app_nil_r in Hh. exact Hh.
  - exfalso. destruct (Hn ltac:(discriminate)) as [H1 H2].
    destruct Hs; congruence.
Qed.

Lemma tracks_next (download_mode : bool) (s s' : key_state)
    (h : list pressed_event) (e : pressed_event) :
  tracks download_mode s h ->
  s <> STEP11 ->
  path_to s' = path_to s ++ [e] ->
  tracks download_mode s' (h ++ [e]).
Proof.
  intros Ht Hs Hp.
  destruct (tracks_exact download_mode s h Ht (or_introl Hs)) as (pre & ->).
  exists pre, O. split; [ | congruence ].
  rewrite Hp. cbn [repeat]. rewrite app_nil_r, <- app_assoc. reflexivity.
Qed.

Ltac event_facts :=
  repeat match goal with
         | E : (_ =? _) && _ = true |- _ =>
             apply andb_true_iff in E; destruct E as [? ?]
         | E : (_ =? _) = true |- _ => apply Z.eqb_eq in E; subst
         | E : negb _ = true |- _ => apply negb_true_iff in E
         end.

Lemma pressed_event_eqb_true (a b : pressed_event) :
  pressed_event_eqb a b = true -> a = b.
Proof.
  destruct a as [c p], b as [c' p']. unfold pressed_event_eqb. cbn [fst snd].
  intros H. apply andb_true_iff in H. destruct H as [H1 H2].
  apply Z.eqb_eq in H1. apply Bool.eqb_prop in H2. congruence.
Qed.

Lemma is_prefix_sound (p : list pressed_event) :
  forall h, is_prefix p h = true -> exists post, h = p ++ post.
Proof.
  induction p as [ | a rest IH ]; intros h H.
  - exists h. reflexivity.
  - destruct h as [ | b h' ]; [ discriminate H | ].
    cbn [is_prefix] in H. apply andb_true_iff in H. destruct H as [H1 H2].
    apply pressed_event_eqb_true in H1. subst b.
    destruct (IH h' H2) as (post & ->). exists post. reflexivity.
Qed.

Lemma occurs_sound (p : list pressed_event) :
  forall h, occurs p h = true -> stands_in p h.
Proof.
  induction h as [ | a rest IH ]; intros H.
  - cbn [occurs] in H. rewrite orb_false_r in H.
    destruct (is_prefix_sound p [] H) as (post & E).
    exists [], post. exact E.
  - cbn [occurs] in H. apply orb_true_iff in H. destruct H as [ H | H ].
    + destruct (is_prefix_sound p _ H) as (post & E).
      exists [], post. exact E.
    + destruct (IH H) as (pre & post & ->).
      exists (a :: pre), post. reflexivity.
Qed.

Lemma occurs_shorter (p h more : list pressed_event) :
  occurs p (h ++ more) = false -> occurs p h = false.
Proof.
  intros H. destruct (occurs p h) eqn:E; [ | reflexivity ].
  apply occurs_sound in E.
  rewrite (occurs_complete p (h ++ more) (stands_in_longer p h more E)) in H.
  discriminate H.
Qed.

Lemma path_free_shorter (download_mode : bool) (h more : list pressed_event) :
  path_free download_mode (h ++ more) = true -> path_free download_mode h = true.
Proof.
  unfold path_free. intros H.
  apply andb_true_iff in H. destruct H as [H12 H3].
  apply andb_true_iff in H12. destruct H12 as [H1 H2].
  apply negb_true_iff in H1, H2.
  rewrite (occurs_shorter _ h more H1), (occurs_shorter _ h more H2).
  cbn [negb andb].
  destruct download_mode; [ | reflexivity ].
  cbn [negb orb] in *. apply negb_true_iff in H3.
  rewrite (occurs_shorter _ h more H3). reflexivity.
Qed.

(** What [path_free] excludes. *)
Lemma path_free_excludes (download_mode : bool) (h : list pressed_event) :
  path_free download_mode h = true ->
  ~ stands_in (map abstract debug_enable_sequence) h
  /\ ~ stands_in (map abstract force_serial_sequence) h
  /\ (download_mode = true ->
      ~ stands_in (map abstract force_dump_sequence) h).
Proof.
  unfold path_free. intros H.
  apply andb_true_iff in H. destruct H as [H12 H3].
  apply andb_true_iff in H12. destruct H12 as [H1 H2].
  apply negb_true_iff in H1, H2.
  split; [ | split ].
  - intros Hs. apply occurs_complete in Hs. congruence.
  - intros Hs. apply occurs_complete in Hs. congruence.
  - intros -> Hs. apply occurs_complete in Hs.
    cbn [negb orb] in H3. apply negb_true_iff in H3. congruence.
Qed.

Lemma path_debug_enable :
  path_to STEP_DEBUG1 ++ [(KEY_POWER, true)] = map abstract debug_enable_sequence.
Proof. reflexivity. Qed.

Lemma path_force_serial :
  path_to STEP_DEBUG1 ++ [(KEY_VOLUMEDOWN, false)]
  = map abstract force_serial_sequence.
Proof. reflexivity. Qed.

Lemma path_force_dump :
  path_to STEP11 ++ [(KEY_POWER, true)] = map abstract force_dump_sequence.
Proof. reflexivity. Qed.

Section History.

Variable download_mode : bool.

(** A call that returns has kept track of the events; it has taken no
    action unless the event completed one of the two debug paths. *)
Lemma step_ret_history (k k' : kernel) (code value : Z)
    (h : list pressed_event) :
  tracks download_mode (state k) h ->
  oem_check_force_dump_key download_mode k code value = Ret k' ->
  tracks download_mode (state k') (h ++ [abstract (code, value)])
  /\ (k' = set_state (state k') k
      \/ stands_in (map abstract debug_enable_sequence)
           (h ++ [abstract (code, value)])
      \/ stands_in (map abstract force_serial_sequence)
           (h ++ [abstract (code, value)])).
Proof.
  intros Ht H.
  destruct k as [st ms sw f sk wq wp tr].
  unfold oem_check_force_dump_key in H. cbn [state] in *.
  unfold abstract. cbn [fst snd].
  destruct st;
    repeat match type of H with
           | context [if ?b then _ else _] => destruct b eqn:?
           end;
    try discriminate H;
    try (inversion H; subst k'; clear H; cbn [state set_state];
         split; [ | left; reflexivity ];
         first
           [ apply tracks_start
           | event_facts;
             match goal with
             | E : truthy value = _ |- _ => rewrite E
             end;
             eapply tracks_next; [ exact Ht | discriminate | reflexivity ] ]).
  - (* STEP11 stays on POWER pressed while download mode is disabled *)
    inversion H; subst k'; clear H. cbn [state].
    split; [ | left; reflexivity ].
    event_facts.
    match goal with E : truthy value = _ |- _ => rewrite E end.
    destruct Ht as (pre & n & -> & Hn).
    exists pre, (S n). split.
    + rewrite <- !app_assoc. f_equal. f_equal.
      cbn [repeat]. symmetry. apply repeat_cons.
    + intros _. split; reflexivity.
  - (* STEP_DEBUG1, POWER pressed *)
    unfold queue_work in H. cbn [smg_workwq set_message_state
                                  set_oem_selinux_state fst] in H.
    destruct wq; cbn [bind] in H; [ | discriminate H ].
    inversion H; subst k'; clear H. cbn [state set_state].
    split; [ apply tracks_start | ].
    right. left. event_facts.
    match goal with E : truthy value = _ |- _ => rewrite E end.
    assert (Hne : STEP_DEBUG1 <> STEP11) by discriminate.
    destruct (tracks_exact _ _ _ Ht (or_introl Hne)) as (pre & ->).
    exists pre, []. rewrite app_nil_r, <- app_assoc.
    apply f_equal. exact path_debug_enable.
  - (* STEP_DEBUG1, VOLUME_DOWN released *)
    unfold queue_work in H. cbn [smg_workwq set_message_state] in H.
    destruct wq; cbn [bind] in H; [ | discriminate H ].
    inversion H; subst k'; clear H. cbn [state set_state].
    split; [ apply tracks_start | ].
    right. right. event_facts.
    match goal with E : truthy value = _ |- _ => rewrite E end.
    assert (Hne : STEP_DEBUG1 <> STEP11) by discriminate.
    destruct (tracks_exact _ _ _ Ht (or_introl Hne)) as (pre & ->).
    exists pre, []. rewrite app_nil_r, <- app_assoc.
    apply f_equal. exact path_force_serial.
Qed.

(** A call that panics does so in [STEP11], on POWER pressed, with
    download mode enabled and with "Force Dump": the events seen,
    this one included, end with the force-dump path. *)
Lemma step_panic_history (k : kernel) (code value : Z) (m : string)
    (h : list pressed_event) :
  tracks download_mode (state k) h ->
  oem_check_force_dump_key download_mode k code value = Panic m ->
  download_mode = true /\ m = "Force Dump"%string /\ state k = STEP11
  /\ exists pre,
       h ++ [abstract (code, value)] = pre ++ map abstract force_dump_sequence.
Proof.
  intros Ht H.
  destruct k as [st ms sw f sk wq wp tr].
  unfold oem_check_force_dump_key, queue_work in H.
  cbn [state smg_workwq set_message_state set_oem_selinux_state fst] in *.
  unfold abstract. cbn [fst snd].
  destruct st;
    repeat match type of H with
           | context [if ?b then _ else _] => destruct b eqn:?
           end;
    try discriminate H.
  inversion H; subst m; clear H.
  repeat split.
  event_facts.
  match goal with E : truthy value = _ |- _ => rewrite E end.
  destruct (tracks_exact _ _ _ Ht (or_intror eq_refl)) as (pre & ->).
  exists pre. rewrite <- app_assoc. apply f_equal. exact path_force_dump.
Qed.

(** A call that faults does so in [queue_work], after one of the two
    debug paths has been completed. *)
Lemma step_oops_history (k : kernel) (code value : Z) (w : string)
    (h : list pressed_event) :
  tracks download_mode (state k) h ->
  oem_check_force_dump_key download_mode k code value = Oops w ->
  smg_workwq k = false
  /\ (stands_in (map abstract debug_enable_sequence)
        (h ++ [abstract (code, value)])
      \/ stands_in (map abstract force_serial_sequence)
           (h ++ [abstract (code, value)])).
Proof.
  intros Ht H.
  destruct k as [st ms sw f sk wq wp tr].
  unfold oem_check_force_dump_key in H. cbn [state] in *.
  unfold abstract. cbn [fst snd].
  assert (Hne : STEP_DEBUG1 <> STEP11) by discriminate.
  destruct st;
    repeat match type of H with
           | context [if ?b then _ else _] => destruct b eqn:?
           end;
    try discriminate H;
    unfold queue_work in H;
    cbn [smg_workwq set_message_state set_oem_selinux_state fst] in H;
    (destruct wq; cbn [bind] in H; [ discriminate H | ]);
    (split; [ reflexivity | ]);
    event_facts;
    match goal with E : truthy value = _ |- _ => rewrite E end;
    destruct (tracks_exact _ _ _ Ht (or_introl Hne)) as (pre & ->).
  - left. exists pre, []. rewrite app_nil_r, <- app_assoc.
    apply f_equal. exact path_debug_enable.
  - right. exists pre, []. rewrite app_nil_r, <- app_assoc.
    apply f_equal. exact path_force_serial.
Qed.

(** As long as no path that leads to an action has been completed, the
    run returns and no call has taken an action. *)
Lemma feed_history (evs : list event) :
  forall (k : kernel) (h : list pressed_event),
    tracks download_mode (state k) h ->
    path_free download_mode (h ++ map abstract evs) = true ->
    Forall (no_action k) (feed_trace download_mode k evs)
    /\ exists k',
         feed download_mode k evs = Ret k'
         /\ k' = set_state (state k') k
         /\ tracks download_mode (state k') (h ++ map abstract evs).
Proof.
  induction evs as [ | [code value] rest IH ]; intros k h Ht Hfree.
  - split; [ constructor | ].
    exists k. split; [ reflexivity | ].
    split; [ symmetry; apply set_state_same | ].
    cbn [map]. rewrite app_nil_r. exact Ht.
  - cbn [map] in Hfree.
    replace (h ++ abstract (code, value) :: map abstract rest)
      with ((h ++ [abstract (code, value)]) ++ map abstract rest) in Hfree
      by (rewrite <- app_assoc; reflexivity).
    pose proof (path_free_excludes _ _
                  (path_free_shorter _ _ _ Hfree)) as (Hn1 & Hn2 & Hn3).
    cbn [feed feed_trace].
    destruct (oem_check_force_dump_key download_mode k code value)
      as [ k1 | m | w ] eqn:E.
    + destruct (step_ret_history k k1 code value h Ht E)
        as (Ht1 & [ Hk1 | [ Hs | Hs ] ]); try contradiction.
      destruct (IH k1 _ Ht1 Hfree) as (Hall & k' & Hfeed & Hk' & Ht').
      split.
      * constructor; [ exists (state k1); f_equal; exact Hk1 | ].
        eapply Forall_impl; [ | exact Hall ].
        intros o (s & ->). exists s. rewrite Hk1. reflexivity.
      * exists k'. cbn [bind]. split; [ exact Hfeed | ].
        split.
        -- rewrite Hk', Hk1. reflexivity.
        -- cbn [map].
           replace (h ++ abstract (code, value) :: map abstract rest)
             with ((h ++ [abstract (code, value)]) ++ map abstract rest)
             by (rewrite <- app_assoc; reflexivity).
           exact Ht'.
    + exfalso.
      destruct (step_panic_history k code value m h Ht E)
        as (Hdm & _ & _ & pre & Hp).
      apply (Hn3 Hdm). exists pre, []. rewrite app_nil_r. exact Hp.
    + exfalso.
      destruct (step_oops_history k code value w h Ht E) as (_ & [ Hs | Hs ]);
        contradiction.
Qed.

(** A run that panics: the call that panicked, and what led to it. *)
Lemma feed_panic_history (evs : list event) :
  forall (k : kernel) (h : list pressed_event) (m : string),
    tracks download_mode (state k) h ->
    feed download_mode k evs = Panic m ->
    exists done code value rest pre k1,
      evs = done ++ (code, value) :: rest
      /\ feed download_mode k done = Ret k1
      /\ oem_check_force_dump_key download_mode k1 code value = Panic m
      /\ h ++ map abstract (done ++ [(code, value)])
         = pre ++ map abstract force_dump_sequence
      /\ m = "Force Dump"%string
      /\ download_mode = true.
Proof.
  induction evs as [ | [code value] rest IH ]; intros k h m Ht H.
  - discriminate H.
  - cbn [feed] in H.
    destruct (oem_check_force_dump_key download_mode k code value)
      as [ k1 | m1 | w ] eqn:E; cbn [bind] in H; [ | | discriminate H ].
    + destruct (step_ret_history k k1 code value h Ht E) as (Ht1 & _).
      destruct (IH k1 _ m Ht1 H)
        as (dn & c & v & rs & pre & k2 & H1 & H2 & H3 & H4 & H5 & H6).
      exists ((code, value) :: dn), c, v, rs, pre, k2.
      split; [ rewrite H1; reflexivity | ].
      split; [ cbn [feed]; rewrite E; exact H2 | ].
      split; [ exact H3 | ].
      split; [ | split; assumption ].
      rewrite <- H4. cbn [app map]. rewrite <- app_assoc. reflexivity.
    + inversion H; subst m1.
      destruct (step_panic_history k code value m h Ht E)
        as (Hdm & Hm & _ & pre & Hp).
      exists [], code, value, rest, pre, k.
      repeat split; try assumption.
Qed.

End History.

Lemma key_state_is_debug (s : key_state) : s = STEP_DEBUG1 \/ s <> STEP_DEBUG1.
Proof. destruct s; first [ left; reflexivity | right; discriminate ]. Qed.

(** At [STEP_DEBUG1] an event the state waits for completes a debug
    path. *)
Lemma expected_at_debug (download_mode : bool) (code value : Z)
    (h : list pressed_event) :
  tracks download_mode STEP_DEBUG1 h ->
  is_expected STEP_DEBUG1 (code, value) = true ->
  stands_in (map abstract debug_enable_sequence) (h ++ [abstract (code, value)])
  \/ stands_in (map abstract force_serial_sequence)
       (h ++ [abstract (code, value)]).
Proof.
  intros Ht He.
  assert (Hne : STEP_DEBUG1 <> STEP11) by discriminate.
  destruct (tracks_exact _ _ _ Ht (or_introl Hne)) as (pre & ->).
  unfold is_expected in He. cbn [expected_next existsb] in He.
  rewrite orb_false_r in He. apply orb_true_iff in He.
  destruct He as [ He | He ]; apply pressed_event_eqb_true in He; rewrite He.
  - left. exists pre, []. rewrite app_nil_r, <- app_assoc.
    apply f_equal. exact path_debug_enable.
  - right. exists pre, []. rewrite app_nil_r, <- app_assoc.
    apply f_equal. exact path_force_serial.
Qed.

(** C3, as the code has it.  In every state, an event that is not
    among those the state waits for (a wrong code, or the right code
    with the wrong pressed value) takes no action and resets the state
    to [NONE].  Consequently, for every sequence of events started from
    [NONE] in which no defined path is completed (neither debug path,
    nor the force-dump path while download mode is enabled), no call
    takes an action; and such a sequence ends in [NONE] exactly when
    its last event is not one the state reached before it waits for. *)
Theorem mismatch_resets_to_idle
    (download_mode : bool) (k : kernel) (evs : list event) (code value : Z) :
  (is_expected (state k) (code, value) = false ->
   oem_check_force_dump_key download_mode k code value = Ret (set_state NONE k))
  /\ (path_free download_mode (map abstract evs) = true ->
      Forall (no_action k) (feed_trace download_mode (set_state NONE k) evs)
      /\ exists s, feed download_mode (set_state NONE k) evs = Ret (set_state s k))
  /\ (path_free download_mode (map abstract (evs ++ [(code, value)])) = true ->
      exists s s',
        feed download_mode (set_state NONE k) evs = Ret (set_state s k)
        /\ feed download_mode (set_state NONE k) (evs ++ [(code, value)])
           = Ret (set_state s' k)
        /\ (s' = NONE <-> is_expected s (code, value) = false)).
Proof.
  assert (Hrun : forall l,
             path_free download_mode (map abstract l) = true ->
             Forall (no_action k) (feed_trace download_mode (set_state NONE k) l)
             /\ exists s,
                  feed download_mode (set_state NONE k) l = Ret (set_state s k)
                  /\ tracks download_mode s (map abstract l)).
  { intros l Hfree.
    destruct (feed_history download_mode l (set_state NONE k) []
                (tracks_start download_mode []) Hfree)
      as (Hall & k' & Hfeed & Hk' & Ht').
    split.
    - eapply Forall_impl; [ | exact Hall ].
      intros o (s & ->). exists s. reflexivity.
    - exists (state k'). split; [ rewrite Hfeed, Hk'; reflexivity | exact Ht' ]. }
  split; [ apply unexpected_resets | ].
  split.
  - intros Hfree. destruct (Hrun evs Hfree) as (Hall & s & Hfeed & _).
    split; [ exact Hall | exists s; exact Hfeed ].
  - intros Hfree.
    assert (Hfree' : path_free download_mode (map abstract evs) = true).
    { rewrite map_app in Hfree. exact (path_free_shorter _ _ _ Hfree). }
    destruct (Hrun evs Hfree') as (_ & s & Hfeed & Ht).
    destruct (Hrun _ Hfree) as (_ & s' & Hfeed' & _).
    exists s, s'. split; [ exact Hfeed | ]. split; [ exact Hfeed' | ].
    rewrite feed_app, Hfeed in Hfeed'. cbn [bind feed] in Hfeed'.
    destruct (oem_check_force_dump_key download_mode (set_state s k) code value)
      as [ k2 | m | w ] eqn:E; cbn [bind] in Hfeed'; try discriminate Hfeed'.
    inversion Hfeed'; subst k2; clear Hfeed'.
    split.
    + intros ->. destruct (is_expected s (code, value)) eqn:He; [ | reflexivity ].
      exfalso.
      destruct (key_state_is_debug s) as [ -> | Hs ].
      * rewrite map_app in Hfree. cbn [map] in Hfree.
        destruct (path_free_excludes _ _ Hfree) as (Hn1 & Hn2 & _).
        destruct (expected_at_debug download_mode code value _ Ht He);
          contradiction.
      * destruct (expected_accepted download_mode (set_state s k) code value He Hs)
          as [ Hp | (s2 & Hs2 & Hr) ]; rewrite E in *.
        -- discriminate Hp.
        -- inversion Hr. congruence.
    + intros He.
      rewrite (unexpected_resets download_mode (set_state s k) code value He) in E.
      inversion E. reflexivity.
Qed.

(** POWER pressed, VOLUME_UP pressed, POWER pressed: on no path, no
    action, and back in [NONE]. *)
Lemma mismatch_resets_to_idle_witness :
  oem_check_force_dump_key true (set_state STEP1 init_kernel) KEY_POWER 1
  = Ret init_kernel
  /\ Forall (no_action init_kernel)
       (feed_trace true init_kernel
          [(KEY_POWER, 1); (KEY_VOLUMEUP, 1); (KEY_POWER, 1)])
  /\ exists s s',
       feed true init_kernel [(KEY_POWER, 1); (KEY_VOLUMEUP, 1)]
       = Ret (set_state s init_kernel)
       /\ feed true init_kernel [(KEY_POWER, 1); (KEY_VOLUMEUP, 1); (KEY_POWER, 1)]
          = Ret (set_state s' init_kernel)
       /\ (s' = NONE <-> is_expected s (KEY_POWER, 1) = false).
Proof.
  split; [ | split ].
  - exact (proj1 (mismatch_resets_to_idle true (set_state STEP1 init_kernel)
                    [] KEY_POWER 1) eq_refl).
  - exact (proj1 (proj1 (proj2 (mismatch_resets_to_idle true init_kernel
                                  [(KEY_POWER, 1); (KEY_VOLUMEUP, 1); (KEY_POWER, 1)]
                                  KEY_POWER 1)) eq_refl)).
  - exact (proj2 (proj2 (mismatch_resets_to_idle true init_kernel
                           [(KEY_POWER, 1); (KEY_VOLUMEUP, 1)] KEY_POWER 1))
             eq_refl).
Defined.

(** C3 as it was stated fails: a sequence that is on no defined path
    need not end in [NONE] (POWER pressed, then VOLUME_UP pressed ends
    in [STEP1]), and need not be free of actions (POWER pressed before
    the complete force-dump sequence still ends in the panic). *)
Lemma off_path_sequence_not_idle :
  on_defined_path [(KEY_POWER, 1); (KEY_VOLUMEUP, 1)] = false
  /\ feed true init_kernel [(KEY_POWER, 1); (KEY_VOLUMEUP, 1)]
     = Ret (set_state STEP1 init_kernel)
  /\ state (set_state STEP1 init_kernel) <> NONE
  /\ on_defined_path ((KEY_POWER, 1) :: force_dump_sequence) = false
  /\ feed true init_kernel ((KEY_POWER, 1) :: force_dump_sequence)
     = Panic "Force Dump".
Proof.
  repeat split; try reflexivity. discriminate.
Qed.


(** ** The netlink channel and the deferred notifier *)

Lemma send_msg_trace (alloc_ok : bool) (m : string) (k : kernel) :
  trace (send_msg alloc_ok (Some m) k)
  = trace k ++ Printk ("send_msg," ++ m)
      :: (if nl_sk k && alloc_ok
          then [Netlink_unicast (to_u32 (fd k)) (strlcpy m MAX_MSGSIZE)]
          else []).
Proof.
  unfold send_msg. cbn [show_message emit nl_sk fd trace].
  destruct (nl_sk k), alloc_ok; cbn [negb andb trace emit];
    rewrite <- ?app_assoc; reflexivity.
Qed.

(** [send_msg] touches nothing but the trace. *)
Lemma send_msg_frame (alloc_ok : bool) (message : option string) (k : kernel) :
  state (send_msg alloc_ok message k) = state k
  /\ message_state (send_msg alloc_ok message k) = message_state k
  /\ selinux_switch (send_msg alloc_ok message k) = selinux_switch k
  /\ fd (send_msg alloc_ok message k) = fd k
  /\ nl_sk (send_msg alloc_ok message k) = nl_sk k
  /\ work_pending (send_msg alloc_ok message k) = work_pending k.
Proof.
  destruct k as [st ms sw f sk wq wp tr]. unfold send_msg.
  destruct message as [ m | ]; [ destruct sk, alloc_ok | ];
    repeat split; reflexivity.
Qed.

Lemma strlcpy_enable_debug : strlcpy "Enable DEBUG!" MAX_MSGSIZE = "Enable DEBUG!"%string.
Proof. reflexivity. Qed.

Lemma strlcpy_force_serial :
  strlcpy "ENABLE_OEM_FORCE_SERIAL" MAX_MSGSIZE = "ENABLE_OEM_FORCE_SERIAL"%string.
Proof. reflexivity. Qed.

(** What the worker does when it finds notification 1. *)
Lemma worker_debug_enabled (alloc_ok : bool) (k : kernel) :
  message_state k = 1 ->
  trace (send_msg_worker alloc_ok k)
  = trace k ++ [Printk "send_msg,Enable DEBUG!"]
    ++ (if nl_sk k && alloc_ok
        then [Netlink_unicast (to_u32 (fd k)) "Enable DEBUG!"]
        else []).
Proof.
  intros H. unfold send_msg_worker. rewrite H. cbn [Z.eqb Pos.eqb].
  cbn [set_message_state trace]. rewrite send_msg_trace, strlcpy_enable_debug.
  reflexivity.
Qed.

(** What the worker does when it finds notification 2. *)
Lemma worker_force_serial (alloc_ok : bool) (k : kernel) :
  message_state k = 2 ->
  trace (send_msg_worker alloc_ok k)
  = trace k ++ [Printk "force oem serial"; Msm_serial_oem_init;
                Printk "send_msg,ENABLE_OEM_FORCE_SERIAL"]
    ++ (if nl_sk k && alloc_ok
        then [Netlink_unicast (to_u32 (fd k)) "ENABLE_OEM_FORCE_SERIAL"]
        else []).
Proof.
  intros H. unfold send_msg_worker. rewrite H. cbn [Z.eqb Pos.eqb].
  cbn [set_message_state trace]. rewrite send_msg_trace, strlcpy_force_serial.
  cbn [emit trace nl_sk fd]. rewrite <- !app_assoc. reflexivity.
Qed.

(** The worker leaves 0 behind and touches neither the recognizer state
    nor the pending bit. *)
Lemma worker_frame (alloc_ok : bool) (k : kernel) :
  message_state (send_msg_worker alloc_ok k) = 0
  /\ state (send_msg_worker alloc_ok k) = state k
  /\ work_pending (send_msg_worker alloc_ok k) = work_pending k
  /\ fd (send_msg_worker alloc_ok k) = fd k
  /\ nl_sk (send_msg_worker alloc_ok k) = nl_sk k
  /\ selinux_switch (send_msg_worker alloc_ok k) = selinux_switch k.
Proof.
  unfold send_msg_worker.
  destruct (message_state k =? 1); [ | destruct (message_state k =? 2) ];
    cbn [set_message_state message_state state work_pending fd nl_sk
         selinux_switch];
    repeat match goal with
           | |- context [send_msg ?a ?m ?x] =>
               let F := fresh "F" in
               pose proof (send_msg_frame a m x) as F;
               destruct F as (-> & _ & -> & -> & -> & ->)
           end;
    repeat split; reflexivity.
Qed.

(** With the work queue in place, the two last events of the debug
    branch return. *)
Lemma step_debug_enable (download_mode : bool) (k : kernel) :
  smg_workwq k = true ->
  oem_check_force_dump_key download_mode (set_state STEP_DEBUG1 k) KEY_POWER 1
  = Ret (after_debug_enable k).
Proof.
  intros H. destruct k as [st ms sw f sk wq wp tr].
  cbn [smg_workwq] in H. subst wq. reflexivity.
Qed.

Lemma step_force_serial (download_mode : bool) (k : kernel) :
  smg_workwq k = true ->
  oem_check_force_dump_key download_mode (set_state STEP_DEBUG1 k) KEY_VOLUMEDOWN 0
  = Ret (after_force_serial k).
Proof.
  intros H. destruct k as [st ms sw f sk wq wp tr].
  cbn [smg_workwq] in H. subst wq. reflexivity.
Qed.

(** Without it, they fault in [queue_work], after the debug switch and
    the notification have been stored. *)
Lemma step_debug_without_workqueue (download_mode : bool) (k : kernel) :
  smg_workwq k = false ->
  oem_check_force_dump_key download_mode (set_state STEP_DEBUG1 k) KEY_POWER 1
  = Oops "queue_work: smg_workwq is NULL"
  /\ oem_check_force_dump_key download_mode (set_state STEP_DEBUG1 k)
       KEY_VOLUMEDOWN 0
     = Oops "queue_work: smg_workwq is NULL".
Proof.
  intros H. destruct k as [st ms sw f sk wq wp tr].
  cbn [smg_workwq] in H. subst wq. split; reflexivity.
Qed.

Lemma feed_debug_enable (download_mode : bool) (k : kernel) :
  smg_workwq k = true ->
  feed download_mode (set_state NONE k) debug_enable_sequence
  = Ret (after_debug_enable k).
Proof.
  intros H. unfold debug_enable_sequence. rewrite feed_app.
  change (feed download_mode (set_state NONE k) common_prefix)
    with (Ret (set_state STEP10 k)).
  cbn [bind feed].
  change (oem_check_force_dump_key download_mode (set_state STEP10 k)
            KEY_VOLUMEDOWN 1)
    with (Ret (set_state STEP_DEBUG1 k)).
  cbn [bind]. rewrite (step_debug_enable download_mode k H). reflexivity.
Qed.

Lemma feed_force_serial (download_mode : bool) (k : kernel) :
  smg_workwq k = true ->
  feed download_mode (set_state NONE k) force_serial_sequence
  = Ret (after_force_serial k).
Proof.
  intros H. unfold force_serial_sequence. rewrite feed_app.
  change (feed download_mode (set_state NONE k) common_prefix)
    with (Ret (set_state STEP10 k)).
  cbn [bind feed].
  change (oem_check_force_dump_key download_mode (set_state STEP10 k)
            KEY_VOLUMEDOWN 1)
    with (Ret (set_state STEP_DEBUG1 k)).
  cbn [bind]. rewrite (step_force_serial download_mode k H). reflexivity.
Qed.

(** C4.  Once [op_netlink_init] has created the work queue: from
    [STEP10], VOLUME_DOWN pressed enters [STEP_DEBUG1].  From there
    POWER pressed sets the debug switch to 1, stores notification 1 and
    queues the work item; VOLUME_DOWN released stores notification 2
    and queues the work item; both leave the recognizer in [NONE].
    The worker then calls [send_msg] with "Enable DEBUG!" for the
    first, and for the second runs [msm_serial_oem_init] and calls
    [send_msg] with "ENABLE_OEM_FORCE_SERIAL"; the message goes out to
    the cached peer when the socket exists and the buffer could be
    allocated. *)
Theorem debug_branch_notifies
    (download_mode alloc_ok : bool) (k : kernel) :
  smg_workwq k = true ->
  oem_check_force_dump_key download_mode (set_state STEP10 k) KEY_VOLUMEDOWN 1
  = Ret (set_state STEP_DEBUG1 k)
  /\ (exists k1 k2,
        oem_check_force_dump_key download_mode (set_state STEP_DEBUG1 k) KEY_POWER 1
        = Ret k1
        /\ state k1 = NONE /\ get_oem_selinux_state k1 = 1
        /\ message_state k1 = 1 /\ work_pending k1 = true
        /\ trace k1 = trace k
        /\ run_worker alloc_ok k1 = Some k2
        /\ trace k2
           = trace k ++ [Printk "send_msg,Enable DEBUG!"]
             ++ (if nl_sk k && alloc_ok
                 then [Netlink_unicast (to_u32 (fd k)) "Enable DEBUG!"]
                 else [])
        /\ state k2 = NONE /\ message_state k2 = 0 /\ work_pending k2 = false)
  /\ (exists k1 k2,
        oem_check_force_dump_key download_mode (set_state STEP_DEBUG1 k)
          KEY_VOLUMEDOWN 0
        = Ret k1
        /\ state k1 = NONE /\ get_oem_selinux_state k1 = get_oem_selinux_state k
        /\ message_state k1 = 2 /\ work_pending k1 = true
        /\ trace k1 = trace k
        /\ run_worker alloc_ok k1 = Some k2
        /\ trace k2
           = trace k ++ [Printk "force oem serial"; Msm_serial_oem_init;
                         Printk "send_msg,ENABLE_OEM_FORCE_SERIAL"]
             ++ (if nl_sk k && alloc_ok
                 then [Netlink_unicast (to_u32 (fd k)) "ENABLE_OEM_FORCE_SERIAL"]
                 else [])
        /\ state k2 = NONE /\ message_state k2 = 0 /\ work_pending k2 = false).
Proof.
  intros Hwq.
  split; [ reflexivity | ].
  split.
  - exists (after_debug_enable k).
    exists (send_msg_worker alloc_ok (set_work_pending false (after_debug_enable k))).
    destruct (worker_frame alloc_ok (set_work_pending false (after_debug_enable k)))
      as (Hm & Hs & Hw & _).
    split; [ exact (step_debug_enable download_mode k Hwq) | ].
    repeat match goal with |- _ /\ _ => split end;
      try reflexivity; try assumption.
    rewrite worker_debug_enabled by reflexivity. reflexivity.
  - exists (after_force_serial k).
    exists (send_msg_worker alloc_ok (set_work_pending false (after_force_serial k))).
    destruct (worker_frame alloc_ok (set_work_pending false (after_force_serial k)))
      as (Hm & Hs & Hw & _).
    split; [ exact (step_force_serial download_mode k Hwq) | ].
    repeat match goal with |- _ /\ _ => split end;
      try reflexivity; try assumption.
    rewrite worker_force_serial by reflexivity. reflexivity.
Qed.

(** After a complete [op_netlink_init]. *)
Lemma debug_branch_notifies_witness :
  exists k1 k2,
    oem_check_force_dump_key false
      (set_state STEP_DEBUG1 (fst (op_netlink_init true true init_kernel)))
      KEY_POWER 1
    = Ret k1
    /\ get_oem_selinux_state k1 = 1
    /\ run_worker true k1 = Some k2
    /\ trace k2
       = [ Printk "op_netlink_init"; Printk "send_msg,Enable DEBUG!";
           Netlink_unicast 4294967295 "Enable DEBUG!" ].
Proof.
  destruct (debug_branch_notifies false true
              (fst (op_netlink_init true true init_kernel)) eq_refl)
    as (_ & (k1 & k2 & H1 & _ & H3 & _ & _ & _ & H7 & H8 & _) & _).
  exists k1, k2. repeat split; assumption.
Defined.

(** C6.  Once [op_netlink_init] has created the work queue, the pending
    notification is one variable.  When the debug-enable sequence
    (which stores 1) is followed by the force-serial sequence (which
    stores 2) before the worker has run, the work item is pending once
    and the worker finds 2 only: it calls [send_msg] once, with
    "ENABLE_OEM_FORCE_SERIAL", so that one message goes out when the
    socket exists and the buffer is allocated (none otherwise, and
    never "Enable DEBUG!"); it stores 0 and has nothing left to run. *)
Theorem pending_notification_last_writer_wins
    (download_mode alloc_ok alloc_ok' : bool) (k : kernel) :
  smg_workwq k = true ->
  exists k1 k2 k3 sent,
    feed download_mode (set_state NONE k) debug_enable_sequence = Ret k1
    /\ message_state k1 = 1 /\ work_pending k1 = true
    /\ feed download_mode k1 force_serial_sequence = Ret k2
    /\ message_state k2 = 2 /\ work_pending k2 = true /\ trace k2 = trace k
    /\ run_worker alloc_ok k2 = Some k3
    /\ trace k3 = trace k ++ sent
    /\ filter is_unicast sent
       = (if nl_sk k && alloc_ok
          then [Netlink_unicast (to_u32 (fd k)) "ENABLE_OEM_FORCE_SERIAL"]
          else [])
    /\ ~ In (Printk "send_msg,Enable DEBUG!") sent
    /\ message_state k3 = 0
    /\ work_pending k3 = false
    /\ run_worker alloc_ok' k3 = None.
Proof.
  intros Hwq.
  set (k1 := after_debug_enable k).
  set (k2 := after_force_serial k1).
  set (k3 := send_msg_worker alloc_ok (set_work_pending false k2)).
  exists k1, k2, k3.
  exists ([Printk "force oem serial"; Msm_serial_oem_init;
           Printk "send_msg,ENABLE_OEM_FORCE_SERIAL"]
          ++ (if nl_sk k && alloc_ok
              then [Netlink_unicast (to_u32 (fd k)) "ENABLE_OEM_FORCE_SERIAL"]
              else [])).
  destruct (worker_frame alloc_ok (set_work_pending false k2))
    as (Hm & Hs & Hw & _).
  fold k3 in Hm, Hs, Hw.
  split; [ exact (feed_debug_enable download_mode k Hwq) | ].
  split; [ reflexivity | ]. split; [ reflexivity | ].
  split; [ exact (feed_force_serial download_mode k1 Hwq) | ].
  repeat match goal with |- _ /\ _ => split end;
    try reflexivity; try assumption.
  - unfold k3. rewrite worker_force_serial by reflexivity. reflexivity.
  - destruct (nl_sk k && alloc_ok); reflexivity.
  - intros H. destruct (nl_sk k && alloc_ok); cbn [app In] in H;
      repeat (destruct H as [H | H]; [ discriminate H | ]); exact H.
  - unfold run_worker. rewrite Hw. reflexivity.
Qed.

(** After a complete [op_netlink_init]: one message, the second one. *)
Lemma pending_notification_last_writer_wins_witness :
  exists k3 sent,
    exec_ops (fst (op_netlink_init true true init_kernel))
      (map (fun e => Op_key false (fst e) (snd e))
           (debug_enable_sequence ++ force_serial_sequence)
       ++ [Op_worker true])
    = Ret k3
    /\ trace k3 = [Printk "op_netlink_init"] ++ sent
    /\ filter is_unicast sent
       = [Netlink_unicast 4294967295 "ENABLE_OEM_FORCE_SERIAL"].
Proof.
  destruct (pending_notification_last_writer_wins false true true
              (fst (op_netlink_init true true init_kernel)) eq_refl)
    as (k1 & k2 & k3 & sent & H1 & _ & _ & H4 & _ & _ & _ & H8 & H9 & H10 & _).
  exists k3, sent.
  split; [ | split; [ exact H9 | exact H10 ] ].
  assert (E1 : k1 = after_debug_enable (fst (op_netlink_init true true init_kernel))).
  { change (feed false (set_state NONE (fst (op_netlink_init true true init_kernel)))
              debug_enable_sequence)
      with (Ret (after_debug_enable (fst (op_netlink_init true true init_kernel))))
      in H1.
    inversion H1. reflexivity. }
  subst k1.
  assert (E2 : k2 = after_force_serial
                      (after_debug_enable (fst (op_netlink_init true true init_kernel)))).
  { change (feed false
              (after_debug_enable (fst (op_netlink_init true true init_kernel)))
              force_serial_sequence)
      with (Ret (after_force_serial
                   (after_debug_enable (fst (op_netlink_init true true init_kernel)))))
      in H4.
    inversion H4. reflexivity. }
  subst k2.
  change (exec_ops (fst (op_netlink_init true true init_kernel))
            (map (fun e => Op_key false (fst e) (snd e))
                 (debug_enable_sequence ++ force_serial_sequence)
             ++ [Op_worker true]))
    with (match run_worker true
                  (after_force_serial
                     (after_debug_enable (fst (op_netlink_init true true init_kernel))))
          with
          | Some k' => Ret k'
          | None => Ret (after_force_serial
                           (after_debug_enable
                              (fst (op_netlink_init true true init_kernel))))
          end).
  rewrite H8. reflexivity.
Defined.

(** What a call of the recognizer that returns can have done. *)
Lemma oem_check_force_dump_key_cases
    (download_mode : bool) (k k' : kernel) (code value : Z) :
  oem_check_force_dump_key download_mode k code value = Ret k' ->
  k' = set_state (state k') k
  \/ k' = after_debug_enable k
  \/ k' = after_force_serial k.
Proof.
  destruct k as [st ms sw f sk wq wp tr].
  unfold oem_check_force_dump_key. cbn [state].
  destruct st;
    repeat match goal with
           | |- context [if ?b then _ else _] => destruct b
           end;
    unfold queue_work; cbn [smg_workwq set_message_state set_oem_selinux_state fst];
    destruct wq; cbn [bind]; intros H; inversion H; subst;
    first [ left; reflexivity
          | right; left; reflexivity
          | right; right; reflexivity ].
Qed.

Lemma oem_check_force_dump_key_fd
    (download_mode : bool) (k k' : kernel) (code value : Z) :
  oem_check_force_dump_key download_mode k code value = Ret k' ->
  fd k' = fd k /\ nl_sk k' = nl_sk k /\ trace k' = trace k.
Proof.
  intros H.
  destruct (oem_check_force_dump_key_cases download_mode k k' code value H)
    as [ -> | [ -> | -> ] ]; repeat split; reflexivity.
Qed.

(** Only [recv_nlmsg] writes [fd]. *)
Lemma exec_op_fd (k k' : kernel) (o : op) :
  is_inbound o = false -> exec_op k o = Ret k' -> fd k' = fd k.
Proof.
  destruct o as [ sock_ok wq_ok | dm code value | alloc_ok | alloc_ok message
                | alloc_ok | skb | st ]; cbn [is_inbound exec_op]; intros Hi H;
    try discriminate Hi.
  - inversion H; subst. unfold op_netlink_init.
    destruct sock_ok, wq_ok; reflexivity.
  - apply (oem_check_force_dump_key_fd dm k k' code value H).
  - unfold run_worker in H. destruct (work_pending k); inversion H; subst.
    + destruct (worker_frame alloc_ok (set_work_pending false k))
        as (_ & _ & _ & Hf & _).
      rewrite Hf. reflexivity.
    + reflexivity.
  - inversion H; subst. apply (send_msg_frame alloc_ok message k).
  - inversion H; subst. unfold send_msg_sync_mdm_dump.
    apply (send_msg_frame alloc_ok (Some "FORCE_MDM_DUMP_SYNC"%string) k).
  - inversion H; subst. reflexivity.
Qed.

Lemma exec_ops_fd (os : list op) :
  forall k k' : kernel,
    existsb is_inbound os = false -> exec_ops k os = Ret k' -> fd k' = fd k.
Proof.
  induction os as [ | o rest IH ]; intros k k' Hi H.
  - inversion H; subst. reflexivity.
  - cbn [existsb] in Hi. apply orb_false_iff in Hi. destruct Hi as [Ho Hr].
    cbn [exec_ops] in H.
    destruct (exec_op k o) as [ k1 | m | m ] eqn:E; cbn [bind] in H;
      [ | discriminate H | discriminate H ].
    rewrite (IH k1 k' Hr H). apply (exec_op_fd k k1 o Ho E).
Qed.

Lemma unicasts_to_app (p : Z) (tr1 tr2 : list effect) :
  unicasts_to p (tr1 ++ tr2) = unicasts_to p tr1 ++ unicasts_to p tr2.
Proof.
  induction tr1 as [ | e rest IH ]; [ reflexivity | ].
  cbn [app unicasts_to].
  destruct e as [ line | data a | q payload | ]; try exact IH.
  destruct (q =? p); [ cbn [app]; f_equal | ]; exact IH.
Qed.

(** C7, as the code has it.  [fd] starts at -1 and only an inbound
    message changes it: in every state reached without one the cached
    peer address is -1, not 0.  A send in such a state returns
    normally; what it hands to the transport is at most one message,
    addressed to port id 4294967295 (-1 as a [u32]), so no socket bound
    to another port id is given anything. *)
Theorem send_before_any_inbound
    (os : list op) (k : kernel) (alloc_ok : bool) (message : option string) :
  exec_ops init_kernel os = Ret k ->
  existsb is_inbound os = false ->
  fd k = -1
  /\ exec_op k (Op_send_msg alloc_ok message)
     = Ret (send_msg alloc_ok message k)
  /\ (exists sent,
        trace (send_msg alloc_ok message k)
        = trace k ++ Printk ("send_msg," ++ show_message message) :: sent
        /\ (sent = []
            \/ exists payload, sent = [Netlink_unicast 4294967295 payload]))
  /\ (forall p, p <> 4294967295 ->
        unicasts_to p (trace (send_msg alloc_ok message k))
        = unicasts_to p (trace k)).
Proof.
  intros Hrun Hin.
  assert (Hfd : fd k = -1).
  { rewrite (exec_ops_fd os init_kernel k Hin Hrun). reflexivity. }
  assert (Htr : exists sent,
             trace (send_msg alloc_ok message k)
             = trace k ++ Printk ("send_msg," ++ show_message message) :: sent
             /\ (sent = []
                 \/ exists payload, sent = [Netlink_unicast 4294967295 payload])).
  { destruct message as [ m | ].
    - rewrite send_msg_trace. rewrite Hfd.
      destruct (nl_sk k && alloc_ok).
      + eexists. split; [ reflexivity | ]. right. eexists. reflexivity.
      + exists []. split; [ reflexivity | left; reflexivity ].
    - exists []. split; [ reflexivity | left; reflexivity ]. }
  split; [ exact Hfd | ].
  split; [ reflexivity | ].
  split; [ exact Htr | ].
  intros p Hp. destruct Htr as (sent & -> & Hs).
  rewrite unicasts_to_app. cbn [unicasts_to].
  destruct Hs as [ -> | [payload ->] ].
  - cbn [unicasts_to]. apply app_nil_r.
  - cbn [unicasts_to].
    destruct (4294967295 =? p) eqn:E.
    + apply Z.eqb_eq in E. congruence.
    + apply app_nil_r.
Qed.

(** Once the socket exists and before anything has come in. *)
Lemma send_before_any_inbound_witness :
  fd (fst (op_netlink_init true true init_kernel)) = -1
  /\ unicasts_to 0
       (trace (send_msg true (Some "Enable DEBUG!"%string)
                 (fst (op_netlink_init true true init_kernel))))
     = [].
Proof.
  pose proof (send_before_any_inbound [Op_netlink_init true true]
                (fst (op_netlink_init true true init_kernel))
                true (Some "Enable DEBUG!"%string) eq_refl eq_refl)
    as (H1 & _ & _ & H4).
  split; [ exact H1 | ].
  rewrite (H4 0); [ reflexivity | discriminate ].
Defined.

(** C7 as it was stated fails: before any inbound message the cached
    peer address is -1 and not 0, and the send that follows is
    addressed to port id 4294967295, not to port id 0. *)
Lemma initial_peer_address_not_zero :
  exec_ops init_kernel [Op_netlink_init true true]
  = Ret (fst (op_netlink_init true true init_kernel))
  /\ existsb is_inbound [Op_netlink_init true true] = false
  /\ fd (fst (op_netlink_init true true init_kernel)) <> 0
  /\ trace (send_msg true (Some "Enable DEBUG!"%string)
              (fst (op_netlink_init true true init_kernel)))
     = [ Printk "op_netlink_init"; Printk "send_msg,Enable DEBUG!";
         Netlink_unicast 4294967295 "Enable DEBUG!" ].
Proof.
  repeat split; try reflexivity. discriminate.
Qed.

(** C8.  A well-formed inbound message (header length at least
    [NLMSG_HDRLEN], buffer at least as long as the header says)
    replaces the cached peer address, whatever it was, by the sender's
    port id, and the next send is addressed to exactly that port id; a
    malformed or too short one changes nothing at all. *)
Theorem recv_nlmsg_learns_peer
    (k : kernel) (skb : sk_buff) (alloc_ok : bool) (m : string) :
  (well_formed skb = true ->
   0 <= nlmsg_pid skb < 2 ^ 32 ->
   fd (recv_nlmsg skb k) = to_s32 (nlmsg_pid skb)
   /\ trace (send_msg alloc_ok (Some m) (recv_nlmsg skb k))
      = trace (recv_nlmsg skb k) ++ Printk ("send_msg," ++ m)
          :: (if nl_sk k && alloc_ok
              then [Netlink_unicast (nlmsg_pid skb) (strlcpy m MAX_MSGSIZE)]
              else []))
  /\ (well_formed skb = false -> recv_nlmsg skb k = k).
Proof.
  unfold well_formed, recv_nlmsg.
  rewrite !Z.leb_antisym, <- negb_orb.
  destruct ((nlmsg_len skb <? NLMSG_HDRLEN) || (skb_len skb <? nlmsg_len skb));
    cbn [negb]; (split; [ intros Hw Hr | intros Hw ]);
    try discriminate; try reflexivity.
  split; [ reflexivity | ].
  rewrite send_msg_trace. cbn [emit set_fd fd nl_sk].
  rewrite to_u32_to_s32, (to_u32_small _ Hr). reflexivity.
Qed.

Lemma recv_nlmsg_learns_peer_witness :
  let k := set_fd 77 (fst (op_netlink_init true true init_kernel)) in
  let good := mkSkb 22 22 4242 "hello!" in
  let bad := mkSkb 22 40 4242 "hello!" in
  fd (recv_nlmsg good k) = 4242
  /\ unicasts_to 4242
       (trace (send_msg true (Some "Enable DEBUG!"%string) (recv_nlmsg good k)))
     = ["Enable DEBUG!"%string]
  /\ recv_nlmsg bad k = k.
Proof.
  cbv zeta.
  pose proof (recv_nlmsg_learns_peer
                (set_fd 77 (fst (op_netlink_init true true init_kernel)))
                (mkSkb 22 22 4242 "hello!") true "Enable DEBUG!") as [H1 _].
  pose proof (recv_nlmsg_learns_peer
                (set_fd 77 (fst (op_netlink_init true true init_kernel)))
                (mkSkb 22 40 4242 "hello!") true "Enable DEBUG!") as [_ H2].
  destruct (H1 eq_refl ltac:(split; [ discriminate | reflexivity ])) as [Ha Hb].
  split; [ exact Ha | ].
  split; [ rewrite Hb; reflexivity | exact (H2 eq_refl) ].
Defined.

(** ** C strings *)

Lemma byte_code_inj (c c' : ascii) :
  Z.of_N (N_of_ascii c) = Z.of_N (N_of_ascii c') -> c = c'.
Proof.
  intros H. apply N2Z.inj in H.
  rewrite <- (ascii_N_embedding c), <- (ascii_N_embedding c'), H.
  reflexivity.
Qed.

Lemma sign_nonzero (c1 c2 : Z) : (if c1 <? c2 then -1 else 1) <> 0.
Proof. destruct (c1 <? c2); discriminate. Qed.

(** [strncmp] answers 0 exactly when the two C strings, cut after
    [count] bytes, are the same. *)
Lemma strncmp_zero_iff (count : nat) :
  forall cs ct : string,
    strncmp cs ct count = 0 <-> truncated count cs = truncated count ct.
Proof.
  induction count as [ | n IH ]; intros cs ct.
  - cbn. tauto.
  - destruct cs as [ | c r ], ct as [ | c' r' ]; cbn [strncmp truncated byte_of rest_of].
    + cbn. tauto.
    + change (0 =? Z.of_N (N_of_ascii c')) with (Z.eqb 0 (Z.of_N (N_of_ascii c'))).
      rewrite (Z.eqb_sym 0).
      destruct (Z.of_N (N_of_ascii c') =? 0) eqn:E; cbn [negb].
      * cbn. tauto.
      * split; [ intros H; exfalso; exact (sign_nonzero _ _ H) | discriminate ].
    + destruct (Z.of_N (N_of_ascii c) =? 0) eqn:E; cbn [negb].
      * cbn. tauto.
      * split; [ intros H; exfalso; exact (sign_nonzero _ _ H) | discriminate ].
    + destruct (Z.of_N (N_of_ascii c) =? Z.of_N (N_of_ascii c')) eqn:E; cbn [negb].
      * apply Z.eqb_eq in E. rewrite <- E.
        apply byte_code_inj in E. subst c'.
        destruct (Z.of_N (N_of_ascii c) =? 0); [ tauto | ].
        rewrite IH. split; [ intros ->; reflexivity | intros H; inversion H; reflexivity ].
      * split; [ intros H; exfalso; exact (sign_nonzero _ _ H) | ].
        apply Z.eqb_neq in E.
        destruct (Z.of_N (N_of_ascii c) =? 0) eqn:E1,
                 (Z.of_N (N_of_ascii c') =? 0) eqn:E2;
          intros H; try discriminate H.
        -- apply Z.eqb_eq in E1, E2. congruence.
        -- inversion H. congruence.
Qed.

(** [strcmp] answers 0 exactly when the two C strings are the same. *)
Lemma strcmp_zero_iff (cs : string) :
  forall ct : string, strcmp cs ct = 0 <-> c_string cs = c_string ct.
Proof.
  induction cs as [ | c r IH ]; intros ct;
    destruct ct as [ | c' r' ]; cbn [strcmp c_string byte_of rest_of].
  - cbn. tauto.
  - destruct (Z.of_N (N_of_ascii c') =? 0) eqn:E.
    + tauto.
    + split; discriminate.
  - change (Z.of_N (N_of_ascii c) =? 0) with (Z.eqb (Z.of_N (N_of_ascii c)) 0).
    destruct (Z.of_N (N_of_ascii c) =? 0) eqn:E; cbn [negb].
    + tauto.
    + split; [ intros H; exfalso; exact (sign_nonzero _ _ H) | discriminate ].
  - destruct (Z.of_N (N_of_ascii c) =? Z.of_N (N_of_ascii c')) eqn:E; cbn [negb].
    + apply Z.eqb_eq in E. rewrite <- E.
      apply byte_code_inj in E. subst c'.
      destruct (Z.of_N (N_of_ascii c) =? 0); [ tauto | ].
      rewrite IH. split; [ intros ->; reflexivity | intros H; inversion H; reflexivity ].
    + split; [ intros H; exfalso; exact (sign_nonzero _ _ H) | ].
      apply Z.eqb_neq in E.
      destruct (Z.of_N (N_of_ascii c) =? 0) eqn:E1,
               (Z.of_N (N_of_ascii c') =? 0) eqn:E2;
        intros H; try discriminate H.
      * apply Z.eqb_eq in E1, E2. congruence.
      * inversion H. congruence.
Qed.


Lemma truncated_short (n : nat) :
  forall s : string,
    nul_free s = true ->
    (String.length (truncated n s) < n)%nat ->
    truncated n s = s.
Proof.
  induction n as [ | n IH ]; intros s Hs Hl.
  - inversion Hl.
  - destruct s as [ | c r ]; [ reflexivity | ].
    cbn [nul_free] in Hs. apply andb_true_iff in Hs. destruct Hs as [Hc Hr].
    cbn [truncated] in *. apply negb_true_iff in Hc. rewrite Hc in *.
    cbn [String.length] in Hl. f_equal. apply IH; [ exact Hr | ].
    apply PeanoNat.lt_S_n. exact Hl.
Qed.

Lemma truncated_whole (n : nat) :
  forall s : string,
    nul_free s = true -> (String.length s <= n)%nat -> truncated n s = s.
Proof.
  induction n as [ | n IH ]; intros s Hs Hl.
  - destruct s; [ reflexivity | inversion Hl ].
  - destruct s as [ | c r ]; [ reflexivity | ].
    cbn [nul_free] in Hs. apply andb_true_iff in Hs. destruct Hs as [Hc Hr].
    cbn [truncated]. apply negb_true_iff in Hc. rewrite Hc.
    f_equal. apply IH; [ exact Hr | ].
    cbn [String.length] in Hl. apply le_S_n. exact Hl.
Qed.

(** For a [comm] as the kernel keeps it (at most 15 bytes before the
    NUL) and a searched name without zero byte, equality of the
    truncated names is equality of the names. *)
Lemma truncated_comm_eq (cm name : string) :
  nul_free cm = true -> nul_free name = true ->
  (String.length cm < TASK_COMM_LEN)%nat ->
  (truncated TASK_COMM_LEN cm = truncated TASK_COMM_LEN name <-> cm = name).
Proof.
  intros Hc Hn Hl.
  assert (Hcm : truncated TASK_COMM_LEN cm = cm).
  { apply truncated_whole; [ exact Hc | ]. apply PeanoNat.Nat.lt_le_incl. exact Hl. }
  rewrite Hcm. split.
  - intros H. rewrite H. apply truncated_short; [ exact Hn | ].
    rewrite <- H. exact Hl.
  - intros <-. symmetry. exact Hcm.
Qed.

(** The first [length p] bytes of a C string are [p] exactly when the
    string begins with [p]. *)
Lemma truncated_prefix (p : string) :
  nul_free p = true ->
  forall s : string,
    truncated (String.length p) s = p <-> String.prefix p s = true.
Proof.
  induction p as [ | a p' IH ]; intros Hp s.
  - destruct s; split; reflexivity.
  - cbn [nul_free] in Hp. apply andb_true_iff in Hp. destruct Hp as [Ha Hp'].
    apply negb_true_iff in Ha.
    destruct s as [ | b r ]; cbn [String.length truncated String.prefix].
    + split; discriminate.
    + destruct (ascii_dec a b) as [ <- | Hne ].
      * rewrite Ha. rewrite <- (IH Hp' r).
        split; [ intros H; inversion H; congruence | intros ->; reflexivity ].
      * split; [ | discriminate ].
        destruct (Z.of_N (N_of_ascii b) =? 0); intros H; inversion H.
        congruence.
Qed.

(** ** The task scans *)

Lemma exact_match_iff (t : task_struct) (name : string) :
  exact_match t name = true
  <-> truncated TASK_COMM_LEN (comm t) = truncated TASK_COMM_LEN name.
Proof.
  unfold exact_match. rewrite Z.eqb_eq. apply strncmp_zero_iff.
Qed.

Lemma binder_heuristic_iff (t : task_struct) :
  binder_heuristic t = true
  <-> String.prefix "Binder:" (comm t) = true
      /\ group_leader_pid t = pid t
      /\ uid_val t = 1000
      /\ exists pc, parent_comm t = Some pc /\ c_string pc = "main"%string.
Proof.
  unfold binder_heuristic.
  rewrite !andb_true_iff, !Z.eqb_eq.
  rewrite (strncmp_zero_iff 7 (comm t) "Binder:").
  change (truncated 7 "Binder:") with "Binder:"%string.
  rewrite (truncated_prefix "Binder:" eq_refl (comm t)).
  destruct (parent_comm t) as [ pc | ].
  - rewrite Z.eqb_eq, (strcmp_zero_iff pc "main").
    change (c_string "main") with "main"%string.
    split.
    + intros [[[H1 H2] H3] H4]. repeat split; try assumption.
      exists pc. split; [ reflexivity | exact H4 ].
    + intros (H1 & H2 & H3 & pc' & Hp & H4). inversion Hp; subst pc'.
      repeat split; assumption.
  - split.
    + intros [_ H]. discriminate H.
    + intros (_ & _ & _ & pc' & Hp & _). discriminate Hp.
Qed.

(** The trace scan signals the first task, in scan order, that
    [find_task_by_name] accepts. *)
Lemma trace_scan_first (name : string) (pre : list task_struct) :
  forall (x : task_struct) (post : list task_struct),
    forallb (fun u => negb (find_task_by_name u name)) pre = true ->
    find_task_by_name x name = true ->
    trace_scan (pre ++ x :: post) name = [Do_send_sig_info SIGQUIT x; Msleep 500].
Proof.
  induction pre as [ | u rest IH ]; intros x post Hpre Hx.
  - cbn [app trace_scan]. rewrite Hx. reflexivity.
  - cbn [forallb] in Hpre. apply andb_true_iff in Hpre. destruct Hpre as [Hu Hr].
    apply negb_true_iff in Hu. cbn [app trace_scan]. rewrite Hu.
    apply IH; assumption.
Qed.

Lemma trace_scan_none (name : string) (ts : list task_struct) :
  forallb (fun u => negb (find_task_by_name u name)) ts = true ->
  trace_scan ts name = [].
Proof.
  induction ts as [ | u rest IH ]; intros H; [ reflexivity | ].
  cbn [forallb] in H. apply andb_true_iff in H. destruct H as [Hu Hr].
  apply negb_true_iff in Hu. cbn [trace_scan]. rewrite Hu. apply IH. exact Hr.
Qed.

(** What the trace scan signals was accepted by [find_task_by_name]
    and is one of the tasks visited. *)
Lemma trace_scan_sound (name : string) (ts : list task_struct) :
  forall (sig : Z) (t : task_struct),
    In (Do_send_sig_info sig t) (trace_scan ts name) ->
    sig = SIGQUIT /\ find_task_by_name t name = true /\ In t ts
    /\ trace_scan ts name = [Do_send_sig_info SIGQUIT t; Msleep 500].
Proof.
  induction ts as [ | u rest IH ]; intros sig t H.
  - destruct H.
  - cbn [trace_scan] in *.
    destruct (find_task_by_name u name) eqn:E.
    + destruct H as [ H | [ H | [] ] ]; inversion H; subst.
      repeat split; [ exact E | left; reflexivity ].
    + destruct (IH sig t H) as (H1 & H2 & H3 & H4).
      repeat split; [ exact H1 | exact H2 | right; exact H3 | exact H4 ].
Qed.

(** What the tombstone scan signals is a task of the list it was given
    whose truncated name is the searched one. *)
Lemma tombstone_scan_sound (name : string) (ps : list task_struct) :
  forall (sig : Z) (t : task_struct),
    In (Do_send_sig_info sig t) (tombstone_scan ps name) ->
    sig = SIGNAL_DEBUGGER /\ exact_match t name = true /\ In t ps.
Proof.
  induction ps as [ | p rest IH ]; intros sig t H.
  - destruct H.
  - cbn [tombstone_scan] in H.
    destruct (strncmp (comm p) name TASK_COMM_LEN =? 0) eqn:E.
    + destruct H as [ H | [ H | [] ] ]; inversion H; subst.
      repeat split; [ exact E | left; reflexivity ].
    + destruct (IH sig t H) as (H1 & H2 & H3).
      repeat split; [ exact H1 | exact H2 | right; exact H3 ].
Qed.

(** C5, as the code has it.  [find_task_by_name] accepts a task exactly
    when its truncated (16-byte) command name is the searched one, or
    its name begins with "Binder:", it is its own thread-group leader,
    its uid is 1000 and it has a parent named "main".  The scan signals
    the first task in scan order that is accepted: of an exact match
    and a heuristic-only match, the one visited first; the heuristic
    match when nothing before it is accepted; and it does nothing at
    all when no task is accepted. *)
Theorem find_task_by_name_first_match
    (tbl : list process) (name : string) (t : task_struct)
    (pre post : list task_struct) :
  (find_task_by_name t name = true
   <-> truncated TASK_COMM_LEN (comm t) = truncated TASK_COMM_LEN name
       \/ (String.prefix "Binder:" (comm t) = true
           /\ group_leader_pid t = pid t
           /\ uid_val t = 1000
           /\ exists pc, parent_comm t = Some pc /\ c_string pc = "main"%string))
  /\ (for_each_process_thread tbl = pre ++ t :: post ->
      forallb (fun u => negb (find_task_by_name u name)) pre = true ->
      find_task_by_name t name = true ->
      send_sig_to_get_trace tbl name = [Do_send_sig_info SIGQUIT t; Msleep 500])
  /\ (forallb (fun u => negb (find_task_by_name u name))
        (for_each_process_thread tbl) = true ->
      send_sig_to_get_trace tbl name = []).
Proof.
  split; [ | split ].
  - rewrite <- exact_match_iff, <- binder_heuristic_iff.
    unfold find_task_by_name.
    destruct (exact_match t name), (binder_heuristic t);
      split; intros H; try reflexivity; try discriminate H;
      try (left; reflexivity); try (right; reflexivity).
    destruct H as [H | H]; discriminate H.
  - intros Hs Hpre Ht. unfold send_sig_to_get_trace. rewrite Hs.
    apply trace_scan_first; assumption.
  - intros H. unfold send_sig_to_get_trace. apply trace_scan_none. exact H.
Qed.

(** The exact match is visited before the heuristic-only match. *)
Lemma find_task_by_name_first_match_witness :
  let tbl := [ mkProcess other_task []; mkProcess target_task [];
               mkProcess binder_task [] ] in
  send_sig_to_get_trace tbl "target"
  = [Do_send_sig_info SIGQUIT target_task; Msleep 500]
  /\ send_sig_to_get_trace [ mkProcess other_task []; mkProcess binder_task [] ]
       "target"
     = [Do_send_sig_info SIGQUIT binder_task; Msleep 500]
  /\ send_sig_to_get_trace [ mkProcess other_task [] ] "target" = [].
Proof.
  cbv zeta.
  split; [ | split ].
  - exact (proj1 (proj2 (find_task_by_name_first_match
                           [ mkProcess other_task []; mkProcess target_task [];
                             mkProcess binder_task [] ]
                           "target" target_task [other_task] [binder_task]))
             eq_refl eq_refl eq_refl).
  - exact (proj1 (proj2 (find_task_by_name_first_match
                           [ mkProcess other_task []; mkProcess binder_task [] ]
                           "target" binder_task [other_task] []))
             eq_refl eq_refl eq_refl).
  - exact (proj2 (proj2 (find_task_by_name_first_match
                           [ mkProcess other_task [] ]
                           "target" other_task [] []))
             eq_refl).
Defined.

(** C5 as it was stated fails: with an exact match and a heuristic-only
    match both in the table, the scan signals the heuristic-only match
    when that one is visited first. *)
Lemma heuristic_match_before_exact_match :
  let tbl := [ mkProcess binder_task []; mkProcess target_task [] ] in
  exact_match target_task "target" = true
  /\ heuristic_only binder_task "target" = true
  /\ In target_task (for_each_process_thread tbl)
  /\ signalled (send_sig_to_get_trace tbl "target") = Some binder_task
  /\ binder_task <> target_task.
Proof.
  cbv zeta. repeat split; try reflexivity.
  - right. left. reflexivity.
  - discriminate.
Qed.

(** C10, as the code has it.  The tombstone path signals only a
    thread-group leader whose truncated (16-byte) command name is the
    searched one: it has no second test and visits no other thread.  A
    task that [find_task_by_name] accepts through the "Binder:" test
    only is therefore never signalled by the tombstone path, while the
    trace path signals it when no task visited before it is
    accepted. *)
Theorem tombstone_path_exact_leaders_only
    (tbl : list process) (name : string) (t : task_struct)
    (pre post : list task_struct) :
  (forall sig u,
      In (Do_send_sig_info sig u) (send_sig_to_get_tombstone tbl name) ->
      sig = SIGNAL_DEBUGGER
      /\ truncated TASK_COMM_LEN (comm u) = truncated TASK_COMM_LEN name
      /\ In u (for_each_process tbl))
  /\ (heuristic_only t name = true ->
      (forall sig,
          ~ In (Do_send_sig_info sig t) (send_sig_to_get_tombstone tbl name))
      /\ (for_each_process_thread tbl = pre ++ t :: post ->
          forallb (fun u => negb (find_task_by_name u name)) pre = true ->
          send_sig_to_get_trace tbl name
          = [Do_send_sig_info SIGQUIT t; Msleep 500])).
Proof.
  split.
  - intros sig u H.
    destruct (tombstone_scan_sound name (for_each_process tbl) sig u H)
      as (H1 & H2 & H3).
    split; [ exact H1 | ]. split; [ | exact H3 ].
    apply exact_match_iff. exact H2.
  - unfold heuristic_only. intros Hh.
    apply andb_true_iff in Hh. destruct Hh as [He Hb].
    apply negb_true_iff in He.
    split.
    + intros sig H.
      destruct (tombstone_scan_sound name (for_each_process tbl) sig t H)
        as (_ & H2 & _).
      congruence.
    + intros Hs Hpre. unfold send_sig_to_get_trace. rewrite Hs.
      apply trace_scan_first; [ exact Hpre | ].
      unfold find_task_by_name. rewrite He, Hb. reflexivity.
Qed.

(** A "Binder:" task visited first gets the trace signal and no
    tombstone signal; a thread that is not a leader gets no tombstone
    signal even under the searched name. *)
Lemma tombstone_path_exact_leaders_only_witness :
  let tbl := [ mkProcess other_task [target_task]; mkProcess binder_task [] ] in
  heuristic_only binder_task "target" = true
  /\ send_sig_to_get_trace [ mkProcess other_task []; mkProcess binder_task [] ]
       "target"
     = [Do_send_sig_info SIGQUIT binder_task; Msleep 500]
  /\ (forall sig,
         ~ In (Do_send_sig_info sig binder_task)
             (send_sig_to_get_tombstone
                [ mkProcess other_task []; mkProcess binder_task [] ] "target"))
  /\ send_sig_to_get_tombstone tbl "target" = []
  /\ send_sig_to_get_trace tbl "target"
     = [Do_send_sig_info SIGQUIT target_task; Msleep 500].
Proof.
  cbv zeta.
  pose proof (proj2 (tombstone_path_exact_leaders_only
                       [ mkProcess other_task []; mkProcess binder_task [] ]
                       "target" binder_task [other_task] []) eq_refl)
    as [Hn Ht].
  split; [ reflexivity | ].
  split; [ exact (Ht eq_refl eq_refl) | ].
  split; [ exact Hn | ].
  split; reflexivity.
Defined.

(** C10 as it was stated fails: a task that only the "Binder:" test
    accepts is not given the trace signal when a task accepted earlier
    in the scan takes it. *)
Lemma heuristic_only_task_not_traced :
  let tbl := [ mkProcess target_task []; mkProcess binder_task [] ] in
  heuristic_only binder_task "target" = true
  /\ In binder_task (for_each_process_thread tbl)
  /\ send_sig_to_get_trace tbl "target"
     = [Do_send_sig_info SIGQUIT target_task; Msleep 500]
  /\ ~ In (Do_send_sig_info SIGQUIT binder_task)
         (send_sig_to_get_trace tbl "target").
Proof.
  cbv zeta. repeat split; try reflexivity.
  - right. left. reflexivity.
  - intros [ H | [ H | [] ] ]; discriminate H.
Qed.

(** ** The recognizer, beyond the documented sequences *)

(** X1.  The force dump is triggered by nothing but the documented
    combination.  When a run from [NONE] panics, download mode is
    enabled, the message is "Force Dump", and the panic comes from the
    call for one event of the run: the events before it were all
    handled and returned, and the events up to and including that one
    end with the twelve events of the force-dump sequence. *)
Theorem panic_only_after_full_sequence
    (download_mode : bool) (k : kernel) (evs : list event) (m : string) :
  feed download_mode (set_state NONE k) evs = Panic m ->
  exists done code value rest pre k1,
    evs = done ++ (code, value) :: rest
    /\ feed download_mode (set_state NONE k) done = Ret k1
    /\ oem_check_force_dump_key download_mode k1 code value = Panic m
    /\ feed download_mode (set_state NONE k) (done ++ [(code, value)]) = Panic m
    /\ map abstract (done ++ [(code, value)])
       = pre ++ map abstract force_dump_sequence
    /\ m = "Force Dump"%string
    /\ download_mode = true.
Proof.
  intros H.
  destruct (feed_panic_history download_mode evs (set_state NONE k) [] m
              (tracks_start download_mode []) H)
    as (dn & c & v & rs & pre & k1 & H1 & H2 & H3 & H4 & H5 & H6).
  exists dn, c, v, rs, pre, k1.
  repeat split; try assumption.
  rewrite feed_app, H2. cbn [bind feed]. rewrite H3. reflexivity.
Qed.

Lemma panic_only_after_full_sequence_witness :
  exists done code value rest pre k1,
    (KEY_POWER, 1) :: force_dump_sequence ++ [(KEY_POWER, 0)]
    = done ++ (code, value) :: rest
    /\ feed true init_kernel done = Ret k1
    /\ feed true init_kernel (done ++ [(code, value)]) = Panic "Force Dump"
    /\ map abstract (done ++ [(code, value)])
       = pre ++ map abstract force_dump_sequence.
Proof.
  destruct (panic_only_after_full_sequence true init_kernel
              ((KEY_POWER, 1) :: force_dump_sequence ++ [(KEY_POWER, 0)])
              "Force Dump" eq_refl)
    as (dn & c & v & rs & pre & k1 & H1 & H2 & _ & H4 & H5 & _).
  exists dn, c, v, rs, pre, k1. repeat split; assumption.
Defined.

(** X2.  Only [STEP_DEBUG1] changes anything besides the recognizer state:
    from every other state a call that returns has taken no action. *)
Theorem only_debug_state_acts
    (download_mode : bool) (k k' : kernel) (code value : Z) :
  oem_check_force_dump_key download_mode k code value = Ret k' ->
  state k <> STEP_DEBUG1 ->
  k' = set_state (state k') k.
Proof.
  unfold oem_check_force_dump_key.
  destruct (state k) eqn:Hs;
    repeat match goal with
           | |- context [if ?b then _ else _] => destruct b
           end;
    intros H Hd; inversion H; subst; try reflexivity; try congruence.
  symmetry. apply set_state_same.
Qed.

Lemma only_debug_state_acts_witness :
  set_state STEP6 init_kernel
  = set_state (state (set_state STEP6 init_kernel)) (set_state STEP5 init_kernel).
Proof.
  apply (only_debug_state_acts true (set_state STEP5 init_kernel)
           (set_state STEP6 init_kernel) KEY_POWER 1 eq_refl).
  discriminate.
Defined.

(** X3.  The recognizer reads an event through its code and through whether
    its value is zero, nothing more: two runs over events that agree on
    (code, pressed) end alike.  An auto-repeat event (value 2) therefore
    counts as a press. *)
Theorem feed_depends_on_pressed_only
    (download_mode : bool) (evs evs' : list event) :
  map abstract evs = map abstract evs' ->
  forall k : kernel, feed download_mode k evs = feed download_mode k evs'.
Proof.
  revert evs'.
  induction evs as [ | [c v] rest IH ]; intros [ | [c' v'] rest' ] H k;
    try discriminate H; [ reflexivity | ].
  cbn [map] in H. inversion H as [[Hc Hv H']].
  cbn [fst snd] in Hc, Hv. subst c'. cbn [feed].
  assert (E : oem_check_force_dump_key download_mode k c v
              = oem_check_force_dump_key download_mode k c v').
  { unfold oem_check_force_dump_key. rewrite Hv. reflexivity. }
  rewrite E.
  destruct (oem_check_force_dump_key download_mode k c v'); cbn [bind];
    [ apply IH; exact H' | reflexivity | reflexivity ].
Qed.

Lemma feed_depends_on_pressed_only_witness :
  feed true init_kernel
    (map (fun e => (fst e, 2 * snd e)) force_dump_sequence)
  = Panic "Force Dump".
Proof.
  rewrite (feed_depends_on_pressed_only true
             (map (fun e => (fst e, 2 * snd e)) force_dump_sequence)
             force_dump_sequence eq_refl init_kernel).
  reflexivity.
Defined.

(** X4.  One stray event does not disarm the recognizer: from any state, an
    event the state does not wait for followed by the force-dump
    sequence ends in the panic when download mode is enabled. *)
Theorem recovers_after_mismatch (k : kernel) (code value : Z) :
  is_expected (state k) (code, value) = false ->
  feed true k ((code, value) :: force_dump_sequence) = Panic "Force Dump".
Proof.
  intros H. cbn [feed].
  rewrite (unexpected_resets true k code value H). cbn [bind].
  reflexivity.
Qed.

Lemma recovers_after_mismatch_witness :
  feed true (set_state STEP7 init_kernel)
    ((KEY_VOLUMEDOWN, 1) :: force_dump_sequence)
  = Panic "Force Dump".
Proof.
  exact (recovers_after_mismatch (set_state STEP7 init_kernel)
           KEY_VOLUMEDOWN 1 eq_refl).
Defined.

(** ** Invariants of the module as a whole *)

(** A property kept by every allowed operation is kept by every run of
    allowed operations. *)
Lemma exec_ops_invariant (P : kernel -> Prop) (allowed : op -> bool) :
  (forall k o k', allowed o = true -> P k -> exec_op k o = Ret k' -> P k') ->
  forall (os : list op) (k k' : kernel),
    forallb allowed os = true -> P k -> exec_ops k os = Ret k' -> P k'.
Proof.
  intros Hstep. induction os as [ | o rest IH ]; intros k k' Ha HP H.
  - inversion H; subst. exact HP.
  - cbn [forallb] in Ha. apply andb_true_iff in Ha. destruct Ha as [Ho Hr].
    cbn [exec_ops] in H.
    destruct (exec_op k o) as [ k1 | m | m ] eqn:E; cbn [bind] in H;
      [ | discriminate H | discriminate H ].
    apply (IH k1 k' Hr); [ | exact H ].
    apply (Hstep k o k1 Ho HP E).
Qed.

(** X5.  Nothing in this file clears the debug switch.  Unless a caller
    outside the file calls the exported [set_oem_selinux_state] with a
    value other than 1, [selinux_switch], once 1, stays 1 through key
    events, worker runs, sends, inbound messages and
    initialisations. *)
Theorem debug_switch_never_cleared (os : list op) (k k' : kernel) :
  forallb keeps_debug_switch os = true ->
  exec_ops k os = Ret k' ->
  selinux_switch k = 1 ->
  selinux_switch k' = 1.
Proof.
  intros Hos H H1.
  apply (exec_ops_invariant (fun x => selinux_switch x = 1) keeps_debug_switch)
    with (os := os) (k := k); try assumption.
  clear. intros k o k' Ho HP H.
  destruct o as [ sock_ok wq_ok | dm code value | alloc_ok | alloc_ok message
                | alloc_ok | skb | st ]; cbn [exec_op keeps_debug_switch] in H, Ho.
  - inversion H; subst. unfold op_netlink_init.
    destruct sock_ok, wq_ok; exact HP.
  - destruct (oem_check_force_dump_key_cases dm k k' code value H)
      as [ -> | [ -> | -> ] ]; try exact HP. reflexivity.
  - unfold run_worker in H. destruct (work_pending k); inversion H; subst.
    + destruct (worker_frame alloc_ok (set_work_pending false k))
        as (_ & _ & _ & _ & _ & Hsw).
      rewrite Hsw. exact HP.
    + exact HP.
  - inversion H; subst.
    destruct (send_msg_frame alloc_ok message k) as (_ & _ & Hsw & _).
    rewrite Hsw. exact HP.
  - inversion H; subst. unfold send_msg_sync_mdm_dump.
    destruct (send_msg_frame alloc_ok (Some "FORCE_MDM_DUMP_SYNC"%string) k)
      as (_ & _ & Hsw & _).
    rewrite Hsw. exact HP.
  - inversion H; subst. unfold recv_nlmsg.
    destruct ((nlmsg_len skb <? NLMSG_HDRLEN) || (skb_len skb <? nlmsg_len skb));
      exact HP.
  - inversion H; subst. apply Z.eqb_eq in Ho. subst st. reflexivity.
Qed.

(** After a complete [op_netlink_init] and the debug-enable
    sequence. *)
Lemma debug_switch_never_cleared_witness :
  selinux_switch
    (recv_nlmsg (mkSkb 20 20 7 "x")
       (fst (set_oem_selinux_state 1
               (send_msg_worker false
                  (set_work_pending false
                     (after_debug_enable
                        (fst (op_netlink_init true true init_kernel))))))))
  = 1.
Proof.
  apply (debug_switch_never_cleared
           [Op_worker false; Op_set_oem_selinux_state 1;
            Op_recv_nlmsg (mkSkb 20 20 7 "x")]
           (after_debug_enable (fst (op_netlink_init true true init_kernel)))
           _ eq_refl eq_refl eq_refl).
Defined.

(** The one way to clear it: the exported setter, called with 0. *)
Lemma set_oem_selinux_state_clears :
  exec_ops (after_debug_enable (fst (op_netlink_init true true init_kernel)))
    [Op_set_oem_selinux_state 0]
  = Ret (fst (set_oem_selinux_state 0
                (after_debug_enable (fst (op_netlink_init true true init_kernel)))))
  /\ get_oem_selinux_state
       (fst (set_oem_selinux_state 0
               (after_debug_enable (fst (op_netlink_init true true init_kernel)))))
     = 0.
Proof. split; reflexivity. Qed.

(** What one [send_msg] adds to the trace: a message goes out only when
    the socket exists, to the cached peer, carrying the text cut by
    [strlcpy]. *)
Lemma send_msg_new (alloc_ok : bool) (message : option string) (k : kernel) :
  exists new,
    trace (send_msg alloc_ok message k) = trace k ++ new
    /\ forall p payload,
         In (Netlink_unicast p payload) new ->
         nl_sk k = true /\ alloc_ok = true /\ p = to_u32 (fd k)
         /\ exists m, message = Some m /\ payload = strlcpy m MAX_MSGSIZE.
Proof.
  destruct message as [ m | ].
  - rewrite send_msg_trace. eexists. split; [ reflexivity | ].
    intros p payload H.
    destruct (nl_sk k), alloc_ok; cbn [andb] in H;
      destruct H as [ H | H ]; try discriminate H; try destruct H as [ H | [] ];
      try discriminate H; try contradiction.
    inversion H; subst. repeat split. exists m. split; reflexivity.
  - exists [Printk "send_msg,(null)"]. split; [ reflexivity | ].
    intros p payload [ H | [] ]. discriminate H.
Qed.

Lemma send_msg_worker_new (alloc_ok : bool) (k : kernel) :
  exists new,
    trace (send_msg_worker alloc_ok k) = trace k ++ new
    /\ forall p payload,
         In (Netlink_unicast p payload) new ->
         nl_sk k = true /\ alloc_ok = true /\ p = to_u32 (fd k)
         /\ (payload = "Enable DEBUG!"%string
             \/ payload = "ENABLE_OEM_FORCE_SERIAL"%string).
Proof.
  unfold send_msg_worker. cbn [set_message_state trace].
  destruct (message_state k =? 1); [ | destruct (message_state k =? 2) ].
  - destruct (send_msg_new alloc_ok (Some "Enable DEBUG!"%string) k)
      as (new & Ht & Hn).
    exists new. split; [ exact Ht | ].
    intros p payload H. destruct (Hn p payload H) as (H1 & H2 & H3 & m & Hm & Hp).
    inversion Hm; subst m. repeat split; try assumption. left. exact Hp.
  - destruct (send_msg_new alloc_ok (Some "ENABLE_OEM_FORCE_SERIAL"%string)
                (emit Msm_serial_oem_init (emit (Printk "force oem serial") k)))
      as (new & Ht & Hn).
    exists ([Printk "force oem serial"; Msm_serial_oem_init] ++ new).
    split.
    + rewrite Ht. cbn [emit trace]. rewrite <- !app_assoc. reflexivity.
    + intros p payload H. apply in_app_or in H.
      destruct H as [ [ H | [ H | [] ] ] | H ]; try discriminate H.
      destruct (Hn p payload H) as (H1 & H2 & H3 & m & Hm & Hp).
      inversion Hm; subst m. repeat split; try assumption. right. exact Hp.
  - exists []. split; [ symmetry; apply app_nil_r | ].
    intros p payload [].
Qed.

(** What one operation adds to the trace. *)
Lemma exec_op_new (k k' : kernel) (o : op) :
  exec_op k o = Ret k' ->
  exists new,
    trace k' = trace k ++ new
    /\ forall p payload,
         In (Netlink_unicast p payload) new ->
         nl_sk k = true /\ p = to_u32 (fd k)
         /\ (is_own_op o = true -> In payload own_messages).
Proof.
  destruct o as [ sock_ok wq_ok | dm code value | alloc_ok | alloc_ok message
                | alloc_ok | skb | st ]; cbn [exec_op is_own_op]; intros H.
  - inversion H; subst. unfold op_netlink_init.
    destruct sock_ok, wq_ok; cbn [negb fst emit trace set_nl_sk];
      eexists; (split; [ reflexivity | ]);
      intros p payload [ E | [] ]; discriminate E.
  - destruct (oem_check_force_dump_key_fd dm k k' code value H) as (_ & _ & Ht).
    exists []. split; [ rewrite Ht; symmetry; apply app_nil_r | ].
    intros p payload [].
  - unfold run_worker in H. destruct (work_pending k); inversion H; subst.
    + destruct (send_msg_worker_new alloc_ok (set_work_pending false k))
        as (new & Ht & Hn).
      exists new. split; [ exact Ht | ].
      intros p payload Hin. destruct (Hn p payload Hin) as (H1 & _ & H3 & Hp).
      split; [ exact H1 | ]. split; [ exact H3 | ].
      intros _. destruct Hp as [ -> | -> ]; cbn; tauto.
    + exists []. split; [ symmetry; apply app_nil_r | ]. intros p payload [].
  - inversion H; subst.
    destruct (send_msg_new alloc_ok message k) as (new & Ht & Hn).
    exists new. split; [ exact Ht | ].
    intros p payload Hin. destruct (Hn p payload Hin) as (H1 & _ & H3 & _).
    split; [ exact H1 | ]. split; [ exact H3 | ]. discriminate.
  - inversion H; subst. unfold send_msg_sync_mdm_dump.
    destruct (send_msg_new alloc_ok (Some "FORCE_MDM_DUMP_SYNC"%string) k)
      as (new & Ht & Hn).
    exists new. split; [ exact Ht | ].
    intros p payload Hin.
    destruct (Hn p payload Hin) as (H1 & _ & H3 & m & Hm & Hp).
    split; [ exact H1 | ]. split; [ exact H3 | ].
    intros _. inversion Hm; subst m. rewrite Hp. cbn. tauto.
  - inversion H; subst. unfold recv_nlmsg.
    destruct ((nlmsg_len skb <? NLMSG_HDRLEN) || (skb_len skb <? nlmsg_len skb)).
    + exists []. split; [ symmetry; apply app_nil_r | ]. intros p payload [].
    + eexists. split; [ reflexivity | ].
      intros p payload [ E | [] ]. discriminate E.
  - inversion H; subst. exists []. split; [ symmetry; apply app_nil_r | ].
    intros p payload [].
Qed.

Lemma own_effect_of_new (new : list effect) :
  (forall p payload, In (Netlink_unicast p payload) new -> In payload own_messages) ->
  Forall own_effect new.
Proof.
  intros H. apply Forall_forall. intros e He.
  destruct e as [ line | data a | p payload | ]; cbn [own_effect]; try exact I.
  apply (H p payload He).
Qed.

(** X6.  Unless a caller outside this file hands [send_msg] a text of its
    own, the only texts that ever go out on the channel are "Enable
    DEBUG!", "ENABLE_OEM_FORCE_SERIAL" and "FORCE_MDM_DUMP_SYNC". *)
Theorem only_own_messages_go_out (os : list op) (k k' : kernel) :
  forallb is_own_op os = true ->
  Forall own_effect (trace k) ->
  exec_ops k os = Ret k' ->
  Forall own_effect (trace k').
Proof.
  apply (exec_ops_invariant (fun x => Forall own_effect (trace x)) is_own_op).
  clear. intros k o k' Ho HP H.
  destruct (exec_op_new k k' o H) as (new & Ht & Hn).
  rewrite Ht. apply Forall_app. split; [ exact HP | ].
  apply own_effect_of_new. intros p payload Hin.
  apply (Hn p payload Hin). exact Ho.
Qed.

Lemma only_own_messages_go_out_witness :
  Forall own_effect
    (trace (send_msg_worker true
              (set_work_pending false
                 (after_force_serial (fst (op_netlink_init true true init_kernel)))))).
Proof.
  apply (only_own_messages_go_out [Op_worker true]
           (after_force_serial (fst (op_netlink_init true true init_kernel)))
           _ eq_refl).
  - repeat constructor.
  - reflexivity.
Defined.

(** X7.  Without a socket nothing is ever sent: as long as no
    [op_netlink_init] has created the socket, no operation hands a
    message to the transport. *)
Theorem no_socket_no_message (os : list op) (k k' : kernel) :
  forallb keeps_socket_absent os = true ->
  nl_sk k = false /\ filter is_unicast (trace k) = [] ->
  exec_ops k os = Ret k' ->
  nl_sk k' = false /\ filter is_unicast (trace k') = [].
Proof.
  apply (exec_ops_invariant
           (fun x => nl_sk x = false /\ filter is_unicast (trace x) = [])
           keeps_socket_absent).
  clear. intros k o k' Ho [Hs HP] H.
  split.
  - destruct o as [ sock_ok wq_ok | dm code value | alloc_ok | alloc_ok message
                  | alloc_ok | skb | st ]; cbn [exec_op keeps_socket_absent] in H, Ho.
    + inversion H; subst. apply negb_true_iff in Ho. subst sock_ok. reflexivity.
    + destruct (oem_check_force_dump_key_fd dm k k' code value H) as (_ & Hn & _).
      rewrite Hn. exact Hs.
    + unfold run_worker in H. destruct (work_pending k); inversion H; subst;
        [ | exact Hs ].
      destruct (worker_frame alloc_ok (set_work_pending false k))
        as (_ & _ & _ & _ & Hn & _).
      rewrite Hn. exact Hs.
    + inversion H; subst.
      destruct (send_msg_frame alloc_ok message k) as (_ & _ & _ & _ & Hn & _).
      rewrite Hn. exact Hs.
    + inversion H; subst. unfold send_msg_sync_mdm_dump.
      destruct (send_msg_frame alloc_ok (Some "FORCE_MDM_DUMP_SYNC"%string) k)
        as (_ & _ & _ & _ & Hn & _).
      rewrite Hn. exact Hs.
    + inversion H; subst. unfold recv_nlmsg.
      destruct ((nlmsg_len skb <? NLMSG_HDRLEN) || (skb_len skb <? nlmsg_len skb));
        exact Hs.
    + inversion H; subst. exact Hs.
  - destruct (exec_op_new k k' o H) as (new & Ht & Hn).
    rewrite Ht, filter_app, HP. cbn [app].
    assert (Hnone : forall e, In e new -> is_unicast e = false).
    { intros e He. destruct e as [ line | data a | p payload | ]; try reflexivity.
      destruct (Hn p payload He) as (H1 & _). congruence. }
    clear - Hnone. induction new as [ | e rest IH ]; [ reflexivity | ].
    cbn [filter]. rewrite (Hnone e (or_introl eq_refl)).
    apply IH. intros e' He'. apply Hnone. right. exact He'.
Qed.

Lemma no_socket_no_message_witness :
  filter is_unicast
    (trace (send_msg_worker true
              (set_work_pending false (after_debug_enable init_kernel))))
  = [].
Proof.
  apply (no_socket_no_message [Op_worker true]
           (after_debug_enable init_kernel) _ eq_refl
           (conj eq_refl eq_refl) eq_refl).
Defined.

(** X8.  Only key events move the recognizer: worker runs, sends, inbound
    messages and the initialisation leave [state] where it is, so they
    neither advance nor reset a combination in progress. *)
Theorem only_keys_move_recognizer (os : list op) (k k' : kernel) :
  existsb is_key_op os = false ->
  exec_ops k os = Ret k' ->
  state k' = state k.
Proof.
  intros Hk H.
  apply (exec_ops_invariant (fun x => state x = state k)
           (fun o => negb (is_key_op o))) with (os := os) (k := k);
    try assumption; try reflexivity.
  - clear. intros k0 o k1 Ho HP H. rewrite <- HP.
    destruct o as [ sock_ok wq_ok | dm code value | alloc_ok | alloc_ok message
                  | alloc_ok | skb | st ]; cbn [exec_op is_key_op negb] in H, Ho;
      try discriminate Ho.
    + inversion H; subst. unfold op_netlink_init.
      destruct sock_ok, wq_ok; reflexivity.
    + unfold run_worker in H. destruct (work_pending k0); inversion H; subst;
        [ | reflexivity ].
      destruct (worker_frame alloc_ok (set_work_pending false k0))
        as (_ & Hn & _).
      rewrite Hn. reflexivity.
    + inversion H; subst. apply (send_msg_frame alloc_ok message k0).
    + inversion H; subst. unfold send_msg_sync_mdm_dump.
      apply (send_msg_frame alloc_ok (Some "FORCE_MDM_DUMP_SYNC"%string) k0).
    + inversion H; subst. unfold recv_nlmsg.
      destruct ((nlmsg_len skb <? NLMSG_HDRLEN) || (skb_len skb <? nlmsg_len skb));
        reflexivity.
    + inversion H; subst. reflexivity.
  - clear - Hk. induction os as [ | o rest IH ]; [ reflexivity | ].
    cbn [existsb] in Hk. apply orb_false_iff in Hk. destruct Hk as [Ho Hr].
    cbn [forallb]. rewrite Ho. cbn [negb andb]. apply IH. exact Hr.
Qed.

Lemma only_keys_move_recognizer_witness :
  state (recv_nlmsg (mkSkb 20 20 7 "x")
           (send_msg false (Some "x"%string) (set_state STEP9 init_kernel)))
  = STEP9.
Proof.
  apply (only_keys_move_recognizer
           [Op_send_msg false (Some "x"%string); Op_recv_nlmsg (mkSkb 20 20 7 "x")]
           (set_state STEP9 init_kernel) _ eq_refl eq_refl).
Defined.

(** ** More of the channel *)

Lemma recv_nlmsg_fd (skb : sk_buff) (k : kernel) :
  fd (recv_nlmsg skb k)
  = if well_formed skb then to_s32 (nlmsg_pid skb) else fd k.
Proof.
  unfold recv_nlmsg, well_formed.
  rewrite !Z.leb_antisym, <- negb_orb.
  destruct ((nlmsg_len skb <? NLMSG_HDRLEN) || (skb_len skb <? nlmsg_len skb));
    reflexivity.
Qed.

(** X9.  After any number of inbound messages the cached peer address is
    the sender of the last well-formed one; malformed messages in
    between or afterwards do not disturb it, and with no well-formed
    message at all it is what it was. *)
Theorem last_well_formed_sender_wins (skbs : list sk_buff) (k : kernel) :
  fd (recv_all skbs k)
  = match find well_formed (rev skbs) with
    | Some skb => to_s32 (nlmsg_pid skb)
    | None => fd k
    end.
Proof.
  induction skbs as [ | skb rest IH ] using rev_ind.
  - reflexivity.
  - unfold recv_all in *. rewrite fold_left_app, rev_app_distr.
    cbn [fold_left rev app find]. rewrite recv_nlmsg_fd.
    destruct (well_formed skb); [ reflexivity | exact IH ].
Qed.

Lemma substring_0_length (n : nat) :
  forall s : string,
    String.length (substring 0 n s) = Nat.min n (String.length s).
Proof.
  induction n as [ | n IH ]; intros s.
  - destruct s; reflexivity.
  - destruct s as [ | c r ]; [ reflexivity | ].
    cbn [substring String.length Nat.min]. rewrite IH. reflexivity.
Qed.

Lemma substring_0_prefix (n : nat) :
  forall s : string, String.prefix (substring 0 n s) s = true.
Proof.
  induction n as [ | n IH ]; intros s.
  - destruct s; reflexivity.
  - destruct s as [ | c r ]; [ reflexivity | ].
    cbn [substring String.prefix].
    destruct (ascii_dec c c) as [ _ | Hne ]; [ apply IH | congruence ].
Qed.

Lemma substring_0_whole (s : string) : substring 0 (String.length s) s = s.
Proof.
  induction s as [ | c r IH ]; [ reflexivity | ].
  cbn [substring String.length]. rewrite IH. reflexivity.
Qed.

(** X10.  A message that goes out carries the first 1023 bytes of the text,
    never more: [strlcpy] cuts longer texts and keeps shorter ones
    whole. *)
Theorem send_msg_cuts_at_1023 (m : string) (k : kernel) :
  nl_sk k = true ->
  exists payload,
    trace (send_msg true (Some m) k)
    = trace k ++ [Printk ("send_msg," ++ m);
                  Netlink_unicast (to_u32 (fd k)) payload]
    /\ String.length payload = Nat.min 1023 (String.length m)
    /\ String.prefix payload m = true
    /\ ((String.length m <= 1023)%nat -> payload = m).
Proof.
  intros Hs. exists (strlcpy m MAX_MSGSIZE).
  split; [ rewrite send_msg_trace, Hs; reflexivity | ].
  unfold strlcpy. change (Z.to_nat (MAX_MSGSIZE - 1)) with 1023%nat.
  split; [ apply substring_0_length | ].
  split; [ apply substring_0_prefix | ].
  intros Hl.
  pose proof (substring_0_prefix 1023 m) as Hp.
  apply prefix_correct in Hp.
  rewrite substring_0_length, (Nat.min_r _ _ Hl) in Hp.
  rewrite <- Hp. apply substring_0_whole.
Qed.

Lemma send_msg_cuts_at_1023_witness :
  exists payload,
    trace (send_msg true (Some "FORCE_MDM_DUMP_SYNC"%string)
             (fst (op_netlink_init true true init_kernel)))
    = [ Printk "op_netlink_init"; Printk "send_msg,FORCE_MDM_DUMP_SYNC";
        Netlink_unicast 4294967295 payload ]
    /\ payload = "FORCE_MDM_DUMP_SYNC"%string.
Proof.
  destruct (send_msg_cuts_at_1023 "FORCE_MDM_DUMP_SYNC"
              (fst (op_netlink_init true true init_kernel)) eq_refl)
    as (payload & H1 & _ & _ & H4).
  exists payload. split; [ exact H1 | ].
  apply H4. apply Nat.leb_le. reflexivity.
Defined.

(** X11.  The worker consumes the notification: it leaves [message_state] at
    0, so a second run right after the first, or any run that finds
    neither 1 nor 2, sends nothing and logs nothing. *)
Theorem worker_consumes_notification (alloc_ok alloc_ok' : bool) (k : kernel) :
  trace (send_msg_worker alloc_ok' (send_msg_worker alloc_ok k))
  = trace (send_msg_worker alloc_ok k)
  /\ (message_state k <> 1 -> message_state k <> 2 ->
      trace (send_msg_worker alloc_ok k) = trace k
      /\ message_state (send_msg_worker alloc_ok k) = 0).
Proof.
  split.
  - destruct (worker_frame alloc_ok k) as (Hm & _).
    unfold send_msg_worker at 1. rewrite Hm. reflexivity.
  - intros H1 H2. unfold send_msg_worker.
    apply Z.eqb_neq in H1, H2. rewrite H1, H2. split; reflexivity.
Qed.

Lemma worker_consumes_notification_witness :
  trace (send_msg_worker true init_kernel) = []
  /\ message_state (send_msg_worker true init_kernel) = 0.
Proof.
  apply (proj2 (worker_consumes_notification true true init_kernel));
    discriminate.
Defined.

(** ** More of the task scans *)

(** The trace scan either finds no accepted task and does nothing, or
    signals the first accepted task and sleeps once. *)
Lemma trace_scan_cases (name : string) (ts : list task_struct) :
  (forallb (fun u => negb (find_task_by_name u name)) ts = true
   /\ trace_scan ts name = [])
  \/ exists pre t post,
       ts = pre ++ t :: post
       /\ forallb (fun u => negb (find_task_by_name u name)) pre = true
       /\ find_task_by_name t name = true
       /\ trace_scan ts name = [Do_send_sig_info SIGQUIT t; Msleep 500].
Proof.
  induction ts as [ | u rest IH ].
  - left. split; reflexivity.
  - cbn [trace_scan forallb]. destruct (find_task_by_name u name) eqn:E.
    + right. exists [], u, rest. repeat split. exact E.
    + cbn [negb andb]. destruct IH as [ [Hn Hr] | (pre & t & post & H1 & H2 & H3 & H4) ].
      * left. split; assumption.
      * right. exists (u :: pre), t, post.
        split; [ rewrite H1; reflexivity | ].
        split; [ cbn [forallb]; rewrite E; exact H2 | ].
        split; assumption.
Qed.

Lemma tombstone_scan_cases (name : string) (ps : list task_struct) :
  (forallb (fun u => negb (exact_match u name)) ps = true
   /\ tombstone_scan ps name = [])
  \/ exists pre t post,
       ps = pre ++ t :: post
       /\ forallb (fun u => negb (exact_match u name)) pre = true
       /\ exact_match t name = true
       /\ tombstone_scan ps name = [Do_send_sig_info SIGNAL_DEBUGGER t; Msleep 500].
Proof.
  induction ps as [ | u rest IH ].
  - left. split; reflexivity.
  - cbn [tombstone_scan forallb]. unfold exact_match at 1.
    destruct (strncmp (comm u) name TASK_COMM_LEN =? 0) eqn:E.
    + right. exists [], u, rest. repeat split. exact E.
    + cbn [negb andb]. destruct IH as [ [Hn Hr] | (pre & t & post & H1 & H2 & H3 & H4) ].
      * left. split; assumption.
      * right. exists (u :: pre), t, post.
        split; [ rewrite H1; reflexivity | ].
        split; [ cbn [forallb]; unfold exact_match at 1; rewrite E; exact H2 | ].
        split; assumption.
Qed.

(** X12.  Each call signals at most one task and sleeps only after a signal:
    the trace path either does nothing because no thread is accepted,
    or signals the first accepted thread with SIGQUIT and sleeps 500 ms;
    the tombstone path either does nothing because no leader has the
    searched name, or signals the first such leader with SIGRTMIN + 3
    and sleeps 500 ms. *)
Theorem scans_signal_at_most_one (tbl : list process) (name : string) :
  ((forallb (fun u => negb (find_task_by_name u name))
      (for_each_process_thread tbl) = true
    /\ send_sig_to_get_trace tbl name = [])
   \/ exists pre t post,
        for_each_process_thread tbl = pre ++ t :: post
        /\ forallb (fun u => negb (find_task_by_name u name)) pre = true
        /\ find_task_by_name t name = true
        /\ send_sig_to_get_trace tbl name = [Do_send_sig_info SIGQUIT t; Msleep 500])
  /\ ((forallb (fun u => negb (exact_match u name)) (for_each_process tbl) = true
       /\ send_sig_to_get_tombstone tbl name = [])
      \/ exists pre t post,
           for_each_process tbl = pre ++ t :: post
           /\ forallb (fun u => negb (exact_match u name)) pre = true
           /\ exact_match t name = true
           /\ send_sig_to_get_tombstone tbl name
              = [Do_send_sig_info SIGNAL_DEBUGGER t; Msleep 500]).
Proof.
  split.
  - apply trace_scan_cases.
  - apply tombstone_scan_cases.
Qed.

Lemma leaders_are_threads (tbl : list process) (t : task_struct) :
  In t (for_each_process tbl) -> In t (for_each_process_thread tbl).
Proof.
  unfold for_each_process, for_each_process_thread.
  intros H. apply in_map_iff in H. destruct H as (p & Hp & Hin).
  apply in_flat_map. exists p. split; [ exact Hin | ].
  left. exact Hp.
Qed.

(** X13.  Whenever the tombstone path finds a target, the trace path finds
    one too (not necessarily the same task); put the other way round,
    a name for which the trace path does nothing gets no tombstone
    signal either. *)
Theorem tombstone_target_implies_trace_target
    (tbl : list process) (name : string) :
  send_sig_to_get_trace tbl name = [] ->
  send_sig_to_get_tombstone tbl name = [].
Proof.
  intros Ht.
  destruct (tombstone_scan_cases name (for_each_process tbl))
    as [ [_ Hn] | (pre & t & post & H1 & _ & H3 & _) ]; [ exact Hn | ].
  exfalso.
  assert (Hin : In t (for_each_process_thread tbl)).
  { apply leaders_are_threads. rewrite H1. apply in_or_app. right. left. reflexivity. }
  destruct (trace_scan_cases name (for_each_process_thread tbl))
    as [ [Hall _] | (pre' & t' & post' & _ & _ & _ & H4) ].
  - rewrite forallb_forall in Hall. specialize (Hall t Hin).
    unfold find_task_by_name in Hall. rewrite H3 in Hall. discriminate Hall.
  - unfold send_sig_to_get_trace in Ht. rewrite Ht in H4. discriminate H4.
Qed.

Lemma tombstone_target_implies_trace_target_witness :
  send_sig_to_get_tombstone [ mkProcess other_task [] ] "target" = [].
Proof.
  apply (tombstone_target_implies_trace_target
           [ mkProcess other_task [] ] "target" eq_refl).
Defined.

(** X14.  The two compound-key entry points act only while POWER and
    VOLUME_UP are both pressed; what they then signal is what the scan
    they call would signal: the trace one a thread accepted by
    [find_task_by_name], the tombstone one a thread-group leader with
    the searched name. *)
Theorem compound_key_gate
    (pwr_status vol_up_status : key_stat_item)
    (tbl : list process) (name : string) (sig : Z) (t : task_struct) :
  (In (Do_send_sig_info sig t)
      (compound_key_to_get_trace pwr_status vol_up_status tbl name) ->
   pwr_status = KEY_PRESSED /\ vol_up_status = KEY_PRESSED
   /\ sig = SIGQUIT /\ find_task_by_name t name = true
   /\ In t (for_each_process_thread tbl))
  /\ (In (Do_send_sig_info sig t)
         (compound_key_to_get_tombstone pwr_status vol_up_status tbl name) ->
      pwr_status = KEY_PRESSED /\ vol_up_status = KEY_PRESSED
      /\ sig = SIGNAL_DEBUGGER /\ exact_match t name = true
      /\ In t (for_each_process tbl))
  /\ (is_pressed pwr_status && is_pressed vol_up_status = false ->
      compound_key_to_get_trace pwr_status vol_up_status tbl name = []
      /\ compound_key_to_get_tombstone pwr_status vol_up_status tbl name = []).
Proof.
  unfold compound_key_to_get_trace, compound_key_to_get_tombstone.
  destruct pwr_status, vol_up_status; cbn [is_pressed andb];
    (split; [ intros H | split; [ intros H | intros H ] ]);
    try solve [ destruct H ]; try discriminate H;
    try (split; reflexivity).
  - destruct (trace_scan_sound name (for_each_process_thread tbl) sig t H)
      as (H1 & H2 & H3 & _).
    repeat split; assumption.
  - destruct (tombstone_scan_sound name (for_each_process tbl) sig t H)
      as (H1 & H2 & H3).
    repeat split; assumption.
Qed.

Lemma compound_key_gate_witness :
  compound_key_to_get_trace KEY_PRESSED KEY_RELEASED
    [ mkProcess target_task [] ] "target" = []
  /\ compound_key_to_get_tombstone KEY_PRESSED KEY_RELEASED
       [ mkProcess target_task [] ] "target" = [].
Proof.
  apply (proj2 (proj2 (compound_key_gate KEY_PRESSED KEY_RELEASED
                         [ mkProcess target_task [] ] "target" 0 target_task))
           eq_refl).
Defined.

(** X15.  [get_init_sched_info] shows the threads of the first process whose
    pid is 1, leader first; when the table has no such process the
    cursor ends on [init_task] and it is the threads of [init_task]
    that are shown. *)
Theorem get_init_sched_info_target
    (init_task : process) (tbl pre post : list process) (p : process) :
  (forallb (fun q => negb (pid (leader q) =? 1)) tbl = true ->
   get_init_sched_info init_task tbl
   = leader init_task :: other_threads init_task)
  /\ (tbl = pre ++ p :: post ->
      forallb (fun q => negb (pid (leader q) =? 1)) pre = true ->
      pid (leader p) = 1 ->
      get_init_sched_info init_task tbl = leader p :: other_threads p).
Proof.
  unfold get_init_sched_info, for_each_thread. split.
  - intros H. f_equal.
    + f_equal. induction tbl as [ | q rest IH ]; [ reflexivity | ].
      cbn [forallb] in H. apply andb_true_iff in H. destruct H as [Hq Hr].
      apply negb_true_iff in Hq. cbn [find_pid_1]. rewrite Hq. apply IH. exact Hr.
    + f_equal. induction tbl as [ | q rest IH ]; [ reflexivity | ].
      cbn [forallb] in H. apply andb_true_iff in H. destruct H as [Hq Hr].
      apply negb_true_iff in Hq. cbn [find_pid_1]. rewrite Hq. apply IH. exact Hr.
  - intros -> Hpre Hp.
    assert (E : find_pid_1 init_task (pre ++ p :: post) = p).
    { induction pre as [ | q rest IH ].
      - cbn [app find_pid_1]. rewrite Hp. reflexivity.
      - cbn [forallb] in Hpre. apply andb_true_iff in Hpre.
        destruct Hpre as [Hq Hr]. apply negb_true_iff in Hq.
        cbn [app find_pid_1]. rewrite Hq. apply IH. exact Hr. }
    rewrite E. reflexivity.
Qed.

Lemma get_init_sched_info_target_witness :
  let init := mkTask "init" 1 1 0 (Some "swapper/0"%string) in
  let helper := mkTask "init-helper" 2 1 0 (Some "swapper/0"%string) in
  let idle := mkProcess (mkTask "swapper/0" 0 0 0 None) [] in
  get_init_sched_info idle [ mkProcess other_task []; mkProcess init [helper] ]
  = [init; helper]
  /\ get_init_sched_info idle [ mkProcess other_task [] ]
     = [mkTask "swapper/0" 0 0 0 None].
Proof.
  cbv zeta. split.
  - apply (proj2 (get_init_sched_info_target
                    (mkProcess (mkTask "swapper/0" 0 0 0 None) [])
                    [ mkProcess other_task [];
                      mkProcess (mkTask "init" 1 1 0 (Some "swapper/0"%string))
                        [mkTask "init-helper" 2 1 0 (Some "swapper/0"%string)] ]
                    [ mkProcess other_task [] ] []
                    (mkProcess (mkTask "init" 1 1 0 (Some "swapper/0"%string))
                       [mkTask "init-helper" 2 1 0 (Some "swapper/0"%string)]))
             eq_refl eq_refl eq_refl).
  - apply (proj1 (get_init_sched_info_target
                    (mkProcess (mkTask "swapper/0" 0 0 0 None) [])
                    [ mkProcess other_task [] ] [] [] (mkProcess other_task []))
             eq_refl).
Defined.

(** ** The vbswap helper *)

Import Vbswap.

Section VbswapHelper.

Variable umh : nat -> list string -> Z.

Lemma attempts_app (command : string) (tr1 tr2 : list Vbswap.effect) :
  attempts command (tr1 ++ tr2)
  = (attempts command tr1 + attempts command tr2)%nat.
Proof.
  induction tr1 as [ | e rest IH ]; [ reflexivity | ].
  cbn [app attempts]. destruct e as [ argv | line | ms ]; try exact IH.
  destruct (list_eq_dec string_dec argv (sh_argv command));
    [ rewrite IH; reflexivity | exact IH ].
Qed.

Lemma attempts_cons_same (command : string) (rest : list Vbswap.effect) :
  attempts command (Call_usermodehelper (sh_argv command) :: rest)
  = S (attempts command rest).
Proof.
  cbn [attempts].
  destruct (list_eq_dec string_dec (sh_argv command) (sh_argv command));
    [ reflexivity | congruence ].
Qed.

Lemma attempts_cons_other (command command' : string) (rest : list Vbswap.effect) :
  command' <> command ->
  attempts command (Call_usermodehelper (sh_argv command') :: rest)
  = attempts command rest.
Proof.
  intros Hne. cbn [attempts].
  destruct (list_eq_dec string_dec (sh_argv command') (sh_argv command)) as [ E | ];
    [ | reflexivity ].
  unfold sh_argv in E. inversion E. congruence.
Qed.

Lemma disksize_is_not_mkswap : disksize_command <> mkswap_command.
Proof. discriminate. Qed.

Lemma delays_app (tr1 tr2 : list Vbswap.effect) :
  delays (tr1 ++ tr2) = (delays tr1 + delays tr2)%nat.
Proof.
  induction tr1 as [ | e rest IH ]; [ reflexivity | ].
  cbn [app delays]. destruct e as [ argv | line | ms ]; try exact IH.
  destruct (ms =? DELAY); [ rewrite IH; reflexivity | exact IH ].
Qed.

(** One [linux_sh]: one more helper run, and the trace grows by the
    call and, on success, by the log line. *)
Lemma linux_sh_effect (command : string) (w : world) :
  let ret := umh (calls w) (sh_argv command) in
  fst (linux_sh umh command w) = ret
  /\ calls (snd (linux_sh umh command w)) = S (calls w)
  /\ Vbswap.trace (snd (linux_sh umh command w))
     = Vbswap.trace w ++ Call_usermodehelper (sh_argv command)
         :: (if ret =? 0 then [Pr_info ("Calling " ++ command)] else []).
Proof.
  cbv zeta. unfold linux_sh, call_userland.
  destruct (umh (calls w) (sh_argv command) =? 0);
    cbn [fst snd calls Vbswap.trace Vbswap.emit];
    rewrite <- ?app_assoc; repeat split; reflexivity.
Qed.

(** The loop returns as soon as its fuel covers the attempts that are
    left.  It makes at least one attempt and at most [26 - retries];
    [retries] counts the failed attempts, each of them followed by one
    delay, and only the last attempt can be a success. *)
Lemma disksize_loop_terminates (fuel : nat) :
  forall (retries : Z) (w : world),
    0 <= retries <= 25 ->
    26 - retries <= Z.of_nat fuel ->
    exists (r : Z) (w1 : world),
      disksize_loop umh fuel retries w = Some (r, w1)
      /\ Z.of_nat (calls w) < Z.of_nat (calls w1)
         <= Z.of_nat (calls w) + (26 - retries)
      /\ attempts disksize_command (Vbswap.trace w1)
         = (attempts disksize_command (Vbswap.trace w)
            + (calls w1 - calls w))%nat
      /\ attempts mkswap_command (Vbswap.trace w1)
         = attempts mkswap_command (Vbswap.trace w)
      /\ Z.of_nat (delays (Vbswap.trace w1))
         = Z.of_nat (delays (Vbswap.trace w)) + (r - retries)
      /\ r - retries <= Z.of_nat (calls w1) - Z.of_nat (calls w)
         <= r - retries + 1.
Proof.
  induction fuel as [ | fuel IH ]; intros retries w Hr Hf.
  - lia.
  - cbn [disksize_loop].
    destruct (linux_sh_effect disksize_command w) as (Hret & Hc & Ht).
    destruct (linux_sh umh disksize_command w) as [ret w1] eqn:E.
    cbn [fst snd] in Hret, Hc, Ht. cbv zeta in Hret, Ht.
    unfold truthy. rewrite <- Hret in Ht.
    destruct (ret =? 0) eqn:Ez; cbn [negb].
    + exists retries, w1. split; [ reflexivity | ].
      rewrite Hc, Ht, !attempts_app, delays_app, attempts_cons_same,
        (attempts_cons_other _ _ _ disksize_is_not_mkswap).
      cbn [attempts delays]. repeat split; lia.
    + destruct (retries <? 25) eqn:El.
      * apply Z.ltb_lt in El.
        destruct (IH (retries + 1) (Vbswap.emit (Vbswap.Msleep DELAY) w1))
          as (r & w2 & Hl & Hb & Ha & Hm & Hd & Hn); [ lia | lia | ].
        exists r, w2. split; [ exact Hl | ].
        cbn [Vbswap.emit calls Vbswap.trace] in Hb, Ha, Hm, Hd, Hn.
        rewrite Hc in Hb, Ha, Hn.
        rewrite Ht, !attempts_app, attempts_cons_same in Ha.
        rewrite Ht, !attempts_app,
          (attempts_cons_other _ _ _ disksize_is_not_mkswap) in Hm.
        rewrite Ht, !delays_app in Hd.
        cbn [attempts delays] in Ha, Hm, Hd.
        rewrite Z.eqb_refl in Hd.
        repeat split; lia.
      * apply Z.ltb_ge in El.
        exists (retries + 1), (Vbswap.emit (Vbswap.Msleep DELAY) w1).
        split; [ reflexivity | ].
        cbn [Vbswap.emit calls Vbswap.trace].
        rewrite Hc, Ht, !attempts_app, !delays_app, attempts_cons_same,
          (attempts_cons_other _ _ _ disksize_is_not_mkswap).
        cbn [attempts delays]. rewrite Z.eqb_refl.
        repeat split; lia.
Qed.

Lemma disksize_loop_step (fuel : nat) (retries : Z) (w : world) :
  disksize_loop umh (S fuel) retries w
  = (let '(ret, w1) := linux_sh umh disksize_command w in
     let w2 := if truthy ret then Vbswap.emit (Vbswap.Msleep DELAY) w1 else w1 in
     if truthy ret
     then (if retries <? 25
           then disksize_loop umh fuel (retries + 1) w2
           else Some (retries + 1, w2))
     else Some (retries, w2)).
Proof. reflexivity. Qed.

Lemma disksize_loop_stops_at_success (n : nat) :
  forall (extra : nat) (retries : Z) (w : world),
    0 <= retries -> retries + Z.of_nat n <= 25 ->
    (forall j, (j < n)%nat ->
               umh (calls w + j) (sh_argv disksize_command) <> 0) ->
    umh (calls w + n) (sh_argv disksize_command) = 0 ->
    disksize_loop umh (S n + extra) retries w
    = Some (retries + Z.of_nat n,
            {| calls := calls w + S n;
               Vbswap.trace :=
                 Vbswap.trace w
                 ++ List.concat (repeat [Call_usermodehelper (sh_argv disksize_command);
                                    Vbswap.Msleep DELAY] n)
                 ++ [Call_usermodehelper (sh_argv disksize_command);
                     Pr_info ("Calling " ++ disksize_command)] |}).
Proof.
  induction n as [ | n IH ]; intros extra retries w Hr Hn Hfail Hok.
  - change (1 + extra)%nat with (S extra).
    rewrite disksize_loop_step. unfold linux_sh, call_userland.
    rewrite Nat.add_0_r in Hok. rewrite Hok. cbn [Z.eqb truthy negb].
    unfold truthy, Vbswap.emit.
    cbn [Z.eqb negb calls Vbswap.trace repeat List.concat app].
    rewrite Z.add_0_r, Nat.add_1_r, <- app_assoc. reflexivity.
  - change (S (S n) + extra)%nat with (S (S n + extra)).
    rewrite disksize_loop_step. unfold linux_sh, call_userland.
    pose proof (Hfail O ltac:(lia)) as H0. rewrite Nat.add_0_r in H0.
    apply Z.eqb_neq in H0. rewrite H0. unfold truthy. rewrite H0. cbn [negb].
    assert (Hlt : (retries <? 25) = true) by (apply Z.ltb_lt; lia).
    rewrite Hlt.
    rewrite (IH extra (retries + 1)); unfold Vbswap.emit;
      cbn [calls Vbswap.trace].
    + f_equal. f_equal; [ lia | ]. f_equal; [ lia | ].
      cbn [repeat List.concat]. rewrite <- !app_assoc. reflexivity.
    + lia.
    + lia.
    + intros j Hj.
      replace (S (calls w) + j)%nat with (calls w + S j)%nat by lia.
      apply Hfail. lia.
    + replace (S (calls w) + n)%nat with (calls w + S n)%nat by lia.
      exact Hok.
Qed.

Lemma disksize_loop_gives_up (m : nat) :
  forall (extra : nat) (w : world),
    (1 <= m <= 26)%nat ->
    (forall j, (j < m)%nat ->
               umh (calls w + j) (sh_argv disksize_command) <> 0) ->
    disksize_loop umh (m + extra) (26 - Z.of_nat m) w
    = Some (26,
            {| calls := calls w + m;
               Vbswap.trace :=
                 Vbswap.trace w
                 ++ List.concat (repeat [Call_usermodehelper (sh_argv disksize_command);
                                    Vbswap.Msleep DELAY] m) |}).
Proof.
  induction m as [ | m IH ]; intros extra w Hm Hfail; [ lia | ].
  change (S m + extra)%nat with (S (m + extra)).
  rewrite disksize_loop_step. unfold linux_sh, call_userland.
  pose proof (Hfail O ltac:(lia)) as H0. rewrite Nat.add_0_r in H0.
  apply Z.eqb_neq in H0. rewrite H0. unfold truthy. rewrite H0. cbn [negb].
  destruct m as [ | m ].
  - change (26 - Z.of_nat 1 <? 25) with false. cbv iota.
    unfold Vbswap.emit. cbn [calls Vbswap.trace repeat List.concat app].
    f_equal. f_equal. f_equal; [ lia | ].
    rewrite <- app_assoc. reflexivity.
  - assert (Hlt : (26 - Z.of_nat (S (S m)) <? 25) = true)
      by (apply Z.ltb_lt; lia).
    rewrite Hlt.
    replace (26 - Z.of_nat (S (S m)) + 1) with (26 - Z.of_nat (S m)) by lia.
    rewrite IH; unfold Vbswap.emit; cbn [calls Vbswap.trace].
    + f_equal. f_equal. f_equal; [ lia | ].
      cbn [repeat List.concat]. rewrite <- !app_assoc. reflexivity.
    + lia.
    + intros j Hj.
      replace (S (calls w) + j)%nat with (calls w + S j)%nat by lia.
      apply Hfail. lia.
Qed.

(** C9.  Whatever the user-mode helper answers, the loop around the
    disksize command returns: the command is run once and then run
    again only after a failure, at most 25 more times (26 attempts in
    all), with one [DELAY] sleep after every failed attempt.  It is
    run again after every failure: when it fails [n] times (at most 25)
    and then succeeds, there are exactly [n + 1] attempts and [n]
    sleeps, the last attempt being the successful one; when it fails 26
    times in a row there are exactly 26 attempts and 26 sleeps.  After
    the loop, and whether or not any attempt succeeded, the helper runs
    the mkswap command and then the swapon command. *)
Theorem vbswap_helper_bounded_retry (extra : nat) (w : world) :
  exists (r : Z) (w1 w3 : world),
    disksize_loop umh (26 + extra) 0 w = Some (r, w1)
    /\ (1 <= attempts disksize_command (Vbswap.trace w1)
             - attempts disksize_command (Vbswap.trace w) <= 26)%nat
    /\ 0 <= r <= 26
    /\ delays (Vbswap.trace w1) = (delays (Vbswap.trace w) + Z.to_nat r)%nat
    /\ (Z.to_nat r
        <= attempts disksize_command (Vbswap.trace w1)
           - attempts disksize_command (Vbswap.trace w)
        <= Z.to_nat r + 1)%nat
    /\ vbswap_helper umh (26 + extra) w = Some w3
    /\ Vbswap.trace w3
       = Vbswap.trace w1
         ++ (Call_usermodehelper (sh_argv mkswap_command)
             :: (if umh (calls w1) (sh_argv mkswap_command) =? 0
                 then [Pr_info ("Calling " ++ mkswap_command)] else []))
         ++ (Call_usermodehelper (sh_argv swapon_command)
             :: (if umh (S (calls w1)) (sh_argv swapon_command) =? 0
                 then [Pr_info ("Calling " ++ swapon_command)] else []))
    /\ (forall n : nat,
          (n <= 25)%nat ->
          (forall j, (j < n)%nat ->
                     umh (calls w + j) (sh_argv disksize_command) <> 0) ->
          umh (calls w + n) (sh_argv disksize_command) = 0 ->
          r = Z.of_nat n
          /\ attempts disksize_command (Vbswap.trace w1)
             = (attempts disksize_command (Vbswap.trace w) + S n)%nat
          /\ delays (Vbswap.trace w1) = (delays (Vbswap.trace w) + n)%nat
          /\ Vbswap.trace w1
             = Vbswap.trace w
               ++ List.concat (repeat [Call_usermodehelper (sh_argv disksize_command);
                                       Vbswap.Msleep DELAY] n)
               ++ [Call_usermodehelper (sh_argv disksize_command);
                   Pr_info ("Calling " ++ disksize_command)])
    /\ ((forall j, (j < 26)%nat ->
                   umh (calls w + j) (sh_argv disksize_command) <> 0) ->
        r = 26
        /\ attempts disksize_command (Vbswap.trace w1)
           = (attempts disksize_command (Vbswap.trace w) + 26)%nat
        /\ delays (Vbswap.trace w1) = (delays (Vbswap.trace w) + 26)%nat
        /\ Vbswap.trace w1
           = Vbswap.trace w
             ++ List.concat (repeat [Call_usermodehelper (sh_argv disksize_command);
                                     Vbswap.Msleep DELAY] 26)).
Proof.
  destruct (disksize_loop_terminates (26 + extra) 0 w)
    as (r & w1 & Hl & Hb & Ha & _ & Hd & Hn); [ lia | lia | ].
  destruct (linux_sh_effect mkswap_command w1) as (_ & Hc2 & Ht2).
  destruct (linux_sh_effect swapon_command (snd (linux_sh umh mkswap_command w1)))
    as (_ & _ & Ht3).
  cbv zeta in Ht2, Ht3. rewrite Hc2 in Ht3.
  exists r, w1, (snd (linux_sh umh swapon_command
                        (snd (linux_sh umh mkswap_command w1)))).
  split; [ exact Hl | ].
  split; [ lia | ].
  split; [ lia | ].
  split; [ lia | ].
  split; [ lia | ].
  split; [ unfold vbswap_helper; rewrite Hl; reflexivity | ].
  split; [ rewrite Ht3, Ht2, <- app_assoc; reflexivity | ].
  split.
  - intros n Hle Hfail Hok.
    pose proof (disksize_loop_stops_at_success n (25 - n + extra) 0 w
                  ltac:(lia) ltac:(lia) Hfail Hok) as Hs.
    replace (S n + (25 - n + extra))%nat with (26 + extra)%nat in Hs by lia.
    rewrite Hl in Hs. injection Hs as Hr Hw1.
    assert (Hc : calls w1 = (calls w + S n)%nat) by (rewrite Hw1; reflexivity).
    assert (Ht : Vbswap.trace w1
                 = Vbswap.trace w
                   ++ List.concat (repeat [Call_usermodehelper (sh_argv disksize_command);
                                           Vbswap.Msleep DELAY] n)
                   ++ [Call_usermodehelper (sh_argv disksize_command);
                       Pr_info ("Calling " ++ disksize_command)])
      by (rewrite Hw1; reflexivity).
    repeat split; [ lia | lia | lia | exact Ht ].
  - intros Hfail.
    pose proof (disksize_loop_gives_up 26 extra w ltac:(lia) Hfail) as Hs.
    change (26 - Z.of_nat 26) with 0 in Hs.
    rewrite Hl in Hs. injection Hs as Hr Hw1.
    assert (Hc : calls w1 = (calls w + 26)%nat) by (rewrite Hw1; reflexivity).
    assert (Ht : Vbswap.trace w1
                 = Vbswap.trace w
                   ++ List.concat (repeat [Call_usermodehelper (sh_argv disksize_command);
                                           Vbswap.Msleep DELAY] 26))
      by (rewrite Hw1; reflexivity).
    repeat split; [ lia | lia | lia | exact Ht ].
Qed.

End VbswapHelper.

Lemma vbswap_helper_bounded_retry_witness :
  (exists (w1 w3 : world),
     disksize_loop (fun n _ => if Nat.ltb n 2 then 1 else 0) 26 0 init_world
     = Some (2, w1)
     /\ vbswap_helper (fun n _ => if Nat.ltb n 2 then 1 else 0) 26 init_world
        = Some w3
     /\ attempts disksize_command (Vbswap.trace w1) = 3%nat
     /\ delays (Vbswap.trace w1) = 2%nat)
  /\ (exists (w1 w3 : world),
        disksize_loop (fun _ _ => 1) 26 0 init_world = Some (26, w1)
        /\ vbswap_helper (fun _ _ => 1) 26 init_world = Some w3
        /\ attempts disksize_command (Vbswap.trace w1) = 26%nat
        /\ delays (Vbswap.trace w1) = 26%nat).
Proof.
  split.
  - destruct (vbswap_helper_bounded_retry
                (fun n _ => if Nat.ltb n 2 then 1 else 0) 0 init_world)
      as (r & w1 & w3 & Hl & _ & _ & _ & _ & Hh & _ & Hretry & _).
    destruct (Hretry 2%nat) as (Hr & Ha & Hd & _).
    + apply Nat.leb_le. reflexivity.
    + intros j Hj. apply Nat.ltb_lt in Hj. cbn [init_world calls Nat.add].
      rewrite Hj. discriminate.
    + reflexivity.
    + exists w1, w3. rewrite Hr in Hl.
      split; [ exact Hl | ]. split; [ exact Hh | ].
      split; [ exact Ha | exact Hd ].
  - destruct (vbswap_helper_bounded_retry (fun _ _ => 1) 0 init_world)
      as (r & w1 & w3 & Hl & _ & _ & _ & _ & Hh & _ & _ & Hgive).
    destruct Hgive as (Hr & Ha & Hd & _).
    + intros j _. discriminate.
    + exists w1, w3. rewrite Hr in Hl.
      split; [ exact Hl | ]. split; [ exact Hh | ].
      split; [ exact Ha | exact Hd ].
Defined.

(** The bound is reached: when every run fails the disksize command is
    attempted 26 times and slept after 26 times, 25 iterations of fuel
    are not enough, and the two other commands are still run; when the
    first run succeeds there is one attempt and no sleep. *)
Lemma vbswap_helper_always_failing :
  disksize_loop (fun _ _ => 1) 25 0 init_world = None
  /\ exists w3,
       vbswap_helper (fun _ _ => 1) 26 init_world = Some w3
       /\ attempts disksize_command (Vbswap.trace w3) = 26%nat
       /\ delays (Vbswap.trace w3) = 26%nat
       /\ attempts mkswap_command (Vbswap.trace w3) = 1%nat
       /\ attempts swapon_command (Vbswap.trace w3) = 1%nat
       /\ calls w3 = 28%nat.
Proof.
  split; [ vm_compute; reflexivity | ].
  eexists. split; [ vm_compute; reflexivity | ].
  repeat split; vm_compute; reflexivity.
Qed.

Lemma vbswap_helper_first_success :
  exists w3,
    vbswap_helper (fun _ _ => 0) 26 init_world = Some w3
    /\ attempts disksize_command (Vbswap.trace w3) = 1%nat
    /\ delays (Vbswap.trace w3) = 0%nat
    /\ attempts mkswap_command (Vbswap.trace w3) = 1%nat
    /\ attempts swapon_command (Vbswap.trace w3) = 1%nat.
Proof.
  eexists. split; [ vm_compute; reflexivity | ].
  repeat split; vm_compute; reflexivity.
Qed.

(** ** Memory of the vbswap helper *)

Section VbswapMemory.

Variable kmalloc_ok : nat -> bool.

Lemma alloc_buffers_all (n : nat) :
  forall h : heap,
    (forall j, (j < n)%nat -> kmalloc_ok (kmallocs h + j) = true) ->
    alloc_buffers kmalloc_ok n h
    = (Some (map Some (seq (kmallocs h) n)),
       {| kmallocs := kmallocs h + n; live := live h ++ seq (kmallocs h) n |}).
Proof.
  induction n as [ | n IH ]; intros h Hok.
  - cbn [alloc_buffers seq map]. rewrite Nat.add_0_r, app_nil_r.
    destruct h; reflexivity.
  - cbn [alloc_buffers]. unfold kmalloc.
    pose proof (Hok O ltac:(lia)) as H0. rewrite Nat.add_0_r in H0. rewrite H0.
    rewrite IH.
    + cbn [kmallocs live seq map]. rewrite <- app_assoc. cbn [app].
      f_equal. f_equal. lia.
    + intros j Hj. cbn [kmallocs].
      replace (S (kmallocs h) + j)%nat with (kmallocs h + S j)%nat by lia.
      apply Hok. lia.
Qed.

Lemma alloc_buffers_fails_at (n : nat) :
  forall (h : heap) (i : nat),
    (i < n)%nat ->
    (forall j, (j < i)%nat -> kmalloc_ok (kmallocs h + j) = true) ->
    kmalloc_ok (kmallocs h + i) = false ->
    alloc_buffers kmalloc_ok n h
    = (None,
       {| kmallocs := S (kmallocs h + i); live := live h ++ seq (kmallocs h) i |}).
Proof.
  induction n as [ | n IH ]; intros h i Hi Hok Hbad; [ lia | ].
  cbn [alloc_buffers]. unfold kmalloc.
  destruct i as [ | i ].
  - rewrite Nat.add_0_r in Hbad. rewrite Hbad.
    cbn [seq]. rewrite Nat.add_0_r, app_nil_r. reflexivity.
  - pose proof (Hok O ltac:(lia)) as H0. rewrite Nat.add_0_r in H0. rewrite H0.
    rewrite (IH _ i).
    + cbn [kmallocs live seq]. rewrite <- app_assoc. cbn [app].
      f_equal. f_equal. lia.
    + lia.
    + intros j Hj. cbn [kmallocs].
      replace (S (kmallocs h) + j)%nat with (kmallocs h + S j)%nat by lia.
      apply Hok. lia.
    + cbn [kmallocs].
      replace (S (kmallocs h) + i)%nat with (kmallocs h + S i)%nat by lia.
      exact Hbad.
Qed.

Lemma remove_fresh (b : nat) (l : list nat) :
  ~ In b l -> remove Nat.eq_dec b l = l.
Proof.
  induction l as [ | x rest IH ]; intros H; [ reflexivity | ].
  cbn [remove]. destruct (Nat.eq_dec b x) as [ -> | _ ].
  - exfalso. apply H. left. reflexivity.
  - f_equal. apply IH. intros Hin. apply H. right. exact Hin.
Qed.

Lemma remove_middle (b : nat) (l r : list nat) :
  ~ In b l -> ~ In b r -> remove Nat.eq_dec b (l ++ b :: r) = l ++ r.
Proof.
  intros Hl Hr. rewrite remove_app. cbn [remove].
  destruct (Nat.eq_dec b b) as [ _ | Hne ]; [ | congruence ].
  rewrite (remove_fresh b l Hl), (remove_fresh b r Hr). reflexivity.
Qed.

(** Freeing a run of consecutive blocks takes exactly them out of the
    live list. *)
Lemma free_run (n : nat) :
  forall (a c : nat) (l r : list nat),
    (forall b, In b l -> (b < a)%nat) ->
    (forall b, In b r -> (a + n <= b)%nat) ->
    fold_left (fun h' p => kfree p h') (map Some (seq a n))
      {| kmallocs := c; live := l ++ seq a n ++ r |}
    = {| kmallocs := c; live := l ++ r |}.
Proof.
  induction n as [ | n IH ]; intros a c l r Hl Hr; [ reflexivity | ].
  cbn [seq map fold_left kfree kmallocs live app].
  rewrite remove_middle.
  - apply IH.
    + intros b Hb. specialize (Hl b Hb). lia.
    + intros b Hb. specialize (Hr b Hb). lia.
  - intros Hin. specialize (Hl a Hin). lia.
  - intros Hin. apply in_app_or in Hin. destruct Hin as [ Hin | Hin ].
    + apply in_seq in Hin. lia.
    + specialize (Hr a Hin). lia.
Qed.

(** X16.  When the array itself cannot be allocated nothing is allocated.
    When the buffer of cell [i] cannot be allocated, [alloc_memory]
    answers NULL and frees the array, but the [i] buffers allocated
    before stay allocated. *)
Theorem alloc_memory_failure (size i : nat) (h : heap) :
  heap_ok h ->
  (kmalloc_ok (kmallocs h) = false ->
   alloc_memory kmalloc_ok size h
   = (None, {| kmallocs := S (kmallocs h); live := live h |}))
  /\ (kmalloc_ok (kmallocs h) = true ->
      (i < size)%nat ->
      (forall j, (j < i)%nat -> kmalloc_ok (S (kmallocs h) + j) = true) ->
      kmalloc_ok (S (kmallocs h) + i) = false ->
      alloc_memory kmalloc_ok size h
      = (None,
         {| kmallocs := S (S (kmallocs h) + i);
            live := live h ++ seq (S (kmallocs h)) i |})).
Proof.
  intros Hh. unfold alloc_memory, kmalloc. split.
  - intros H0. rewrite H0. reflexivity.
  - intros H0 Hi Hok Hbad. rewrite H0.
    rewrite (alloc_buffers_fails_at size _ i Hi); cbn [kmallocs live];
      try assumption.
    cbn [kfree kmallocs live]. f_equal. f_equal.
    rewrite <- app_assoc. cbn [app].
    apply remove_middle.
    + intros Hin. specialize (Hh _ Hin). lia.
    + intros Hin. apply in_seq in Hin. lia.
Qed.

Lemma alloc_memory_all (size : nat) (h : heap) :
  (forall j, (j <= size)%nat -> kmalloc_ok (kmallocs h + j) = true) ->
  alloc_memory kmalloc_ok size h
  = (Some (kmallocs h, map Some (seq (S (kmallocs h)) size)),
     {| kmallocs := S (kmallocs h) + size;
        live := (live h ++ [kmallocs h]) ++ seq (S (kmallocs h)) size |}).
Proof.
  intros Hok. unfold alloc_memory, kmalloc.
  pose proof (Hok O ltac:(lia)) as H0. rewrite Nat.add_0_r in H0. rewrite H0.
  rewrite alloc_buffers_all; [ reflexivity | ].
  intros j Hj. cbn [kmallocs].
  replace (S (kmallocs h) + j)%nat with (kmallocs h + S j)%nat by lia.
  apply Hok. lia.
Qed.

Lemma alloc_buffers_none (n : nat) :
  forall (h : heap) (j : nat),
    (j < n)%nat -> kmalloc_ok (kmallocs h + j) = false ->
    fst (alloc_buffers kmalloc_ok n h) = None.
Proof.
  induction n as [ | n IH ]; intros h j Hj Hbad; [ lia | ].
  cbn [alloc_buffers]. unfold kmalloc.
  destruct (kmalloc_ok (kmallocs h)) eqn:E0; [ | reflexivity ].
  destruct j as [ | j ].
  - rewrite Nat.add_0_r in Hbad. congruence.
  - pose proof (IH {| kmallocs := S (kmallocs h);
                      live := live h ++ [kmallocs h] |} j ltac:(lia)) as H.
    cbn [kmallocs] in H.
    replace (S (kmallocs h) + j)%nat with (kmallocs h + S j)%nat in H by lia.
    specialize (H Hbad).
    destruct (alloc_buffers kmalloc_ok n _) as [ [ cells | ] h2 ];
      [ discriminate H | reflexivity ].
Qed.

Lemma alloc_memory_none (size j : nat) (h : heap) :
  (j <= size)%nat -> kmalloc_ok (kmallocs h + j) = false ->
  fst (alloc_memory kmalloc_ok size h) = None.
Proof.
  intros Hj Hbad. unfold alloc_memory, kmalloc.
  destruct (kmalloc_ok (kmallocs h)) eqn:E0; [ | reflexivity ].
  destruct j as [ | j ].
  - rewrite Nat.add_0_r in Hbad. congruence.
  - pose proof (alloc_buffers_none size
                  {| kmallocs := S (kmallocs h);
                     live := live h ++ [kmallocs h] |} j ltac:(lia)) as H.
    cbn [kmallocs] in H.
    replace (S (kmallocs h) + j)%nat with (kmallocs h + S j)%nat in H by lia.
    specialize (H Hbad).
    destruct (alloc_buffers kmalloc_ok size _) as [ [ cells | ] h2 ];
      [ discriminate H | reflexivity ].
Qed.

(** X17.  When all [size + 1] allocations succeed, [alloc_memory] returns the
    array with [size] buffers, and [free_memory] on what it returned
    gives every one of these blocks back: the live blocks are those
    from before. *)
Theorem alloc_then_free_restores (size : nat) (h : heap) :
  heap_ok h ->
  (forall j, (j <= size)%nat -> kmalloc_ok (kmallocs h + j) = true) ->
  exists argv h1,
    alloc_memory kmalloc_ok size h = (Some argv, h1)
    /\ List.length (snd argv) = size
    /\ live h1 = live h ++ seq (kmallocs h) (S size)
    /\ live (free_memory argv size h1) = live h.
Proof.
  intros Hh Hok. unfold alloc_memory, kmalloc.
  pose proof (Hok O ltac:(lia)) as H0. rewrite Nat.add_0_r in H0. rewrite H0.
  rewrite alloc_buffers_all.
  - cbn [kmallocs live]. eexists. eexists.
    split; [ reflexivity | ].
    cbn [snd fst live].
    split; [ rewrite length_map, length_seq; reflexivity | ].
    split; [ rewrite <- app_assoc; reflexivity | ].
    unfold free_memory. cbn [fst snd].
    rewrite firstn_all2 by (rewrite length_map, length_seq; lia).
    replace ((live h ++ [kmallocs h]) ++ seq (S (kmallocs h)) size)
      with ((live h ++ [kmallocs h]) ++ seq (S (kmallocs h)) size ++ [])
      by (rewrite app_nil_r; reflexivity).
    rewrite free_run.
    + cbn [kfree live]. rewrite app_nil_r.
      replace (live h ++ [kmallocs h]) with (live h ++ kmallocs h :: [])
        by reflexivity.
      rewrite remove_middle; [ apply app_nil_r | | intros [] ].
      intros Hin. specialize (Hh _ Hin). lia.
    + intros b Hb. apply in_app_or in Hb. destruct Hb as [ Hb | [ <- | [] ] ].
      * specialize (Hh _ Hb). lia.
      * lia.
    + intros b [].
  - intros j Hj. cbn [kmallocs].
    replace (S (kmallocs h) + j)%nat with (kmallocs h + S j)%nat by lia.
    apply Hok. lia.
Qed.

Variable umh : nat -> list string -> Z.

Lemma vbswap_helper_returns (extra : nat) (w : world) :
  exists w', vbswap_helper umh (26 + extra) w = Some w'.
Proof.
  destruct (disksize_loop_terminates umh (26 + extra) 0 w)
    as (r & w1 & Hl & _); [ lia | lia | ].
  unfold vbswap_helper. rewrite Hl. eexists. reflexivity.
Qed.

(** X18.  When one of the five allocations fails, [vbswap_init] gives up at
    once: no command is run and SELinux is not touched, whether it was
    enforcing or not. *)
Theorem vbswap_init_without_memory
    (fuel j : nat) (is_enforcing : bool) (helper_calls : nat) (h : heap) :
  (j <= STANDARD_SIZE)%nat ->
  kmalloc_ok (kmallocs h + j) = false ->
  exists h',
    vbswap_init kmalloc_ok umh fuel is_enforcing helper_calls h
    = Some (h', [], helper_calls).
Proof.
  intros Hj Hbad. unfold vbswap_init.
  pose proof (alloc_memory_none STANDARD_SIZE j h Hj Hbad) as Hn.
  destruct (alloc_memory kmalloc_ok STANDARD_SIZE h) as [ [ argv | ] h1 ];
    [ discriminate Hn | ].
  exists h1. reflexivity.
Qed.

Lemma filter_helper_events (tr : list Vbswap.effect) :
  filter is_set_selinux (map Helper tr) = [].
Proof. induction tr as [ | e rest IH ]; [ reflexivity | exact IH ]. Qed.

(** X19.  With its memory, [vbswap_init] always gets to its end, whatever the
    commands return.  When SELinux was enforcing it is set permissive
    before the first command and enforcing again after the last, and
    these are the only two changes; when it was not enforcing it is
    never touched. *)
Theorem vbswap_init_restores_selinux
    (extra : nat) (is_enforcing : bool) (helper_calls : nat) (h : heap) :
  (forall j, (j <= STANDARD_SIZE)%nat -> kmalloc_ok (kmallocs h + j) = true) ->
  exists h' w events,
    vbswap_helper umh (26 + extra) {| calls := helper_calls; Vbswap.trace := [] |}
    = Some w
    /\ vbswap_init kmalloc_ok umh (26 + extra) is_enforcing helper_calls h
       = Some (h', events, calls w)
    /\ events
       = (if is_enforcing
          then [Init_pr_info "Setting selinux state: permissive"; Set_selinux 0]
          else [])
         ++ map Helper (Vbswap.trace w)
         ++ (if is_enforcing
             then [Init_pr_info "Setting selinux state: enforcing"; Set_selinux 1]
             else [])
    /\ filter is_set_selinux events
       = (if is_enforcing then [Set_selinux 0; Set_selinux 1] else []).
Proof.
  intros Hok.
  destruct (vbswap_helper_returns extra
              {| calls := helper_calls; Vbswap.trace := [] |}) as (w & Hw).
  unfold vbswap_init. rewrite (alloc_memory_all STANDARD_SIZE h Hok), Hw.
  eexists. exists w. eexists.
  split; [ reflexivity | ].
  split; [ reflexivity | ].
  split; [ reflexivity | ].
  rewrite !filter_app, filter_helper_events.
  destruct is_enforcing; reflexivity.
Qed.

(** X20.  [linux_sh] overwrites [argv[3]] with NULL, so [free_memory] cannot
    free the buffer that cell pointed to: after a complete
    [vbswap_init] exactly that one block, the fifth allocated, is
    still allocated. *)
Theorem vbswap_init_leaks_one_buffer
    (extra : nat) (is_enforcing : bool) (helper_calls : nat) (h : heap) :
  heap_ok h ->
  (forall j, (j <= STANDARD_SIZE)%nat -> kmalloc_ok (kmallocs h + j) = true) ->
  exists h' events n,
    vbswap_init kmalloc_ok umh (26 + extra) is_enforcing helper_calls h
    = Some (h', events, n)
    /\ kmallocs h' = (kmallocs h + 5)%nat
    /\ live h' = live h ++ [(kmallocs h + 4)%nat].
Proof.
  intros Hh Hok.
  destruct (vbswap_helper_returns extra
              {| calls := helper_calls; Vbswap.trace := [] |}) as (w & Hw).
  unfold vbswap_init. rewrite (alloc_memory_all STANDARD_SIZE h Hok), Hw.
  eexists. eexists. eexists.
  split; [ reflexivity | ].
  unfold free_memory, STANDARD_SIZE. cbn [fst snd seq map store firstn].
  change [Some (S (kmallocs h)); Some (S (S (kmallocs h)));
          Some (S (S (S (kmallocs h)))); None]
    with (map Some (seq (S (kmallocs h)) 3) ++ [None]).
  rewrite fold_left_app.
  change ((live h ++ [kmallocs h])
          ++ [S (kmallocs h); S (S (kmallocs h)); S (S (S (kmallocs h)));
              S (S (S (S (kmallocs h))))])
    with ((live h ++ [kmallocs h])
          ++ seq (S (kmallocs h)) 3 ++ [S (S (S (S (kmallocs h))))]).
  rewrite free_run.
  - cbn [fold_left kfree kmallocs live].
    split; [ lia | ].
    rewrite <- app_assoc. cbn [app].
    rewrite remove_middle.
    + f_equal. f_equal. lia.
    + intros Hin. specialize (Hh _ Hin). lia.
    + intros [ E | [] ]. lia.
  - intros b Hb. apply in_app_or in Hb. destruct Hb as [ Hb | [ <- | [] ] ].
    + specialize (Hh _ Hb). lia.
    + lia.
  - intros b [ <- | [] ]. lia.
Qed.

End VbswapMemory.

Lemma heap_ok_empty (c : nat) : heap_ok (mkHeap c []).
Proof. intros b []. Qed.

Lemma alloc_memory_failure_witness :
  alloc_memory (fun n => negb (Nat.eqb n 3)) 4 (mkHeap 0 [])
  = (None, mkHeap 4 [1%nat; 2%nat]).
Proof.
  apply (proj2 (alloc_memory_failure (fun n => negb (Nat.eqb n 3)) 4 2
                  (mkHeap 0 []) (heap_ok_empty 0))).
  - reflexivity.
  - apply Nat.ltb_lt. reflexivity.
  - intros j Hj. destruct j as [ | [ | j ] ]; [ reflexivity | reflexivity | ].
    exfalso. apply Nat.ltb_lt in Hj. discriminate Hj.
  - reflexivity.
Defined.

Lemma alloc_then_free_restores_witness :
  exists argv h1,
    alloc_memory (fun _ => true) 4 (mkHeap 7 []) = (Some argv, h1)
    /\ live h1 = [7; 8; 9; 10; 11]%nat
    /\ live (free_memory argv 4 h1) = [].
Proof.
  destruct (alloc_then_free_restores (fun _ => true) 4 (mkHeap 7 [])
              (heap_ok_empty 7) (fun _ _ => eq_refl))
    as (argv & h1 & H1 & _ & H3 & H4).
  exists argv, h1. repeat split; assumption.
Defined.

Lemma vbswap_init_without_memory_witness :
  exists h',
    vbswap_init (fun n => negb (Nat.eqb n 2)) (fun _ _ => 0) 0 true 0 (mkHeap 0 [])
    = Some (h', [], 0%nat).
Proof.
  apply (vbswap_init_without_memory (fun n => negb (Nat.eqb n 2)) (fun _ _ => 0)
           0 2 true 0 (mkHeap 0 [])).
  - apply Nat.leb_le. reflexivity.
  - reflexivity.
Defined.

Lemma vbswap_init_restores_selinux_witness :
  exists h' w events,
    vbswap_init (fun _ => true) (fun _ _ => 1) 26 true 0 (mkHeap 0 [])
    = Some (h', events, calls w)
    /\ filter is_set_selinux events = [Set_selinux 0; Set_selinux 1].
Proof.
  destruct (vbswap_init_restores_selinux (fun _ => true) (fun _ _ => 1)
              0 true 0 (mkHeap 0 []) (fun _ _ => eq_refl))
    as (h' & w & events & _ & H2 & _ & H4).
  exists h', w, events. split; assumption.
Defined.

Lemma vbswap_init_leaks_one_buffer_witness :
  exists h' events n,
    vbswap_init (fun _ => true) (fun _ _ => 0) 26 false 0 (mkHeap 0 [])
    = Some (h', events, n)
    /\ live h' = [4%nat].
Proof.
  destruct (vbswap_init_leaks_one_buffer (fun _ => true) (fun _ _ => 0)
              0 false 0 (mkHeap 0 []) (heap_ok_empty 0) (fun _ _ => eq_refl))
    as (h' & events & n & H1 & _ & H3).
  exists h', events, n. split; assumption.
Defined.

(** ** The retry loop, exactly *)

Section VbswapLoop.

Variable umh : nat -> list string -> Z.

(** X21.  The loop stops at the first success: when the disksize command
    fails [n] times (at most 25) and then succeeds, it is run exactly
    [n + 1] times, with one [DELAY] sleep after each failure and none
    after the success.  When it fails 26 times in a row the loop gives
    up after the 26th attempt and its sleep. *)
Theorem disksize_loop_exact (n extra : nat) (w : world) :
  ((n <= 25)%nat ->
   (forall j, (j < n)%nat ->
              umh (calls w + j) (sh_argv disksize_command) <> 0) ->
   umh (calls w + n) (sh_argv disksize_command) = 0 ->
   disksize_loop umh (S n + extra) 0 w
   = Some (Z.of_nat n,
           {| calls := calls w + S n;
              Vbswap.trace :=
                Vbswap.trace w
                ++ List.concat (repeat [Call_usermodehelper (sh_argv disksize_command);
                                   Vbswap.Msleep DELAY] n)
                ++ [Call_usermodehelper (sh_argv disksize_command);
                    Pr_info ("Calling " ++ disksize_command)] |}))
  /\ ((forall j, (j < 26)%nat ->
                 umh (calls w + j) (sh_argv disksize_command) <> 0) ->
      disksize_loop umh (26 + extra) 0 w
      = Some (26,
              {| calls := calls w + 26;
                 Vbswap.trace :=
                   Vbswap.trace w
                   ++ List.concat (repeat [Call_usermodehelper (sh_argv disksize_command);
                                      Vbswap.Msleep DELAY] 26) |})).
Proof.
  split.
  - intros Hn Hfail Hok.
    rewrite (disksize_loop_stops_at_success umh n extra 0 w); try assumption; try lia.
    reflexivity.
  - intros Hfail.
    apply (disksize_loop_gives_up umh 26 extra w); [ lia | exact Hfail ].
Qed.

End VbswapLoop.

Lemma disksize_loop_exact_witness :
  disksize_loop (fun n _ => if Nat.ltb n 2 then 1 else 0) 3 0 init_world
  = Some (2,
          {| calls := 3;
             Vbswap.trace :=
               [ Call_usermodehelper (sh_argv disksize_command); Vbswap.Msleep DELAY;
                 Call_usermodehelper (sh_argv disksize_command); Vbswap.Msleep DELAY;
                 Call_usermodehelper (sh_argv disksize_command);
                 Pr_info ("Calling " ++ disksize_command) ] |}).
Proof.
  apply (proj1 (disksize_loop_exact (fun n _ => if Nat.ltb n 2 then 1 else 0)
                  2 0 init_world)).
  - apply Nat.leb_le. reflexivity.
  - intros j Hj. apply Nat.ltb_lt in Hj. cbn [init_world calls Nat.add].
    rewrite Hj. discriminate.
  - reflexivity.
Defined.
